(** * gogo: the embedded store's migration, backup, export/import and health code

    A shallow embedding of
      - internal/db/migrations.go   (MigrationManager),
      - the export/import manager   (ExportManager),
      - the backup manager          (isCompressedFile, GetBackupInfo),
      - the health manager          (CheckHealth and its eight probes),
      - the storage handle          (Manager.WithTx),
    together with the properties of these functions that the project's
    specification states.

    Go strings are byte sequences: they are modelled as [string] (a list of
    8-bit [ascii]), and a Go [map[string]T] as a [gmap string T].  The SQL
    engine behind [database/sql] is not part of the repository: the effect of
    executing a SQL text is a parameter [exec] of the development, and a
    transaction is a private working copy of the store that [Commit] installs
    and [Rollback] discards. *)

From Stdlib Require Import ZArith NArith Ascii String List Bool Lia.
From stdpp Require Import base gmap strings list sorting pretty.

(** ** Go standard-library functions used by the code *)

Module GoStd.

Definition byte_of (a : ascii) : N := N_of_ascii a.

(** The six ASCII white-space bytes: HT, LF, VT, FF, CR and space. *)
Definition is_ascii_space (a : ascii) : bool :=
  let b := byte_of a in
  ((9 <=? b) && (b <=? 13) || (b =? 32))%N.

(** [strings.TrimSpace] removes leading and trailing Unicode white space
    (U+0009..U+000D, U+0020, U+0085, U+00A0, U+1680, U+2000..U+200A,
    U+2028, U+2029, U+202F, U+205F, U+3000) of a UTF-8 text.
    [space_at_front] strips one white-space rune from the front, when the
    text starts with the encoding of one. *)
Definition space_at_front (s : string) : option string :=
  match s with
  | String a r =>
      if is_ascii_space a then Some r
      else
        match byte_of a, r with
        | 0xC2%N, String b r1 =>
            if ((byte_of b =? 0x85) || (byte_of b =? 0xA0))%N
            then Some r1 else None
        | 0xE1%N, String b (String c r2) =>
            if ((byte_of b =? 0x9A) && (byte_of c =? 0x80))%N
            then Some r2 else None
        | 0xE2%N, String b (String c r2) =>
            if ((byte_of b =? 0x80) &&
                ((0x80 <=? byte_of c) && (byte_of c <=? 0x8A)
                 || (byte_of c =? 0xA8) || (byte_of c =? 0xA9)
                 || (byte_of c =? 0xAF))
                || (byte_of b =? 0x81) && (byte_of c =? 0x9F))%N
            then Some r2 else None
        | 0xE3%N, String b (String c r2) =>
            if ((byte_of b =? 0x80) && (byte_of c =? 0x80))%N
            then Some r2 else None
        | _, _ => None
        end
  | EmptyString => None
  end.

(** The same from the back, on the reversed text: the last rune is a
    white-space rune exactly when the text ends with its encoding. *)
Definition space_at_back (rs : string) : option string :=
  match rs with
  | String a r =>
      if is_ascii_space a then Some r
      else
        match r with
        | String b r1 =>
            if ((byte_of b =? 0xC2) &&
                ((byte_of a =? 0x85) || (byte_of a =? 0xA0)))%N
            then Some r1
            else
              match r1 with
              | String c r2 =>
                  let x := byte_of c in
                  let y := byte_of b in
                  let z := byte_of a in
                  if ((x =? 0xE1) && (y =? 0x9A) && (z =? 0x80)
                      || (x =? 0xE2) && (y =? 0x80) &&
                         ((0x80 <=? z) && (z <=? 0x8A) || (z =? 0xA8)
                          || (z =? 0xA9) || (z =? 0xAF))
                      || (x =? 0xE2) && (y =? 0x81) && (z =? 0x9F)
                      || (x =? 0xE3) && (y =? 0x80) && (z =? 0x80))%N
                  then Some r2 else None
              | EmptyString => None
              end
        | EmptyString => None
        end
  | EmptyString => None
  end.

Fixpoint strip (step : string -> option string) (fuel : nat) (s : string)
  : string :=
  match fuel with
  | O => s
  | S fuel' =>
      match step s with
      | Some r => strip step fuel' r
      | None => s
      end
  end.

Definition TrimLeftSpace (s : string) : string :=
  strip space_at_front (String.length s) s.

Definition TrimRightSpace (s : string) : string :=
  String.rev (strip space_at_back (String.length s) (String.rev s)).

Definition TrimSpace (s : string) : string :=
  TrimRightSpace (TrimLeftSpace s).

(** [strings.HasPrefix s prefix]. *)
Definition HasPrefix (s p : string) : bool := String.prefix p s.

(** [strings.Split s sep] for a one-byte separator: the fragments between
    the separators, one more than there are separators. *)
Fixpoint Split (s : string) (sep : ascii) : list string :=
  match s with
  | EmptyString => [EmptyString]
  | String a r =>
      if Ascii.eqb a sep then EmptyString :: Split r sep
      else
        match Split r sep with
        | f :: fs => String a f :: fs
        | [] => [String a EmptyString]
        end
  end.

(** [strings.ReplaceAll s old new] for a one-byte [old]. *)
Fixpoint ReplaceAll (s : string) (old : ascii) (new : string) : string :=
  match s with
  | EmptyString => EmptyString
  | String a r =>
      if Ascii.eqb a old then new +:+ ReplaceAll r old new
      else String a (ReplaceAll r old new)
  end.

(** The verb [%d] of [fmt] on a non-negative [int], and on an [int64]. *)
Definition fmt_d (n : nat) : string := pretty n.
Definition fmt_dZ (z : Z) : string := pretty z.

(** The verb [%c] on a byte: the UTF-8 encoding of the code point
    U+0000..U+00FF with that value. *)
Definition fmt_c (a : ascii) : string :=
  let b := byte_of a in
  if (b <? 0x80)%N then String a EmptyString
  else String (ascii_of_N (N.lor 0xC0 (N.shiftr b 6)))
         (String (ascii_of_N (N.lor 0x80 (N.land b 0x3F))) EmptyString).

(** [s[len(s)-1]]. *)
Fixpoint last_byte (a : ascii) (s : string) : ascii :=
  match s with
  | EmptyString => a
  | String b r => last_byte b r
  end.

(** [strings.Join l sep]. *)
Fixpoint Join (l : list string) (sep : string) : string :=
  match l with
  | [] => EmptyString
  | [s] => s
  | s :: r => s +:+ sep +:+ Join r sep
  end.

End GoStd.


Import GoStd.

(** ** Errors and results *)

(** A Go [error] value as the code builds it: an error of the SQL engine or
    of the operating system, [fmt.Errorf] with a plain message,
    [fmt.Errorf(msg + ": %w", err)] wrapping a cause, and the same with
    text after the cause. *)
Inductive error : Type :=
| EngineError (msg : string)
| Errorf (msg : string)
| Wrap (msg : string) (cause : error)
| WrapTail (msg : string) (cause : error) (tail : string).

Inductive result (A : Type) : Type :=
| Ok (a : A)
| Err (e : error).
Arguments Ok {A} a.
Arguments Err {A} e.

Definition is_ok {A} (r : result A) : bool :=
  match r with Ok _ => true | Err _ => false end.

Definition rbind {A B} (r : result A) (k : A -> result B) : result B :=
  match r with
  | Ok a => k a
  | Err e => Err e
  end.

(** [wrap msg r] is the pattern
    [if err != nil { return fmt.Errorf(msg + ": %w", err) }]. *)
Definition wrap {A} (msg : string) (r : result A) : result A :=
  match r with
  | Ok a => Ok a
  | Err e => Err (Wrap msg e)
  end.

Global Instance result_ret : MRet result := fun A a => Ok a.
Global Instance result_bind : MBind result := fun A B k r => rbind r k.

(** ** The store *)

(** A value read from a column into an [interface{}]. A [float64] is kept as
    the text that [%v] prints for it. *)
Inductive Value : Type :=
| VNull
| VInt (z : Z)
| VReal (printed : string)
| VText (s : string)
| VBlob (bytes : string)
| VBool (b : bool)
| VTime (t : Z).

Record Table : Type := mkTable {
  tbl_sql : option string;       (* sqlite_master.sql, a NullString *)
  tbl_columns : list string;
  tbl_rows : list (list Value)
}.

(** A row of [schema_migrations (id, description, applied_at, checksum)]. *)
Record LedgerRow : Type := mkLedgerRow {
  l_id : string;
  l_description : string;
  l_applied_at : Z;
  l_checksum : string
}.

(** The store behind the handle: the ledger table [schema_migrations]
    ([None] while it has not been created; rows in rowid order) and every
    other table by name. *)
Record Store : Type := mkStore {
  tables : gmap string Table;
  ledger : option (list LedgerRow)
}.

Definition with_ledger (s : Store) (l : option (list LedgerRow)) : Store :=
  {| tables := tables s; ledger := l |}.

Definition ledger_rows (s : Store) : list LedgerRow :=
  match ledger s with
  | Some l => l
  | None => []
  end.

(** Number of ledger rows with a given id. *)
Definition ledger_count (id : string) (s : Store) : nat :=
  length (filter (fun r => l_id r = id) (ledger_rows s)).

(** What the driver itself may answer on each kind of call, whatever the
    statement: [None] when the call goes through. *)
Record Faults : Type := mkFaults {
  begin_err : option error;      (* BeginTx *)
  commit_err : option error;     (* tx.Commit *)
  ledger_err : option error;     (* the ledger INSERT / DELETE inside a tx *)
  ddl_err : option error;        (* the CREATE TABLE of InitMigrationTable *)
  query_err : option error       (* QueryContext / QueryRowContext *)
}.

Definition no_faults : Faults :=
  {| begin_err := None; commit_err := None; ledger_err := None;
     ddl_err := None; query_err := None |}.

Definition check (f : option error) : result unit :=
  match f with
  | Some e => Err e
  | None => Ok tt
  end.

(** *** The statements on the ledger that the code issues *)

(** [CREATE TABLE IF NOT EXISTS schema_migrations (...)]. *)
Definition create_ledger_if_absent (s : Store) : Store :=
  match ledger s with
  | Some _ => s
  | None => with_ledger s (Some [])
  end.

(** [INSERT INTO schema_migrations (id, description, checksum) VALUES (?, ?, ?)]:
    [id] is the primary key and [applied_at] defaults to the engine's clock. *)
Definition ledger_insert (now : Z) (id description checksum : string)
    (s : Store) : result Store :=
  match ledger s with
  | None => Err (EngineError "no such table: schema_migrations")
  | Some l =>
      if existsb (fun r => String.eqb (l_id r) id) l
      then Err (EngineError "UNIQUE constraint failed: schema_migrations.id")
      else Ok (with_ledger s
                 (Some (l ++ [mkLedgerRow id description now checksum])))
  end.

(** [DELETE FROM schema_migrations WHERE id = ?]. *)
Definition ledger_delete (id : string) (s : Store) : result Store :=
  match ledger s with
  | None => Err (EngineError "no such table: schema_migrations")
  | Some l =>
      Ok (with_ledger s (Some (filter (fun r => l_id r <> id) l)))
  end.

(** [SELECT id, description, applied_at FROM schema_migrations
     ORDER BY applied_at DESC LIMIT 1]: a row with the greatest timestamp,
    the earliest such row in rowid order. *)
Fixpoint latest_row (l : list LedgerRow) : option LedgerRow :=
  match l with
  | [] => None
  | r :: l' =>
      match latest_row l' with
      | Some r' =>
          if (l_applied_at r' <=? l_applied_at r)%Z then Some r else Some r'
      | None => Some r
      end
  end.

(** ** internal/db/migrations.go *)

Record Migration : Type := mkMigration {
  ID : string;
  Description : string;
  UpSQL : string;
  DownSQL : string;
  Applied : bool;
  AppliedAt : option Z
}.

(** The manager: the store its handle designates and the registry, a Go
    [map[string]*Migration]. *)
Record MigrationManager : Type := mkManager {
  db : Store;
  migrations : gmap string Migration
}.

Definition set_db (m : MigrationManager) (s : Store) : MigrationManager :=
  {| db := s; migrations := migrations m |}.

Definition set_migrations (m : MigrationManager) (r : gmap string Migration)
  : MigrationManager :=
  {| db := db m; migrations := r |}.

Definition NewMigrationManager (s : Store) : MigrationManager :=
  {| db := s; migrations := ∅ |}.

Definition RegisterMigration (id description upSQL downSQL : string)
    (m : MigrationManager) : MigrationManager :=
  set_migrations m
    (<[id := mkMigration id description upSQL downSQL false None]>
       (migrations m)).

(** Every entry of the registry sits under its own id: the only writer of
    the map is [RegisterMigration]. *)
Definition registry_wf (r : gmap string Migration) : Prop :=
  map_Forall (fun k v => ID v = k) r.

(** [sort.Slice(l, func(i, j) bool { return l[i].ID < l[j].ID })]: Go
    strings compare byte-wise. *)
Definition by_ID : relation Migration := fun a b => String.le (ID a) (ID b).

Global Instance by_ID_dec : RelDecision by_ID.
Proof. intros a b. unfold by_ID. apply _. Defined.

Definition sort_by_ID (l : list Migration) : list Migration :=
  merge_sort by_ID l.

(** Strictly ascending ids. *)
Definition ID_lt : relation Migration :=
  fun a b => String.le (ID a) (ID b) /\ ID a <> ID b.

Definition generateChecksum (content : string) : string :=
  let content := TrimSpace content in
  match content with
  | EmptyString => "empty"
  | String c0 rest =>
      fmt_d (String.length content) +:+ "-" +:+ fmt_c c0
        +:+ fmt_c (last_byte c0 rest)
  end.

Definition InitMigrationTable (f : Faults) (m : MigrationManager)
  : result unit * MigrationManager :=
  match ddl_err f with
  | Some e => (Err (Wrap "failed to create schema_migrations table" e), m)
  | None => (Ok tt, set_db m (create_ledger_if_absent (db m)))
  end.

(** The loop over [rows.Next()] of [GetAppliedMigrations]. *)
Fixpoint scan_applied (rows : list LedgerRow) (applied : gmap string Migration)
  : gmap string Migration :=
  match rows with
  | [] => applied
  | r :: rest =>
      scan_applied rest
        (<[l_id r := mkMigration (l_id r) (l_description r) "" "" true
                       (Some (l_applied_at r))]> applied)
  end.

(** [SELECT ... FROM schema_migrations ORDER BY id]. *)
Definition rows_by_id (s : Store) : list LedgerRow :=
  merge_sort (fun a b => String.le (l_id a) (l_id b)) (ledger_rows s).

Definition GetAppliedMigrations (f : Faults) (m : MigrationManager)
  : result (gmap string Migration) * MigrationManager :=
  match InitMigrationTable f m with
  | (Err e, m1) => (Err e, m1)
  | (Ok _, m1) =>
      match query_err f with
      | Some e => (Err (Wrap "failed to query applied migrations" e), m1)
      | None => (Ok (scan_applied (rows_by_id (db m1)) ∅), m1)
      end
  end.

Definition GetPendingMigrations (f : Faults) (m : MigrationManager)
  : result (list Migration) * MigrationManager :=
  match GetAppliedMigrations f m with
  | (Err e, m1) => (Err e, m1)
  | (Ok applied, m1) =>
      let pending :=
        filter (fun kv => applied !! kv.1 = None)
               (map_to_list (migrations m1)) in
      (Ok (sort_by_ID (pending.*2)), m1)
  end.

Section Engine.

(** The SQL engine: the effect of executing a SQL text on a store (or on
    the working copy of a transaction). *)
Variable exec : string -> Store -> result Store.

Definition ApplyMigration (f : Faults) (now : Z) (migration : Migration)
    (m : MigrationManager) : result unit * MigrationManager :=
  if decide (UpSQL migration = "") then
    (Err (Errorf ("migration " +:+ ID migration +:+ " has no up SQL")), m)
  else
    match begin_err f with
    | Some e => (Err (Wrap "failed to begin transaction" e), m)
    | None =>
        (* tx is a working copy; every return before Commit drops it
           (defer tx.Rollback()) *)
        let tx := db m in
        match exec (UpSQL migration) tx with
        | Err e =>
            (Err (Wrap ("failed to execute migration " +:+ ID migration) e),
             m)
        | Ok tx1 =>
            let checksum := generateChecksum (UpSQL migration) in
            match
              _ ← check (ledger_err f);
              ledger_insert now (ID migration) (Description migration)
                checksum tx1
            with
            | Err e =>
                (Err (Wrap ("failed to record migration " +:+ ID migration)
                        e), m)
            | Ok tx2 =>
                match commit_err f with
                | Some e =>
                    (Err (Wrap ("failed to commit migration "
                                  +:+ ID migration) e), m)
                | None => (Ok tt, set_db m tx2)
                end
            end
        end
    end.

Definition RollbackMigration (f : Faults) (migration : Migration)
    (m : MigrationManager) : result unit * MigrationManager :=
  if decide (DownSQL migration = "") then
    (Err (Errorf ("migration " +:+ ID migration +:+ " has no down SQL")), m)
  else
    match begin_err f with
    | Some e => (Err (Wrap "failed to begin transaction" e), m)
    | None =>
        let tx := db m in
        match exec (DownSQL migration) tx with
        | Err e =>
            (Err (Wrap ("failed to rollback migration " +:+ ID migration) e),
             m)
        | Ok tx1 =>
            match
              _ ← check (ledger_err f);
              ledger_delete (ID migration) tx1
            with
            | Err e =>
                (Err (Wrap ("failed to remove migration record "
                              +:+ ID migration) e), m)
            | Ok tx2 =>
                match commit_err f with
                | Some e =>
                    (Err (Wrap ("failed to commit rollback "
                                  +:+ ID migration) e), m)
                | None => (Ok tt, set_db m tx2)
                end
            end
        end
    end.

(** [nil, nil] is [Ok None]. A registered migration is returned after its
    registry entry has been marked applied in place. *)
Definition GetLastAppliedMigration (f : Faults) (m : MigrationManager)
  : result (option Migration) * MigrationManager :=
  match InitMigrationTable f m with
  | (Err e, m1) => (Err e, m1)
  | (Ok _, m1) =>
      match query_err f with
      | Some e => (Err (Wrap "failed to get last applied migration" e), m1)
      | None =>
          match latest_row (ledger_rows (db m1)) with
          | None => (Ok None, m1)
          | Some r =>
              match migrations m1 !! l_id r with
              | Some migration =>
                  let migration' :=
                    mkMigration (ID migration) (Description migration)
                      (UpSQL migration) (DownSQL migration) true
                      (Some (l_applied_at r)) in
                  (Ok (Some migration'),
                   set_migrations m1
                     (<[l_id r := migration']> (migrations m1)))
              | None =>
                  (Ok (Some (mkMigration (l_id r) (l_description r) "" ""
                               true (Some (l_applied_at r)))), m1)
              end
          end
      end
  end.

Definition RollbackLast (f : Faults) (m : MigrationManager)
  : result unit * MigrationManager :=
  match GetLastAppliedMigration f m with
  | (Err e, m1) => (Err e, m1)
  | (Ok None, m1) => (Ok tt, m1)
  | (Ok (Some lastMigration), m1) =>
      match migrations m1 !! ID lastMigration with
      | None =>
          (Err (Errorf ("migration " +:+ ID lastMigration
                          +:+ " not found in registered migrations")), m1)
      | Some migration => RollbackMigration f migration m1
      end
  end.

End Engine.

(** The four core migrations, with the bodies as written in the source. *)
Definition core_001_up : string :=
  "-- This migration ensures core tables exist
		 -- (Schema may already be created by schema.go, but this ensures consistency)".

Definition core_001_down : string :=
  "-- Rollback would drop tables, but we don't want to accidentally destroy data
		 -- SELECT 'Rollback not implemented for initial schema' as warning;".

Definition core_002_up : string :=
  "CREATE INDEX IF NOT EXISTS idx_templates_name ON templates(name);
		 CREATE INDEX IF NOT EXISTS idx_blueprints_name ON blueprints(name);
		 CREATE INDEX IF NOT EXISTS idx_blueprints_stack ON blueprints(stack);".

Definition core_002_down : string :=
  "DROP INDEX IF EXISTS idx_templates_name;
		 DROP INDEX IF EXISTS idx_blueprints_name;
		 DROP INDEX IF EXISTS idx_blueprints_stack;".

Definition core_003_up : string :=
  "CREATE TABLE IF NOT EXISTS audit_log (
			id INTEGER PRIMARY KEY AUTOINCREMENT,
			table_name VARCHAR(50) NOT NULL,
			record_id VARCHAR(255) NOT NULL,
			action VARCHAR(10) NOT NULL, -- INSERT, UPDATE, DELETE
			old_values TEXT,
			new_values TEXT,
			changed_at TIMESTAMP DEFAULT CURRENT_TIMESTAMP,
			changed_by VARCHAR(255)
		);
		CREATE INDEX IF NOT EXISTS idx_audit_log_table ON audit_log(table_name);
		CREATE INDEX IF NOT EXISTS idx_audit_log_changed_at ON audit_log(changed_at);".

Definition core_003_down : string :=
  "DROP TABLE IF EXISTS audit_log;".

Definition core_004_up : string :=
  "-- Add metadata columns if they don't exist
		 ALTER TABLE templates ADD COLUMN created_at TIMESTAMP DEFAULT CURRENT_TIMESTAMP;
		 ALTER TABLE templates ADD COLUMN updated_at TIMESTAMP DEFAULT CURRENT_TIMESTAMP;
		 ALTER TABLE blueprints ADD COLUMN created_at TIMESTAMP DEFAULT CURRENT_TIMESTAMP;
		 ALTER TABLE blueprints ADD COLUMN updated_at TIMESTAMP DEFAULT CURRENT_TIMESTAMP;".

Definition core_004_down : string :=
  "-- Note: SQLite doesn't support DROP COLUMN, so we can't easily roll this back
		 SELECT 'Cannot rollback metadata columns in SQLite' as warning;".

Definition RegisterCoreSchemas (m : MigrationManager) : MigrationManager :=
  let m := RegisterMigration "001_initial_schema"
             "Create initial core tables for templates and blueprints"
             core_001_up core_001_down m in
  let m := RegisterMigration "002_add_indexes"
             "Add database indexes for improved query performance"
             core_002_up core_002_down m in
  let m := RegisterMigration "003_add_audit_trail"
             "Add audit trail tables for tracking changes"
             core_003_up core_003_down m in
  RegisterMigration "004_add_metadata_columns"
    "Add created_at and updated_at columns to core tables"
    core_004_up core_004_down m.

(** ** The export/import manager *)

(** The world an operation runs in: the store, the files by path, and the
    lines printed on the terminal so far. *)
Record World : Type := mkWorld {
  w_store : Store;
  w_fs : gmap string string;
  w_out : list string
}.

(** What the operating system and the driver may answer outside of a
    statement's own outcome. *)
Record IOFaults : Type := mkIOFaults {
  create_err : option error;     (* os.Create *)
  io_begin_err : option error;   (* BeginTx *)
  io_commit_err : option error;  (* tx.Commit *)
  io_query_err : option error    (* QueryContext on the catalog *)
}.

Definition no_io_faults : IOFaults :=
  {| create_err := None; io_begin_err := None; io_commit_err := None;
     io_query_err := None |}.

(** State and error: an operation returns its result and the world it
    leaves, also when it fails. *)
Definition IO (A : Type) : Type := World -> result A * World.

Definition io_ret {A} (a : A) : IO A := fun w => (Ok a, w).
Definition io_fail {A} (e : error) : IO A := fun w => (Err e, w).
Definition io_bind {A B} (c : IO A) (k : A -> IO B) : IO B :=
  fun w =>
    match c w with
    | (Ok a, w1) => k a w1
    | (Err e, w1) => (Err e, w1)
    end.
Definition io_wrap {A} (msg : string) (c : IO A) : IO A :=
  fun w => let '(r, w1) := c w in (wrap msg r, w1).
Definition io_lift {A} (r : result A) : IO A := fun w => (r, w).

Notation "'do' x <- c ; k" := (io_bind c (fun x => k))
  (at level 10, x name, c at level 100, k at level 200).
Notation "'run' c ; k" := (io_bind c (fun _ => k))
  (at level 10, c at level 100, k at level 200).

Definition get_store : IO Store := fun w => (Ok (w_store w), w).
Definition put_store (s : Store) : IO unit :=
  fun w => (Ok tt, {| w_store := s; w_fs := w_fs w; w_out := w_out w |}).
Definition print (line : string) : IO unit :=
  fun w =>
    (Ok tt, {| w_store := w_store w; w_fs := w_fs w;
               w_out := w_out w ++ [line] |}).
Definition print_if (b : bool) (line : string) : IO unit :=
  if b then print line else io_ret tt.

(** [os.Create]: the file exists and is empty afterwards. *)
Definition create_file (f : IOFaults) (path : string) : IO unit :=
  fun w =>
    match create_err f with
    | Some e => (Err e, w)
    | None =>
        (Ok tt, {| w_store := w_store w; w_fs := <[path := ""]> (w_fs w);
                   w_out := w_out w |})
    end.

(** [fmt.Fprintf(file, ...)], whose error the code never looks at. *)
Definition fprint (path : string) (text : string) : IO unit :=
  fun w =>
    (Ok tt, {| w_store := w_store w;
               w_fs := <[path := default "" (w_fs w !! path) +:+ text]>
                         (w_fs w);
               w_out := w_out w |}).

(** [os.ReadFile] / [os.Open] followed by reading everything. *)
Definition read_file (path : string) : IO string :=
  fun w =>
    match w_fs w !! path with
    | Some content => (Ok content, w)
    | None =>
        (Err (EngineError ("open " +:+ path
                             +:+ ": no such file or directory")), w)
    end.

Definition nl : string := String "010"%char EmptyString.

Inductive ExportFormat : Type :=
| FormatSQL
| FormatJSON
| FormatCSV
| FormatOther (name : string).

Definition format_name (fm : ExportFormat) : string :=
  match fm with
  | FormatSQL => "sql"
  | FormatJSON => "json"
  | FormatCSV => "csv"
  | FormatOther name => name
  end.

Record ExportOptions : Type := mkExportOptions {
  OutputPath : string;
  ExFormat : ExportFormat;
  Tables : list string;
  IncludeSchema : bool;
  IncludeData : bool;
  ExVerbose : bool
}.

Record ImportOptions : Type := mkImportOptions {
  InputPath : string;
  ImFormat : ExportFormat;
  Validate : bool;
  DryRun : bool;
  ReplaceExisting : bool;
  ImVerbose : bool
}.

Record ExportMetadata : Type := mkExportMetadata {
  ExportedAt : Z;
  Version : string;
  MdFormat : string;
  TableCount : Z;
  RowCount : Z
}.

(** A [TableRow] is a [map[string]interface{}]. The [Templates] and
    [Blueprints] views of the bundle, which [Import] never reads, are not
    carried. *)
Record ExportedData : Type := mkExportedData {
  Metadata : ExportMetadata;
  DataTables : gmap string (list (gmap string Value))
}.

(** *** The catalog *)

(** The text [sqlite_master] keeps for the ledger table created by
    [InitMigrationTable]: [CREATE TABLE] and the statement from the table
    name on. *)
Definition ledger_sql : string :=
  "CREATE TABLE schema_migrations (
			id VARCHAR(255) PRIMARY KEY,
			description TEXT NOT NULL,
			applied_at TIMESTAMP DEFAULT CURRENT_TIMESTAMP,
			checksum VARCHAR(64) NOT NULL
		)".

Definition ledger_table (rows : list LedgerRow) : Table :=
  {| tbl_sql := Some ledger_sql;
     tbl_columns := ["id"; "description"; "applied_at"; "checksum"];
     tbl_rows :=
       map (fun r => [VText (l_id r); VText (l_description r);
                      VTime (l_applied_at r); VText (l_checksum r)]) rows |}.

(** [SELECT * FROM name] finds the ledger under [schema_migrations] and any
    other table under its own name. *)
Definition lookup_table (s : Store) (name : string) : option Table :=
  if decide (name = "schema_migrations") then ledger_table <$> ledger s
  else tables s !! name.

Definition to_lower (a : ascii) : ascii :=
  let b := byte_of a in
  if ((65 <=? b) && (b <=? 90))%N then ascii_of_N (b + 32) else a.

Fixpoint lower (s : string) : string :=
  match s with
  | EmptyString => EmptyString
  | String a r => String (to_lower a) (lower r)
  end.

(** [name LIKE 'sqlite_%']: the underscore stands for any one character and
    letters match whatever their case. *)
Definition like_sqlite_ (name : string) : bool :=
  String.eqb (lower (String.substring 0 6 name)) "sqlite"
  && (7 <=? String.length name)%nat.

(** [SELECT name FROM sqlite_master WHERE type='table'
     AND name NOT LIKE 'sqlite_%' ORDER BY name]. *)
Definition table_names (s : Store) : list string :=
  let others :=
    filter (fun n => n <> "schema_migrations") (map_to_list (tables s)).*1 in
  let all :=
    match ledger s with
    | Some _ => "schema_migrations" :: others
    | None => others
    end in
  merge_sort String.le (filter (fun n => like_sqlite_ n = false) all).

Definition row_count (s : Store) (name : string) : option nat :=
  (fun t => length (tbl_rows t)) <$> lookup_table s name.

Section ExportImport.

Variable exec : string -> Store -> result Store.

(** What [%v] prints for a [time.Time], and the JSON decoder. *)
Variable fmt_time : Z -> string.
Variable decode_json : string -> result ExportedData.

(** *** Export *)

Definition getTablesToExport (f : IOFaults) (requestedTables : list string)
  : IO (list string) :=
  match requestedTables with
  | _ :: _ => io_ret requestedTables
  | [] =>
      io_wrap "failed to query tables"
        (run io_lift (check (io_query_err f));
         do s <- get_store;
         io_ret (table_names s))
  end.

Definition exportTableSchema (path : string) (tableName : string)
  : IO unit :=
  do s <- get_store;
  match lookup_table s tableName with
  | None =>
      io_fail (Wrap ("failed to get schema for table " +:+ tableName)
                 (EngineError "sql: no rows in result set"))
  | Some t =>
      match tbl_sql t with
      | Some schema =>
          run fprint path ("-- Schema for table " +:+ tableName +:+ nl);
          fprint path (schema +:+ ";" +:+ nl +:+ nl)
      | None => io_ret tt
      end
  end.

(** The bytes of a [[]byte] as [%v] prints them. *)
Fixpoint byte_list (s : string) : list string :=
  match s with
  | EmptyString => []
  | String a r => pretty (byte_of a) :: byte_list r
  end.

Definition sql_value (val : Value) : string :=
  match val with
  | VNull => "NULL"
  | VText str => "'" +:+ ReplaceAll str "'"%char "''" +:+ "'"
  | VInt z => fmt_dZ z
  | VReal printed => printed
  | VBlob bytes => "[" +:+ Join (byte_list bytes) " " +:+ "]"
  | VBool b => if b then "true" else "false"
  | VTime t => fmt_time t
  end.

Definition insert_statement (tableName : string) (columns : list string)
    (values : list Value) : string :=
  "INSERT INTO " +:+ tableName +:+ " (" +:+ Join columns ", "
    +:+ ") VALUES (" +:+ Join (map sql_value values) ", " +:+ ");" +:+ nl.

(** The loop over [rows.Next()] of [exportTableData]. *)
Fixpoint write_rows (path tableName : string) (columns : list string)
    (rows : list (list Value)) (rowCount : nat) : IO nat :=
  match rows with
  | [] => io_ret rowCount
  | values :: rest =>
      run fprint path (insert_statement tableName columns values);
      write_rows path tableName columns rest (S rowCount)
  end.

Definition exportTableData (path : string) (tableName : string) : IO nat :=
  do s <- get_store;
  match lookup_table s tableName with
  | None =>
      io_fail (Wrap "failed to query table data"
                 (EngineError ("no such table: " +:+ tableName)))
  | Some t =>
      run fprint path ("-- Data for table " +:+ tableName +:+ nl);
      write_rows path tableName (tbl_columns t) (tbl_rows t) 0
  end.

(** The loop over the tables of [exportSQL]. *)
Fixpoint export_tables (opts : ExportOptions) (tbls : list string)
    (totalRows : nat) : IO nat :=
  match tbls with
  | [] => io_ret totalRows
  | table :: rest =>
      run print_if (ExVerbose opts) ("Exporting table: " +:+ table);
      run (if IncludeSchema opts then
             io_wrap ("failed to export schema for table " +:+ table)
               (exportTableSchema (OutputPath opts) table)
           else io_ret tt);
      do rows <- (if IncludeData opts then
                    io_wrap ("failed to export data for table " +:+ table)
                      (exportTableData (OutputPath opts) table)
                  else io_ret 0);
      run fprint (OutputPath opts) nl;
      export_tables opts rest (totalRows + rows)
  end.

(** [generated] is the wall clock as [exportSQL] formats it. *)
Definition exportSQL (f : IOFaults) (generated : string)
    (opts : ExportOptions) : IO unit :=
  run io_wrap "failed to create output file"
        (create_file f (OutputPath opts));
  run fprint (OutputPath opts) ("-- gogo database export" +:+ nl);
  run fprint (OutputPath opts)
        ("-- Generated on: " +:+ generated +:+ nl);
  run fprint (OutputPath opts) ("-- Format: SQL" +:+ nl +:+ nl);
  do tbls <- io_wrap "failed to get tables"
               (getTablesToExport f (Tables opts));
  do totalRows <- export_tables opts tbls 0;
  print_if (ExVerbose opts)
    ("✓ SQL export completed: " +:+ fmt_d (length tbls) +:+ " tables, "
       +:+ fmt_d totalRows +:+ " rows").

(** *** Import *)

(** The loop over the fragments of [importSQL], on the working copy of
    the transaction. *)
Fixpoint run_statements (verbose : bool) (statements : list string)
    (tx : Store) (executed : nat) : IO (Store * nat) :=
  match statements with
  | [] => io_ret (tx, executed)
  | stmt :: rest =>
      let stmt := TrimSpace stmt in
      if String.eqb stmt "" || HasPrefix stmt "--" then
        run_statements verbose rest tx executed
      else
        run print_if verbose
              ("Executing: "
                 +:+ String.substring 0 (min 50 (String.length stmt)) stmt
                 +:+ "...");
        match exec stmt tx with
        | Err e =>
            io_fail (WrapTail "failed to execute statement" e
                       (nl +:+ "Statement: " +:+ stmt))
        | Ok tx1 => run_statements verbose rest tx1 (S executed)
        end
  end.

Definition importSQL (f : IOFaults) (opts : ImportOptions) : IO unit :=
  do content <- io_wrap "failed to read SQL file"
                  (read_file (InputPath opts));
  let statements := Split content ";"%char in
  if DryRun opts then
    print ("DRY RUN: Would execute " +:+ fmt_d (length statements - 1)
             +:+ " SQL statements")
  else
    run io_wrap "failed to begin transaction"
          (io_lift (check (io_begin_err f)));
    do tx <- get_store;
    do res <- run_statements (ImVerbose opts) statements tx 0;
    run io_wrap "failed to commit import transaction"
          (io_lift (check (io_commit_err f)));
    run put_store res.1;
    print ("✓ SQL import completed: " +:+ fmt_d res.2
             +:+ " statements executed").

Definition validateImportData (data : ExportedData) : result unit :=
  if String.eqb (Version (Metadata data)) "" then
    Err (Errorf "import data missing version information")
  else Ok tt.

(** The body is a placeholder in the source: nothing is written and the
    number of rows handed in is returned. *)
Definition importTableRows (tableName : string)
    (rows : list (gmap string Value)) (replaceExisting : bool) : IO nat :=
  io_ret (length rows).

(** The loop over [exportData.Tables] of [importJSON]. *)
Fixpoint import_tables (opts : ImportOptions)
    (tbls : list (string * list (gmap string Value))) (totalImported : nat)
  : IO nat :=
  match tbls with
  | [] => io_ret totalImported
  | (tableName, rows) :: rest =>
      run print_if (ImVerbose opts)
            ("Importing table: " +:+ tableName +:+ " ("
               +:+ fmt_d (length rows) +:+ " rows)");
      do imported <- io_wrap ("failed to import table " +:+ tableName)
                       (importTableRows tableName rows
                          (ReplaceExisting opts));
      import_tables opts rest (totalImported + imported)
  end.

Definition importJSON (opts : ImportOptions) : IO unit :=
  do content <- io_wrap "failed to open JSON file"
                  (read_file (InputPath opts));
  do exportData <- io_wrap "failed to decode JSON"
                     (io_lift (decode_json content));
  run (if Validate opts then
         io_wrap "import data validation failed"
           (io_lift (validateImportData exportData))
       else io_ret tt);
  if DryRun opts then
    print ("DRY RUN: Would import "
             +:+ fmt_dZ (TableCount (Metadata exportData))
             +:+ " tables with "
             +:+ fmt_dZ (RowCount (Metadata exportData)) +:+ " total rows")
  else
    do totalImported <-
      import_tables opts (map_to_list (DataTables exportData)) 0;
    print ("✓ JSON import completed: " +:+ fmt_d totalImported
             +:+ " rows imported").

Definition file_exists (path : string) : IO bool :=
  fun w => (Ok (bool_decide (is_Some (w_fs w !! path))), w).

Definition Import (f : IOFaults) (opts : ImportOptions) : IO unit :=
  run print_if (ImVerbose opts) "Starting database import...";
  do present <- file_exists (InputPath opts);
  if negb present then
    io_fail (Errorf ("input file does not exist: " +:+ InputPath opts))
  else
    match ImFormat opts with
    | FormatSQL => importSQL f opts
    | FormatJSON => importJSON opts
    | other =>
        io_fail (Errorf ("unsupported import format: "
                           +:+ format_name other))
    end.

End ExportImport.

(** ** The backup manager: compressed-format detection *)

Module Backup.

Record File : Type := mkFile {
  content : string;
  modTime : Z
}.

Record BackupInfo : Type := mkBackupInfo {
  Path : string;
  Size : Z;
  ModTime : Z;
  IsCompressed : bool
}.

(** [file.Read(buffer)] on a fresh two-byte buffer: the bytes read land at
    the front, the rest stays zero, and nothing to read is [io.EOF]. *)
Definition read_header (c : string) : result (ascii * ascii) :=
  match c with
  | EmptyString => Err (EngineError "EOF")
  | String a EmptyString => Ok (a, zero)
  | String a (String b _) => Ok (a, b)
  end.

(** [open_err] is what [os.Open] answers for a file that is there but
    cannot be opened. *)
Definition isCompressedFile (open_err : option error)
    (files : gmap string File) (path : string) : result bool :=
  match files !! path with
  | None =>
      Err (Wrap "failed to open file"
             (EngineError ("open " +:+ path
                             +:+ ": no such file or directory")))
  | Some file =>
      match open_err with
      | Some e => Err (Wrap "failed to open file" e)
      | None =>
          buffer ← wrap "failed to read file header"
                     (read_header (content file));
          Ok ((byte_of buffer.1 =? 0x1f)%N && (byte_of buffer.2 =? 0x8b)%N)
      end
  end.

Definition GetBackupInfo (open_err : option error)
    (files : gmap string File) (backupPath : string) : result BackupInfo :=
  match files !! backupPath with
  | None =>
      Err (Wrap "failed to stat backup file"
             (EngineError ("stat " +:+ backupPath
                             +:+ ": no such file or directory")))
  | Some stat =>
      isCompressed ← isCompressedFile open_err files backupPath;
      Ok {| Path := backupPath;
            Size := Z.of_nat (String.length (content stat));
            ModTime := modTime stat;
            IsCompressed := isCompressed |}
  end.

(** The file starts with the two bytes 0x1f 0x8b. *)
Definition gzip_magic (c : string) : bool :=
  match c with
  | String a (String b _) =>
      (byte_of a =? 0x1f)%N && (byte_of b =? 0x8b)%N
  | _ => false
  end.

End Backup.

(** ** The storage handle: WithTx *)

Module Storage.

Record Manager : Type := mkManager {
  db : Store;
  path : string
}.

(** What the callback does with the transaction it is handed: it returns
    ([nil] or an error) or it panics, and either way leaves the working
    copy in some state. *)
Inductive FnOutcome : Type :=
| FnReturn (err : option error) (tx : Store)
| FnPanic (p : string) (tx : Store).

Inductive Outcome : Type :=
| Returned (err : option error)
| Panicked (p : string).

Definition WithTx (f : Faults) (fn : Store -> FnOutcome) (m : Manager)
  : Outcome * Manager :=
  match begin_err f with
  | Some e => (Returned (Some (Wrap "failed to begin transaction" e)), m)
  | None =>
      match fn (db m) with
      | FnPanic p _ =>
          (* recover(): tx.Rollback(), then panic(p) again *)
          (Panicked p, m)
      | FnReturn (Some err) _ =>
          (* tx.Rollback(); return err *)
          (Returned (Some err), m)
      | FnReturn None tx =>
          (* return tx.Commit() *)
          match commit_err f with
          | Some e => (Returned (Some e), m)
          | None => (Returned None, {| db := tx; path := path m |})
          end
      end
  end.

End Storage.

(** ** The health manager *)

Fixpoint error_text (e : error) : string :=
  match e with
  | EngineError msg => msg
  | Errorf msg => msg
  | Wrap msg cause => msg +:+ ": " +:+ error_text cause
  | WrapTail msg cause tail => msg +:+ ": " +:+ error_text cause +:+ tail
  end.

Module Health.

(** An individual check. Its [Duration] and [CheckedAt] fields hold wall
    clock readings and are not carried. *)
Record HealthCheck : Type := mkHealthCheck {
  hc_Name : string;
  hc_Status : string;            (* OK, WARNING, ERROR *)
  hc_Message : string;
  hc_Value : string
}.

Record HealthStatus : Type := mkHealthStatus {
  hs_Status : string;
  hs_DatabasePath : string;
  hs_DatabaseSize : Z;
  hs_TableCount : Z;
  hs_TotalRows : Z;
  hs_IntegrityOK : bool;
  hs_WALMode : bool;
  hs_Version : string;
  hs_Checks : list HealthCheck;
  hs_Recommendations : list string
}.

(** What the store and the file system answer to the probes of one health
    check. [table_rows] has, per table of the catalog, the row count when
    both reading the name and counting went through. *)
Record Probes : Type := mkProbes {
  stat_size : option Z;
  ping : option error;
  integrity_check : result string;
  sqlite_version : result string;
  journal_mode : result string;
  table_count : result Z;
  table_rows : result (list (option Z));
  freelist_count : result Z;
  perf_query : result Z;
  perf_elapsed : Z;              (* nanoseconds *)
  perf_elapsed_text : string
}.

Definition checkConnectivity (p : Probes) : HealthCheck :=
  match ping p with
  | Some err =>
      mkHealthCheck "Database Connectivity" "ERROR"
        ("Failed to connect to database: " +:+ error_text err) ""
  | None =>
      mkHealthCheck "Database Connectivity" "OK"
        "Database connection successful" ""
  end.

Definition checkIntegrity (p : Probes) : HealthCheck :=
  match integrity_check p with
  | Err err =>
      mkHealthCheck "Database Integrity" "ERROR"
        ("Integrity check failed: " +:+ error_text err) ""
  | Ok res =>
      if String.eqb res "ok" then
        mkHealthCheck "Database Integrity" "OK"
          "Database integrity verified" "ok"
      else
        mkHealthCheck "Database Integrity" "ERROR"
          ("Integrity issues found: " +:+ res) res
  end.

Definition checkVersion (p : Probes) : HealthCheck :=
  match sqlite_version p with
  | Err err =>
      mkHealthCheck "SQLite Version" "WARNING"
        ("Could not retrieve SQLite version: " +:+ error_text err) ""
  | Ok version =>
      mkHealthCheck "SQLite Version" "OK"
        ("SQLite version: " +:+ version) version
  end.

Definition checkWALMode (p : Probes) : HealthCheck :=
  match journal_mode p with
  | Err err =>
      mkHealthCheck "Journal Mode" "WARNING"
        ("Could not retrieve journal mode: " +:+ error_text err) ""
  | Ok mode =>
      if String.eqb mode "wal" then
        mkHealthCheck "Journal Mode" "OK"
          "WAL mode enabled (optimal for concurrency)" mode
      else
        mkHealthCheck "Journal Mode" "WARNING"
          ("Journal mode is " +:+ mode +:+ " (consider enabling WAL)") mode
  end.

Definition checkTables (p : Probes) : HealthCheck :=
  match table_count p with
  | Err err =>
      mkHealthCheck "Table Count" "WARNING"
        ("Could not count tables: " +:+ error_text err) ""
  | Ok count =>
      mkHealthCheck "Table Count" "OK"
        ("Database contains " +:+ fmt_dZ count +:+ " tables")
        (fmt_dZ count)
  end.

Definition sum_counts (l : list (option Z)) : Z :=
  foldl (fun total c => match c with
                        | Some rowCount => (total + rowCount)%Z
                        | None => total
                        end) 0%Z l.

Definition checkRowCounts (p : Probes) : HealthCheck :=
  match table_rows p with
  | Err err =>
      mkHealthCheck "Total Row Count" "WARNING"
        ("Could not retrieve table names: " +:+ error_text err) ""
  | Ok rows =>
      let totalRows := sum_counts rows in
      mkHealthCheck "Total Row Count" "OK"
        ("Database contains " +:+ fmt_dZ totalRows +:+ " total rows")
        (fmt_dZ totalRows)
  end.

Definition checkFreeSpace (p : Probes) : HealthCheck :=
  match freelist_count p with
  | Err err =>
      mkHealthCheck "Free Space" "WARNING"
        ("Could not check free space: " +:+ error_text err) ""
  | Ok freePages =>
      if (100 <? freePages)%Z then
        mkHealthCheck "Free Space" "WARNING"
          ("Database has " +:+ fmt_dZ freePages
             +:+ " free pages (consider VACUUM)") (fmt_dZ freePages)
      else
        mkHealthCheck "Free Space" "OK"
          ("Database has " +:+ fmt_dZ freePages +:+ " free pages")
          (fmt_dZ freePages)
  end.

Definition checkPerformance (p : Probes) : HealthCheck :=
  match perf_query p with
  | Err err =>
      mkHealthCheck "Query Performance" "WARNING"
        ("Performance test failed: " +:+ error_text err)
        (perf_elapsed_text p)
  | Ok _ =>
      if (100 * 1000000 <? perf_elapsed p)%Z then
        mkHealthCheck "Query Performance" "WARNING"
          ("Slow query performance: " +:+ perf_elapsed_text p)
          (perf_elapsed_text p)
      else
        mkHealthCheck "Query Performance" "OK"
          ("Query performance: " +:+ perf_elapsed_text p)
          (perf_elapsed_text p)
  end.

Definition generateRecommendations (status : HealthStatus) : list string :=
  (if hs_WALMode status then []
   else ["Enable WAL mode for better concurrency: PRAGMA journal_mode=WAL"])
  ++ flat_map
       (fun c =>
          if String.eqb (hc_Name c) "Free Space"
             && String.eqb (hc_Status c) "WARNING"
          then ["Run VACUUM to reclaim free space and optimize database"]
          else [])
       (hs_Checks status)
  ++ (if (100 * 1024 * 1024 <? hs_DatabaseSize status)%Z then
        ["Large database detected - consider regular ANALYZE for query optimization"]
      else [])
  ++ (if (10000 <? hs_TotalRows status)%Z then
        ["High row count - ensure proper indexes are in place for frequently queried columns"]
      else []).

(** The closing loop of [CheckHealth]: the first ERROR ends it, a WARNING
    replaces an OK. *)
Fixpoint overall (checks : list HealthCheck) (status : string) : string :=
  match checks with
  | [] => status
  | c :: rest =>
      if String.eqb (hc_Status c) "ERROR" then "ERROR"
      else if String.eqb (hc_Status c) "WARNING" && String.eqb status "OK"
           then overall rest "WARNING"
           else overall rest status
  end.

Section CheckHealth.

(** [parseIntValue] is [fmt.Sscanf(value, "%d", &result)]. *)
Variable parseIntValue : string -> result Z.

Definition parsed_or (old : Z) (value : string) : Z :=
  match parseIntValue value with
  | Ok count => count
  | Err _ => old
  end.

Definition CheckHealth (path : string) (p : Probes) : HealthStatus :=
  let size := default 0%Z (stat_size p) in
  let connectCheck := checkConnectivity p in
  if String.eqb (hc_Status connectCheck) "ERROR" then
    {| hs_Status := "ERROR"; hs_DatabasePath := path;
       hs_DatabaseSize := size; hs_TableCount := 0; hs_TotalRows := 0;
       hs_IntegrityOK := false; hs_WALMode := false; hs_Version := "";
       hs_Checks := [connectCheck]; hs_Recommendations := [] |}
  else
    let integrityCheck := checkIntegrity p in
    let status0 :=
      if String.eqb (hc_Status integrityCheck) "ERROR" then "ERROR"
      else "OK" in
    let versionCheck := checkVersion p in
    let walCheck := checkWALMode p in
    let tableCheck := checkTables p in
    let rowCheck := checkRowCounts p in
    let freeSpaceCheck := checkFreeSpace p in
    let perfCheck := checkPerformance p in
    let checks :=
      [connectCheck; integrityCheck; versionCheck; walCheck; tableCheck;
       rowCheck; freeSpaceCheck; perfCheck] in
    let status :=
      {| hs_Status := status0; hs_DatabasePath := path;
         hs_DatabaseSize := size;
         hs_TableCount := parsed_or 0 (hc_Value tableCheck);
         hs_TotalRows := parsed_or 0 (hc_Value rowCheck);
         hs_IntegrityOK := String.eqb (hc_Status integrityCheck) "OK";
         hs_WALMode := String.eqb (hc_Value walCheck) "wal";
         hs_Version := hc_Value versionCheck;
         hs_Checks := checks; hs_Recommendations := [] |} in
    {| hs_Status := overall checks status0;
       hs_DatabasePath := path;
       hs_DatabaseSize := size;
       hs_TableCount := hs_TableCount status;
       hs_TotalRows := hs_TotalRows status;
       hs_IntegrityOK := hs_IntegrityOK status;
       hs_WALMode := hs_WALMode status;
       hs_Version := hs_Version status;
       hs_Checks := checks;
       hs_Recommendations := generateRecommendations status |}.

End CheckHealth.

(** The specification's reading of the overall status: the status of
    greatest severity among the checks, ERROR above WARNING above OK. *)
Definition severity (status : string) : nat :=
  if String.eqb status "ERROR" then 2
  else if String.eqb status "WARNING" then 1
  else 0.

Definition max_severity_status (checks : list HealthCheck) : string :=
  if existsb (fun c => String.eqb (hc_Status c) "ERROR") checks then "ERROR"
  else if existsb (fun c => String.eqb (hc_Status c) "WARNING") checks
       then "WARNING"
       else "OK".

Definition has_status (status : string) (checks : list HealthCheck) : bool :=
  existsb (fun c => String.eqb (hc_Status c) status) checks.

Definition known_status (c : HealthCheck) : Prop :=
  hc_Status c = "OK" \/ hc_Status c = "WARNING" \/ hc_Status c = "ERROR".

End Health.

(** ** A small engine to run the code on concrete inputs *)

(** It knows four statements, [CREATE TABLE name ...], [DROP TABLE name],
    [INSERT INTO name ...] and [SELECT ...], skips comment lines before a
    statement, runs the statements of a text in order and stops at the first
    one that fails. *)
Module ToyEngine.

Fixpoint skip_line (s : string) : string :=
  match s with
  | EmptyString => EmptyString
  | String a r => if Ascii.eqb a "010"%char then r else skip_line r
  end.

Fixpoint skip_comments (fuel : nat) (s : string) : string :=
  match fuel with
  | O => TrimSpace s
  | S fuel' =>
      let s := TrimSpace s in
      if HasPrefix s "--" then skip_comments fuel' (skip_line s) else s
  end.

(** The name a statement starts with: up to a blank or a parenthesis. *)
Fixpoint word (s : string) : string :=
  match s with
  | EmptyString => EmptyString
  | String a r =>
      if is_ascii_space a || Ascii.eqb a "("%char then EmptyString
      else String a (word r)
  end.

Definition after (p s : string) : option string :=
  if HasPrefix s p
  then Some (String.substring (String.length p)
               (String.length s - String.length p) s)
  else None.

Definition exec_one (stmt : string) (s : Store) : result Store :=
  let stmt := skip_comments (String.length stmt) stmt in
  if String.eqb stmt "" then Ok s
  else
    match after "CREATE TABLE " stmt with
    | Some rest =>
        let name := word rest in
        match lookup_table s name with
        | Some _ =>
            Err (EngineError ("table " +:+ name +:+ " already exists"))
        | None =>
            Ok {| tables := <[name := mkTable (Some stmt) [] []]> (tables s);
                  ledger := ledger s |}
        end
    | None =>
        match after "DROP TABLE " stmt with
        | Some rest =>
            let name := word rest in
            match tables s !! name with
            | Some _ =>
                Ok {| tables := delete name (tables s);
                      ledger := ledger s |}
            | None => Err (EngineError ("no such table: " +:+ name))
            end
        | None =>
            match after "INSERT INTO " stmt with
            | Some rest =>
                let name := word rest in
                match tables s !! name with
                | Some t =>
                    Ok {| tables :=
                            <[name := mkTable (tbl_sql t) (tbl_columns t)
                                        (tbl_rows t ++ [[VText rest]])]>
                              (tables s);
                          ledger := ledger s |}
                | None => Err (EngineError ("no such table: " +:+ name))
                end
            | None =>
                if HasPrefix stmt "SELECT " then Ok s
                else Err (EngineError "syntax error")
            end
        end
    end.

Fixpoint exec_all (stmts : list string) (s : Store) : result Store :=
  match stmts with
  | [] => Ok s
  | stmt :: rest =>
      match exec_one stmt s with
      | Ok s1 => exec_all rest s1
      | Err e => Err e
      end
  end.

Definition exec (sql : string) (s : Store) : result Store :=
  exec_all (Split sql ";"%char) s.

End ToyEngine.

(** Concrete stores and files of the examples below. *)
Definition empty_store : Store := {| tables := ∅; ledger := None |}.

Definition ledger_store (rows : list LedgerRow) : Store :=
  {| tables := ∅; ledger := Some rows |}.


Definition users_migration : Migration :=
  mkMigration "001_users" "Create users table"
    "CREATE TABLE users (id INTEGER PRIMARY KEY, name TEXT)"
    "DROP TABLE users" false None.

(** Three registered migrations, the first of them applied. *)
Definition three_registered : MigrationManager :=
  RegisterMigration "003_third" "Third migration"
    "CREATE TABLE third (id INTEGER)" "DROP TABLE third"
    (RegisterMigration "001_first" "First migration"
       "CREATE TABLE first (id INTEGER)" "DROP TABLE first"
       (RegisterMigration "002_second" "Second migration"
          "CREATE TABLE second (id INTEGER)" "DROP TABLE second"
          (NewMigrationManager
             (ledger_store
                [mkLedgerRow "001_first" "First migration" 1700000000
                   "31-C)"])))).

(** Two registered migrations, both applied, the second one later. *)
Definition two_applied : MigrationManager :=
  RegisterMigration "002_posts" "Create posts table"
    "CREATE TABLE posts (id INTEGER PRIMARY KEY, user_id INTEGER, title TEXT)"
    "DROP TABLE posts"
    (RegisterMigration "001_users" "Create users table"
       "CREATE TABLE users (id INTEGER PRIMARY KEY, name TEXT)"
       "DROP TABLE users"
       (NewMigrationManager
          {| tables := {[ "users" := mkTable None [] [];
                          "posts" := mkTable None [] [] ]};
             ledger := Some [mkLedgerRow "001_users" "Create users table"
                               1700000000 "54-C)";
                             mkLedgerRow "002_posts" "Create posts table"
                               1700000060 "72-C)"] |})).

(** The registry entry of the fourth core migration. *)
Definition core_004 : Migration :=
  mkMigration "004_add_metadata_columns"
    "Add created_at and updated_at columns to core tables"
    core_004_up core_004_down false None.

(** The ledger after all four core migrations have been applied. *)
Definition core_ledger : list LedgerRow :=
  [mkLedgerRow "001_initial_schema"
     "Create initial core tables for templates and blueprints"
     1700000000 "124--)";
   mkLedgerRow "002_add_indexes"
     "Add database indexes for improved query performance"
     1700000000 "209-C;";
   mkLedgerRow "003_add_audit_trail"
     "Add audit trail tables for tracking changes"
     1700000001 "487-C;";
   mkLedgerRow "004_add_metadata_columns"
     "Add created_at and updated_at columns to core tables"
     1700000001 "381--;"].

Definition core_store : Store :=
  {| tables := {[ "templates" := mkTable None [] [];
                  "blueprints" := mkTable None [] [] ]};
     ledger := Some core_ledger |}.

(** Callbacks for [WithTx]: one that inserts a table and returns [nil], one
    that does the same and then returns an error, and one that panics. *)
Definition add_scratch (tx : Store) : Store :=
  {| tables := <["scratch" := mkTable None [] []]> (tables tx);
     ledger := ledger tx |}.

Definition fn_commits (tx : Store) : Storage.FnOutcome :=
  Storage.FnReturn None (add_scratch tx).

Definition fn_fails (tx : Store) : Storage.FnOutcome :=
  Storage.FnReturn (Some (Errorf "assert.AnError general error for testing"))
    (add_scratch tx).

Definition fn_panics (tx : Store) : Storage.FnOutcome :=
  Storage.FnPanic "boom" (add_scratch tx).

Definition handle : Storage.Manager :=
  {| Storage.db := empty_store; Storage.path := "test.db" |}.

(** Backup files: a gzip stream, a raw database and an empty file. *)
Definition gz_bytes : string :=
  String (ascii_of_N 0x1f) (String (ascii_of_N 0x8b)
    (String (ascii_of_N 0x08) EmptyString)).

Definition backup_files : gmap string Backup.File :=
  {[ "backup.db" := Backup.mkFile gz_bytes 1700000000;
     "backup.db.gz" := Backup.mkFile "SQLite format 3" 1700000001;
     "empty.db.gz" := Backup.mkFile "" 1700000002 ]}.

(** *** Reading the import loop *)

(** A fragment that the loop of [importSQL] hands to the engine: after
    trimming it is neither empty nor does it start with two dashes. *)
Definition executable (stmt : string) : bool :=
  negb (String.eqb (TrimSpace stmt) "" || HasPrefix (TrimSpace stmt) "--").

(** The fragments handed to the engine, in order, on a working copy. *)
Fixpoint exec_fragments (exec : string -> Store -> result Store)
    (stmts : list string) (tx : Store) : result Store :=
  match stmts with
  | [] => Ok tx
  | stmt :: rest =>
      if executable stmt then
        match exec (TrimSpace stmt) tx with
        | Ok tx1 => exec_fragments exec rest tx1
        | Err e => Err e
        end
      else exec_fragments exec rest tx
  end.

Definition executed_count (content : string) : nat :=
  length (filter (fun stmt => executable stmt = true)
            (Split content ";"%char)).

(** The number of rows of a bundle. *)
Definition total_rows (data : ExportedData) : nat :=
  foldr (fun kv n => length kv.2 + n) 0 (map_to_list (DataTables data)).

Definition real_run (opts : ImportOptions) : ImportOptions :=
  {| InputPath := InputPath opts; ImFormat := ImFormat opts;
     Validate := Validate opts; DryRun := false;
     ReplaceExisting := ReplaceExisting opts; ImVerbose := ImVerbose opts |}.

(** The closing lines the import prints. *)
Definition dry_run_sql_line (n : nat) : string :=
  "DRY RUN: Would execute " +:+ fmt_d n +:+ " SQL statements".
Definition sql_done_line (n : nat) : string :=
  "✓ SQL import completed: " +:+ fmt_d n +:+ " statements executed".
Definition dry_run_json_line (tableCount rowCount : Z) : string :=
  "DRY RUN: Would import " +:+ fmt_dZ tableCount +:+ " tables with "
    +:+ fmt_dZ rowCount +:+ " total rows".
Definition json_done_line (n : nat) : string :=
  "✓ JSON import completed: " +:+ fmt_d n +:+ " rows imported".

Definition add_out (w : World) (lines : list string) : World :=
  {| w_store := w_store w; w_fs := w_fs w; w_out := w_out w ++ lines |}.

(** Stores, files and options of the export/import examples. *)
Definition notes_store : Store :=
  {| tables :=
       {[ "notes" :=
            mkTable (Some "CREATE TABLE notes (id INTEGER, body TEXT)")
              ["id"; "body"] [[VInt 1; VText "it's here"]] ]};
     ledger := None |}.

(** The same table with a second row, and a destination that already has
    the table, empty. *)
Definition notes2_store : Store :=
  {| tables :=
       {[ "notes" :=
            mkTable (Some "CREATE TABLE notes (id INTEGER, body TEXT)")
              ["id"; "body"]
              [[VInt 1; VText "it's here"]; [VInt 2; VNull]] ]};
     ledger := None |}.

Definition notes_empty_store : Store :=
  {| tables :=
       {[ "notes" :=
            mkTable (Some "CREATE TABLE notes (id INTEGER, body TEXT)")
              ["id"; "body"] [] ]};
     ledger := None |}.

Definition export_opts : ExportOptions :=
  {| OutputPath := "dump.sql"; ExFormat := FormatSQL; Tables := [];
     IncludeSchema := true; IncludeData := true; ExVerbose := false |}.

Definition import_opts (path : string) (fm : ExportFormat) (dry : bool)
  : ImportOptions :=
  {| InputPath := path; ImFormat := fm; Validate := true; DryRun := dry;
     ReplaceExisting := false; ImVerbose := false |}.

Definition world_of (s : Store) (files : gmap string string) : World :=
  {| w_store := s; w_fs := files; w_out := [] |}.

(** A bundle whose metadata disagrees with its tables, and a decoder that
    knows this one bundle. *)
Definition odd_bundle : ExportedData :=
  {| Metadata := {| ExportedAt := 1700000000; Version := "1.0";
                    MdFormat := "json"; TableCount := 0; RowCount := 5 |};
     DataTables := {[ "notes" := [ {[ "id" := VInt 1 ]} ] ]} |}.

(** The text of that bundle; [dq] is the double quote. *)
Definition dq : string := String (ascii_of_N 34) EmptyString.

Definition key (name : string) : string := dq +:+ name +:+ dq +:+ ":".

Definition bundle_json : string :=
  "{" +:+ key "metadata" +:+ "{" +:+ key "exported_at" +:+ dq
    +:+ "2023-11-14T22:13:20Z" +:+ dq +:+ "," +:+ key "version" +:+ dq
    +:+ "1.0" +:+ dq +:+ "," +:+ key "format" +:+ dq +:+ "json" +:+ dq
    +:+ "," +:+ key "table_count" +:+ "0," +:+ key "row_count" +:+ "5},"
    +:+ key "tables" +:+ "{" +:+ key "notes" +:+ "[{" +:+ key "id"
    +:+ "1}]}}".

Definition toy_decode (content : string) : result ExportedData :=
  if String.eqb content bundle_json then Ok odd_bundle
  else Err (EngineError "invalid character looking for beginning of value").

(** An SQL file without a closing semicolon, and one whose only statement
    follows a comment line. *)
Definition schema_sql : string := "CREATE TABLE t (id INTEGER)".

Definition users_sql : string :=
  "-- users" +:+ nl +:+ "CREATE TABLE users (id INTEGER);" +:+ nl.

Definition import_files : gmap string string :=
  {[ "schema.sql" := schema_sql; "users.sql" := users_sql;
     "bundle.json" := bundle_json ]}.

(** The ids recorded in the ledger. *)
Definition applied_ids (s : Store) : gset string :=
  list_to_set (l_id <$> ledger_rows s).

(** ** More of internal/db/migrations.go *)

Section MigrationBatch.

Variable exec : string -> Store -> result Store.

(** The loop of [ApplyAll] over the pending migrations. [env i] is what the
    driver answers to, and the clock reading of, the [i]-th call of
    [ApplyMigration]. *)
Fixpoint apply_each (env : nat -> Faults * Z) (i : nat)
    (pending : list Migration) (m : MigrationManager)
  : result unit * MigrationManager :=
  match pending with
  | [] => (Ok tt, m)
  | migration :: rest =>
      match ApplyMigration exec (env i).1 (env i).2 migration m with
      | (Err e, m1) => (Err e, m1)
      | (Ok _, m1) => apply_each env (S i) rest m1
      end
  end.

Definition ApplyAll (f : Faults) (env : nat -> Faults * Z)
    (m : MigrationManager) : result unit * MigrationManager :=
  match GetPendingMigrations f m with
  | (Err e, m1) => (Err e, m1)
  | (Ok pending, m1) =>
      match pending with
      | [] => (Ok tt, m1)
      | _ :: _ => apply_each env 0 pending m1
      end
  end.

(** The loop of the [migrate --rollback] command: [count] calls of
    [RollbackLast] when [count > 1], one call otherwise; the first error
    ends it. [fs i] is what the driver answers during the [i]-th call. *)
Fixpoint rollback_times (fs : nat -> Faults) (i : nat) (n : nat)
    (m : MigrationManager) : result unit * MigrationManager :=
  match n with
  | O => (Ok tt, m)
  | S n' =>
      match RollbackLast exec (fs i) m with
      | (Err e, m1) => (Err (Wrap "rollback failed" e), m1)
      | (Ok _, m1) => rollback_times fs (S i) n' m1
      end
  end.

Definition migrate_rollback (fs : nat -> Faults) (count : Z)
    (m : MigrationManager) : result unit * MigrationManager :=
  if (1 <? count)%Z then rollback_times fs 0 (Z.to_nat count) m
  else rollback_times fs 0 1 m.

End MigrationBatch.

(** The body of the loop of [GetMigrationStatus]: the registry entry is
    overwritten in place with what the ledger says. *)
Definition mark_status (applied : gmap string Migration)
    (migration : Migration) : Migration :=
  match applied !! ID migration with
  | Some appliedMigration =>
      mkMigration (ID migration) (Description migration) (UpSQL migration)
        (DownSQL migration) true (AppliedAt appliedMigration)
  | None =>
      mkMigration (ID migration) (Description migration) (UpSQL migration)
        (DownSQL migration) false None
  end.

Definition GetMigrationStatus (f : Faults) (m : MigrationManager)
  : result (list Migration) * MigrationManager :=
  match GetAppliedMigrations f m with
  | (Err e, m1) => (Err e, m1)
  | (Ok applied, m1) =>
      let marked := mark_status applied <$> migrations m1 in
      (Ok (sort_by_ID (map_to_list marked).*2), set_migrations m1 marked)
  end.

(** An engine whose statements never touch the ledger table. *)
Definition keeps_ledger (exec : string -> Store -> result Store) : Prop :=
  forall sql s s', exec sql s = Ok s' -> ledger s' = ledger s.

(** The manager after [users_migration] has been applied on an empty
    ledger, and after it has been rolled back again. *)
Definition users_applied : MigrationManager :=
  (ApplyMigration ToyEngine.exec no_faults 1700000000 users_migration
     (NewMigrationManager (ledger_store []))).2.

Definition users_rolled_back : MigrationManager :=
  (RollbackMigration ToyEngine.exec no_faults users_migration
     users_applied).2.

(** The ledger rows that applying [done] in order writes, the first of them
    at call [i]. *)
Fixpoint applied_rows (env : nat -> Faults * Z) (i : nat)
    (done : list Migration) : list LedgerRow :=
  match done with
  | [] => []
  | migration :: rest =>
      mkLedgerRow (ID migration) (Description migration) (env i).2
        (generateChecksum (UpSQL migration))
      :: applied_rows env (S i) rest
  end.

(** A clock that ticks once a minute, on a driver that always answers. *)
Definition calm (i : nat) : Faults * Z :=
  (no_faults, (1700000000 + 60 * Z.of_nat i)%Z).

(** The same with a driver that cannot commit the second migration. *)
Definition second_commit_fails (i : nat) : Faults * Z :=
  (match i with
   | 1 => {| begin_err := None; commit_err := Some (EngineError "disk I/O error");
             ledger_err := None; ddl_err := None; query_err := None |}
   | _ => no_faults
   end, (1700000000 + 60 * Z.of_nat i)%Z).

(** Three registered migrations, none applied, on an empty store. *)
Definition three_fresh : MigrationManager :=
  RegisterMigration "003_third" "Third migration"
    "CREATE TABLE third (id INTEGER)" "DROP TABLE third"
    (RegisterMigration "001_first" "First migration"
       "CREATE TABLE first (id INTEGER)" "DROP TABLE first"
       (RegisterMigration "002_second" "Second migration"
          "CREATE TABLE second (id INTEGER)" "DROP TABLE second"
          (NewMigrationManager empty_store))).

Definition three_fresh_pending : list Migration :=
  match (GetPendingMigrations no_faults three_fresh).1 with
  | Ok pending => pending
  | Err _ => []
  end.

Definition three_all_applied : MigrationManager :=
  (ApplyAll ToyEngine.exec no_faults calm three_fresh).2.

(** ** Reading the export *)

Section DumpText.

Variable fmt_time : Z -> string.

(** The text of the statements for the rows of a table. *)
Fixpoint rows_text (tableName : string) (columns : list string)
    (rows : list (list Value)) : string :=
  match rows with
  | [] => ""
  | values :: rest =>
      insert_statement fmt_time tableName columns values
        +:+ rows_text tableName columns rest
  end.

Definition schema_text (tableName : string) (t : Table) : string :=
  match tbl_sql t with
  | Some schema =>
      "-- Schema for table " +:+ tableName +:+ nl
        +:+ (schema +:+ ";" +:+ nl +:+ nl)
  | None => ""
  end.

Definition data_text (tableName : string) (t : Table) : string :=
  "-- Data for table " +:+ tableName +:+ nl
    +:+ rows_text tableName (tbl_columns t) (tbl_rows t).

(** What the export writes for one table that it finds. *)
Definition table_section (opts : ExportOptions) (tableName : string)
    (t : Table) : string :=
  (if IncludeSchema opts then schema_text tableName t else "")
    +:+ ((if IncludeData opts then data_text tableName t else "") +:+ nl).

(** The export of a table goes through: the table is there, or neither its
    schema nor its data is asked for. *)
Definition exportable (opts : ExportOptions) (s : Store)
    (tableName : string) : Prop :=
  is_Some (lookup_table s tableName) \/
  (IncludeSchema opts = false /\ IncludeData opts = false).

Fixpoint sections (opts : ExportOptions) (s : Store) (tbls : list string)
  : string :=
  match tbls with
  | [] => ""
  | tableName :: rest =>
      match lookup_table s tableName with
      | Some t => table_section opts tableName t
      | None => nl
      end +:+ sections opts s rest
  end.

Definition exported_rows (opts : ExportOptions) (s : Store)
    (tbls : list string) : nat :=
  foldr (fun tableName n =>
           match lookup_table s tableName with
           | Some t => if IncludeData opts then length (tbl_rows t) else 0
           | None => 0
           end + n) 0 tbls.

Definition dump_header (generated : string) : string :=
  ("-- gogo database export" +:+ nl)
    +:+ (("-- Generated on: " +:+ generated +:+ nl)
           +:+ ("-- Format: SQL" +:+ nl +:+ nl)).

(** The error of the export of a table that is not there. *)
Definition missing_table_error (opts : ExportOptions) (tableName : string)
  : error :=
  if IncludeSchema opts then
    Wrap ("failed to export schema for table " +:+ tableName)
      (Wrap ("failed to get schema for table " +:+ tableName)
         (EngineError "sql: no rows in result set"))
  else
    Wrap ("failed to export data for table " +:+ tableName)
      (Wrap "failed to query table data"
         (EngineError ("no such table: " +:+ tableName))).

End DumpText.

(** The world after [text] has been appended to the file at [path], whose
    content was [cur], and [lines] have been printed. *)
Definition wrote (w : World) (path cur text : string) (lines : list string)
  : World :=
  {| w_store := w_store w;
     w_fs := <[path := cur +:+ text]> (w_fs w);
     w_out := w_out w ++ lines |}.

(** The tables an export covers: the requested ones, or all of them. *)
Definition tables_to_export (opts : ExportOptions) (s : Store) : list string :=
  match Tables opts with
  | [] => table_names s
  | _ :: _ => Tables opts
  end.

Definition export_done_line (tableCount totalRows : nat) : string :=
  "✓ SQL export completed: " +:+ fmt_d tableCount +:+ " tables, "
    +:+ fmt_d totalRows +:+ " rows".

(** Byte-wise strictly ascending. *)
Definition string_lt : relation string :=
  fun a b => String.le a b /\ a <> b.

(** A store with a table whose name starts like the engine's own, and with
    the ledger. *)
Definition catalog_store : Store :=
  {| tables := {[ "notes" := mkTable None ["id"] [];
                  "SQLite_stat1" := mkTable None [] [];
                  "audits" := mkTable None ["id"] [[VInt 1]] ]};
     ledger := Some [] |}.

Definition request_opts (tbls : list string) : ExportOptions :=
  {| OutputPath := "dump.sql"; ExFormat := FormatSQL; Tables := tbls;
     IncludeSchema := true; IncludeData := true; ExVerbose := true |}.

(** ** Reading a health report off the probes *)

Module HealthReading.
Import Health.

Definition reachable (p : Probes) : bool :=
  match ping p with None => true | Some _ => false end.

Definition integrity_ok (p : Probes) : bool :=
  match integrity_check p with
  | Ok res => String.eqb res "ok"
  | Err _ => false
  end.

Definition wal_on (p : Probes) : bool :=
  match journal_mode p with
  | Ok mode => String.eqb mode "wal"
  | Err _ => false
  end.

Definition needs_vacuum (p : Probes) : bool :=
  match freelist_count p with
  | Ok freePages => (100 <? freePages)%Z
  | Err _ => false
  end.

(** The free space check ends on WARNING. *)
Definition free_space_warns (p : Probes) : bool :=
  negb (is_ok (freelist_count p)) || needs_vacuum p.

Definition slow (p : Probes) : bool :=
  (100 * 1000000 <? perf_elapsed p)%Z.

(** One of the six checks after the integrity check has something to say. *)
Definition probes_warn (p : Probes) : bool :=
  negb (is_ok (sqlite_version p)) || negb (wal_on p)
  || negb (is_ok (table_count p)) || negb (is_ok (table_rows p))
  || negb (is_ok (freelist_count p)) || needs_vacuum p
  || negb (is_ok (perf_query p)) || slow p.

Definition recommend (b : bool) (text : string) : list string :=
  if b then [text] else [].

Definition wal_advice : string :=
  "Enable WAL mode for better concurrency: PRAGMA journal_mode=WAL".
Definition vacuum_advice : string :=
  "Run VACUUM to reclaim free space and optimize database".
Definition analyze_advice : string :=
  "Large database detected - consider regular ANALYZE for query optimization".
Definition index_advice : string :=
  "High row count - ensure proper indexes are in place for frequently queried columns".

(** A reader of decimal numerals: an optional minus sign, then the digits up
    to the first byte that is none. *)
Definition digit_of (a : ascii) : option N :=
  let b := byte_of a in
  if (48 <=? b)%N && (b <=? 57)%N then Some (b - 48)%N else None.

Fixpoint scan_digits (s : string) (acc : option N) : option N :=
  match s with
  | EmptyString => acc
  | String a r =>
      match digit_of a with
      | Some d => scan_digits r (Some (default 0 acc * 10 + d)%N)
      | None => acc
      end
  end.

Definition scan_d (value : string) : result Z :=
  match value with
  | EmptyString => Err (EngineError "unexpected EOF")
  | String a r =>
      if Ascii.eqb a "-"%char then
        match scan_digits r None with
        | Some n => Ok (- Z.of_N n)%Z
        | None => Err (EngineError "expected integer")
        end
      else
        match scan_digits value None with
        | Some n => Ok (Z.of_N n)
        | None => Err (EngineError "expected integer")
        end
  end.

(** Probes of a database in good order, and of one with a long free list
    and a rollback journal. *)
Definition fine_probes : Probes :=
  {| stat_size := Some 4096%Z; ping := None; integrity_check := Ok "ok";
     sqlite_version := Ok "3.45.1"; journal_mode := Ok "wal";
     table_count := Ok 6%Z; table_rows := Ok [Some 12%Z; None; Some 30%Z];
     freelist_count := Ok 0%Z; perf_query := Ok 7%Z;
     perf_elapsed := 52000%Z; perf_elapsed_text := "52µs" |}.

Definition worn_probes : Probes :=
  {| stat_size := Some 4096%Z; ping := None; integrity_check := Ok "ok";
     sqlite_version := Ok "3.45.1"; journal_mode := Ok "delete";
     table_count := Ok 6%Z; table_rows := Ok [Some 12%Z; None; Some 30%Z];
     freelist_count := Ok 250%Z; perf_query := Ok 7%Z;
     perf_elapsed := 52000%Z; perf_elapsed_text := "52µs" |}.

End HealthReading.

(** ** The storage handle: Open and its schema *)

Module Schema.

Definition createTemplatesTable : string := "
CREATE TABLE IF NOT EXISTS templates (
    id              INTEGER PRIMARY KEY,
    name            TEXT NOT NULL UNIQUE,
    kind            TEXT NOT NULL,
    content         BLOB NOT NULL,
    metadata_json   TEXT NOT NULL DEFAULT '{}',
    created_at      TEXT NOT NULL DEFAULT CURRENT_TIMESTAMP,
    updated_at      TEXT NOT NULL DEFAULT CURRENT_TIMESTAMP
);".

Definition createBlueprintsTable : string := "
CREATE TABLE IF NOT EXISTS blueprints (
    id              INTEGER PRIMARY KEY,
    name            TEXT NOT NULL UNIQUE,
    stack           TEXT NOT NULL,
    config_json     TEXT NOT NULL,
    created_at      TEXT NOT NULL DEFAULT CURRENT_TIMESTAMP,
    updated_at      TEXT NOT NULL DEFAULT CURRENT_TIMESTAMP
);".

Definition createConfigsTable : string := "
CREATE TABLE IF NOT EXISTS configs (
    id              INTEGER PRIMARY KEY,
    scope           TEXT NOT NULL DEFAULT 'global',
    key             TEXT NOT NULL,
    value           TEXT NOT NULL,
    UNIQUE(scope, key)
);".

Definition createHooksTable : string := "
CREATE TABLE IF NOT EXISTS hooks (
    id              INTEGER PRIMARY KEY,
    name            TEXT NOT NULL,
    event           TEXT NOT NULL,
    language        TEXT NOT NULL DEFAULT 'shell',
    script          TEXT NOT NULL,
    enabled         INTEGER NOT NULL DEFAULT 1
);".

Definition createPluginsTable : string := "
CREATE TABLE IF NOT EXISTS plugins (
    id              INTEGER PRIMARY KEY,
    name            TEXT NOT NULL UNIQUE,
    version         TEXT NOT NULL,
    entrypoint      TEXT NOT NULL,
    metadata_json   TEXT NOT NULL DEFAULT '{}'
);".

Definition createAuditsTable : string := "
CREATE TABLE IF NOT EXISTS audits (
    id              INTEGER PRIMARY KEY,
    actor           TEXT NOT NULL,
    action          TEXT NOT NULL,
    entity          TEXT NOT NULL,
    details_json    TEXT NOT NULL DEFAULT '{}',
    created_at      TEXT NOT NULL DEFAULT CURRENT_TIMESTAMP
);".

Definition createIndexes : string := "
CREATE INDEX IF NOT EXISTS idx_templates_kind ON templates(kind);
CREATE INDEX IF NOT EXISTS idx_blueprints_stack ON blueprints(stack);
CREATE INDEX IF NOT EXISTS idx_configs_scope_key ON configs(scope, key);
CREATE INDEX IF NOT EXISTS idx_hooks_event ON hooks(event);
CREATE INDEX IF NOT EXISTS idx_audits_action ON audits(action);
CREATE INDEX IF NOT EXISTS idx_audits_created_at ON audits(created_at);".

End Schema.

Section StorageOpen.

(** [Open] runs its statements on the connection itself, outside any
    transaction, so what a failing call has already done stays done: here a
    call answers with an error or not, and with the store it leaves. *)
Variable exec_on_db : string -> Store -> option error * Store.

(** The loop of [migrate], at index [i]. *)
Fixpoint run_migrations (i : nat) (migrations : list string) (s : Store)
  : option error * Store :=
  match migrations with
  | [] => (None, s)
  | migration :: rest =>
      match exec_on_db migration s with
      | (Some err, s') =>
          (Some (Wrap ("migration " +:+ fmt_d (i + 1) +:+ " failed") err), s')
      | (None, s') => run_migrations (S i) rest s'
      end
  end.

Definition schema_migrations : list string :=
  [Schema.createTemplatesTable; Schema.createBlueprintsTable;
   Schema.createConfigsTable; Schema.createHooksTable;
   Schema.createPluginsTable; Schema.createAuditsTable;
   Schema.createIndexes].

Definition migrate (s : Store) : option error * Store :=
  run_migrations 0 schema_migrations s.

(** [Open] on the database at [path], whose content is [s]. The handle is
    filled in as soon as [sql.Open] has answered, so it is there also when
    the ping or a migration fails; [None] is the handle never filled. *)
Definition Open (open_err ping_err : option error) (path : string)
    (s : Store) : option error * option Storage.Manager :=
  match open_err with
  | Some err => (Some (Wrap "failed to open database" err), None)
  | None =>
      match ping_err with
      | Some err =>
          (Some (Wrap "failed to ping database" err),
           Some {| Storage.db := s; Storage.path := path |})
      | None =>
          let r := migrate s in
          (option_map (Wrap "failed to run migrations") r.1,
           Some {| Storage.db := r.2; Storage.path := path |})
      end
  end.

End StorageOpen.

(** The toy engine on a bare connection: a statement it rejects changes
    nothing. *)
Definition toy_on_db (stmt : string) (s : Store) : option error * Store :=
  match ToyEngine.exec stmt s with
  | Ok s' => (None, s')
  | Err err => (Some err, s)
  end.

(** ** Backup and restore *)

(** The files are the map from paths to content and modification time of
    [GetBackupInfo]; directories, links and permissions are not carried, a
    path names its file. A handle on an open file is its path: what is read
    through it is what the file holds when it is read. The progress lines
    of the verbose mode are not carried. *)
Module BackupRestore.
Import Backup.

Module BackupOptions.
Record t : Type := mk {
  OutputPath : string;
  Compress : bool;
  Verify : bool;
  Verbose : bool
}.
End BackupOptions.

Module RestoreOptions.
Record t : Type := mk {
  BackupPath : string;
  Verify : bool;
  CreateBackup : bool;
  Force : bool;
  Verbose : bool
}.
End RestoreOptions.

(** What the operating system may refuse. [os_mkdir_err] is asked with the
    path whose directory is wanted. A copy or a compression that breaks off
    comes with what the destination holds by then. *)
Record OSFaults : Type := mkOSFaults {
  os_mkdir_err : string -> option error;
  os_open_err : string -> option error;
  os_create_err : string -> option error;
  os_copy_err : option (string * error);
  gz_close_err : option (string * error);
  os_sync_err : option error
}.

Definition no_os_faults : OSFaults :=
  {| os_mkdir_err := fun _ => None; os_open_err := fun _ => None;
     os_create_err := fun _ => None; os_copy_err := None;
     gz_close_err := None; os_sync_err := None |}.

(** One session of [verifyDatabase] with the database file at a path: what
    [Open] answers (it may create the file and it runs the schema
    statements on it), what [PRAGMA integrity_check] answers, and the files
    once the session is over. *)
Record Session : Type := mkSession {
  open_result : option error;
  integrity : result string;
  files_after : gmap string File
}.

Section Operations.

Variable f : OSFaults.
(** [time.Now()], in seconds. *)
Variable now : Z.
(** [filepath.Base]. *)
Variable Base : string -> string.
(** [compress/gzip]: the stream written for a name, a time and the data;
    what [gzip.NewReader] finds wrong with the beginning of a file; what
    reading to the end delivers, and the error that ends it if one does,
    given the content when the reader was made and the content when it is
    read. *)
Variable gzip_encode : string -> Z -> string -> string.
Variable gzip_NewReader : string -> option error.
Variable gzip_read : string -> string -> string * option error.
Variable sqlite_session : gmap string File -> string -> Session.

Definition os_Open (files : gmap string File) (path : string)
  : option error :=
  match files !! path with
  | None =>
      Some (EngineError ("open " +:+ path +:+ ": no such file or directory"))
  | Some _ => os_open_err f path
  end.

(** [os.Create] makes the file or empties it. *)
Definition os_Create (files : gmap string File) (path : string)
  : result (gmap string File) :=
  match os_create_err f path with
  | Some err => Err err
  | None => Ok (<[path := mkFile "" now]> files)
  end.

Definition read_all (files : gmap string File) (path : string) : string :=
  match files !! path with
  | Some file => content file
  | None => ""
  end.

Definition write_all (files : gmap string File) (path data : string)
  : gmap string File :=
  <[path := mkFile data now]> files.

(** [io.Copy(dstFile, srcFile)] and [return dstFile.Sync()]. *)
Definition copy_file (what : string) (files : gmap string File)
    (src dst : string) : option error * gmap string File :=
  match os_copy_err f with
  | Some (partial, err) => (Some (Wrap what err), write_all files dst partial)
  | None => (os_sync_err f, write_all files dst (read_all files src))
  end.

Definition wrapped (what : string) (r : option error * gmap string File)
  : option error * gmap string File :=
  (option_map (Wrap what) r.1, r.2).

Definition backupRaw (path : string) (opts : BackupOptions.t)
    (files : gmap string File) : option error * gmap string File :=
  match os_Open files path with
  | Some err => (Some (Wrap "failed to open source database" err), files)
  | None =>
      match os_Create files (BackupOptions.OutputPath opts) with
      | Err err => (Some (Wrap "failed to create backup file" err), files)
      | Ok files =>
          copy_file "failed to copy database" files path
            (BackupOptions.OutputPath opts)
      end
  end.

Definition backupCompressed (path : string) (opts : BackupOptions.t)
    (files : gmap string File) : option error * gmap string File :=
  match os_Open files path with
  | Some err => (Some (Wrap "failed to open source database" err), files)
  | None =>
      match os_Create files (BackupOptions.OutputPath opts) with
      | Err err => (Some (Wrap "failed to create backup file" err), files)
      | Ok files =>
          let dst := BackupOptions.OutputPath opts in
          match os_copy_err f with
          | Some (partial, err) =>
              (Some (Wrap "failed to compress database" err),
               write_all files dst partial)
          | None =>
              match gz_close_err f with
              | Some (partial, err) =>
                  (Some (Wrap "failed to finalize compression" err),
                   write_all files dst partial)
              | None =>
                  (os_sync_err f,
                   write_all files dst
                     (gzip_encode (Base path) now (read_all files path)))
              end
          end
      end
  end.

Definition verifyCompressedBackup (files : gmap string File)
    (backupPath : string) : option error :=
  match os_Open files backupPath with
  | Some err => Some (Wrap "failed to open backup file" err)
  | None =>
      let packed := read_all files backupPath in
      match gzip_NewReader packed with
      | Some err =>
          Some (Wrap "backup file is corrupted (invalid gzip)" err)
      | None =>
          option_map (Wrap "backup file is corrupted (decompression failed)")
            (gzip_read packed packed).2
      end
  end.

Definition verifyDatabase (files : gmap string File) (dbPath : string)
  : option error * gmap string File :=
  let session := sqlite_session files dbPath in
  match open_result session with
  | Some err => (Some (Wrap "failed to open database" err), files_after session)
  | None =>
      match integrity session with
      | Err err =>
          (Some (Wrap "failed to check database integrity" err),
           files_after session)
      | Ok res =>
          if String.eqb res "ok" then (None, files_after session)
          else (Some (Errorf ("database integrity check failed: " +:+ res)),
                files_after session)
      end
  end.

Definition verifyBackup (files : gmap string File) (backupPath : string)
  : option error * gmap string File :=
  match isCompressedFile (os_open_err f backupPath) files backupPath with
  | Err err => (Some err, files)
  | Ok true => (verifyCompressedBackup files backupPath, files)
  | Ok false => verifyDatabase files backupPath
  end.

Definition Backup (path : string) (opts : BackupOptions.t)
    (files : gmap string File) : option error * gmap string File :=
  match files !! path with
  | None => (Some (Errorf ("source database does not exist: " +:+ path)), files)
  | Some _ =>
      match os_mkdir_err f (BackupOptions.OutputPath opts) with
      | Some err =>
          (Some (Wrap "failed to create output directory" err), files)
      | None =>
          let r :=
            if BackupOptions.Compress opts
            then wrapped "compressed backup failed"
                   (backupCompressed path opts files)
            else wrapped "raw backup failed" (backupRaw path opts files) in
          match r.1 with
          | Some _ => r
          | None =>
              if BackupOptions.Verify opts
              then wrapped "backup verification failed"
                     (verifyBackup r.2 (BackupOptions.OutputPath opts))
              else (None, r.2)
          end
      end
  end.

Definition restoreRaw (path : string) (opts : RestoreOptions.t)
    (files : gmap string File) : option error * gmap string File :=
  match os_mkdir_err f path with
  | Some err =>
      (Some (Wrap "failed to create destination directory" err), files)
  | None =>
      match os_Open files (RestoreOptions.BackupPath opts) with
      | Some err => (Some (Wrap "failed to open backup file" err), files)
      | None =>
          match os_Create files path with
          | Err err =>
              (Some (Wrap "failed to create destination database" err), files)
          | Ok files =>
              copy_file "failed to copy backup" files
                (RestoreOptions.BackupPath opts) path
          end
      end
  end.

Definition restoreCompressed (path : string) (opts : RestoreOptions.t)
    (files : gmap string File) : option error * gmap string File :=
  match os_mkdir_err f path with
  | Some err =>
      (Some (Wrap "failed to create destination directory" err), files)
  | None =>
      match os_Open files (RestoreOptions.BackupPath opts) with
      | Some err => (Some (Wrap "failed to open backup file" err), files)
      | None =>
          let at_open := read_all files (RestoreOptions.BackupPath opts) in
          match gzip_NewReader at_open with
          | Some err => (Some (Wrap "failed to create gzip reader" err), files)
          | None =>
              match os_Create files path with
              | Err err =>
                  (Some (Wrap "failed to create destination database" err),
                   files)
              | Ok files =>
                  match os_copy_err f with
                  | Some (partial, err) =>
                      (Some (Wrap "failed to decompress backup" err),
                       write_all files path partial)
                  | None =>
                      let r :=
                        gzip_read at_open
                          (read_all files (RestoreOptions.BackupPath opts)) in
                      match r.2 with
                      | Some err =>
                          (Some (Wrap "failed to decompress backup" err),
                           write_all files path r.1)
                      | None => (os_sync_err f, write_all files path r.1)
                      end
                  end
              end
          end
      end
  end.

(** The name of the copy [Restore] makes of the database it overwrites. *)
Definition safety_path (path : string) : string :=
  path +:+ ".backup." +:+ fmt_dZ now.

Definition Restore (path : string) (opts : RestoreOptions.t)
    (files : gmap string File) : option error * gmap string File :=
  match files !! RestoreOptions.BackupPath opts with
  | None =>
      (Some (Errorf ("backup file does not exist: "
                       +:+ RestoreOptions.BackupPath opts)), files)
  | Some _ =>
      let destExists := bool_decide (is_Some (files !! path)) in
      if destExists && negb (RestoreOptions.Force opts) then
        (Some (Errorf ("destination database already exists: " +:+ path
                         +:+ " (use --force to overwrite)")), files)
      else
        let saved :=
          if RestoreOptions.CreateBackup opts && destExists
          then wrapped "failed to backup existing database"
                 (backupRaw path
                    {| BackupOptions.OutputPath := safety_path path;
                       BackupOptions.Compress := false;
                       BackupOptions.Verify := false;
                       BackupOptions.Verbose := RestoreOptions.Verbose opts |}
                    files)
          else (None, files) in
        match saved.1 with
        | Some _ => saved
        | None =>
            match isCompressedFile
                    (os_open_err f (RestoreOptions.BackupPath opts))
                    saved.2 (RestoreOptions.BackupPath opts) with
            | Err err =>
                (Some (Wrap "failed to check backup format" err), saved.2)
            | Ok isCompressed =>
                let r :=
                  if isCompressed
                  then wrapped "compressed restore failed"
                         (restoreCompressed path opts saved.2)
                  else wrapped "raw restore failed"
                         (restoreRaw path opts saved.2) in
                match r.1 with
                | Some _ => r
                | None =>
                    if RestoreOptions.Verify opts
                    then wrapped "restored database verification failed"
                           (verifyDatabase r.2 path)
                    else (None, r.2)
                end
            end
        end
  end.

End Operations.

(** A codec for running the code: the two magic bytes, then the data as it
    is; the name and the time are dropped. *)
Definition toy_magic : string :=
  String (ascii_of_N 0x1f) (String (ascii_of_N 0x8b) EmptyString).

Definition toy_encode (name : string) (mtime : Z) (data : string) : string :=
  toy_magic +:+ data.

Definition toy_NewReader (packed : string) : option error :=
  if gzip_magic packed then None else Some (EngineError "gzip: invalid header").

Definition toy_read (at_open at_copy : string) : string * option error :=
  match at_copy with
  | String _ (String _ data) => (data, None)
  | _ => ("", Some (EngineError "unexpected EOF"))
  end.

(** A session that changes no file and finds every database in order. *)
Definition calm_session (files : gmap string File) (dbPath : string)
  : Session :=
  {| open_result := None; integrity := Ok "ok"; files_after := files |}.

Definition toy_Base (path : string) : string := path.

Definition database_files : gmap string File :=
  {[ "gogo.db" := mkFile "SQLite format 3" 1700000000 ]}.

Definition raw_opts (out : string) : BackupOptions.t :=
  {| BackupOptions.OutputPath := out; BackupOptions.Compress := false;
     BackupOptions.Verify := false; BackupOptions.Verbose := false |}.

Definition gz_opts (out : string) : BackupOptions.t :=
  {| BackupOptions.OutputPath := out; BackupOptions.Compress := true;
     BackupOptions.Verify := false; BackupOptions.Verbose := false |}.

Definition restore_opts (from : string) (force keep : bool)
  : RestoreOptions.t :=
  {| RestoreOptions.BackupPath := from; RestoreOptions.Verify := false;
     RestoreOptions.CreateBackup := keep; RestoreOptions.Force := force;
     RestoreOptions.Verbose := false |}.

End BackupRestore.

(** Files to run backup and restore on. *)
Module BackupExamples.
Import Backup BackupRestore.

Definition empty_database_files : gmap string File :=
  {[ "gogo.db" := mkFile "" 1700000000 ]}.

Definition with_backup : gmap string File :=
  {[ "gogo.db" := mkFile "SQLite format 3 (new)" 1700000300;
     "backup.db" := mkFile "SQLite format 3" 1700000100 ]}.

Definition backup (opts : BackupOptions.t) (files : gmap string File)
  : option error * gmap string File :=
  Backup no_os_faults 1700000100 toy_Base toy_encode toy_NewReader toy_read
    calm_session "gogo.db" opts files.

Definition restore (opts : RestoreOptions.t) (files : gmap string File)
  : option error * gmap string File :=
  Restore no_os_faults 1700000200 toy_NewReader toy_read calm_session
    "gogo.db" opts files.

(** The database has changed since the backup. *)
Definition changed_since (files : gmap string File) : gmap string File :=
  <["gogo.db" := mkFile "SQLite format 3 (new)" 1700000150]> files.

End BackupExamples.

(** ** The other export formats, and Export itself *)

Module GoPath.

Fixpoint has_sep (s : string) : bool :=
  match s with
  | EmptyString => false
  | String a r => Ascii.eqb a "/"%char || has_sep r
  end.

(** [filepath.Ext]: the suffix from the last dot of the last element on. *)
Fixpoint Ext (path : string) : string :=
  match path with
  | EmptyString => EmptyString
  | String a r =>
      if has_sep r then Ext r
      else match Ext r with
           | EmptyString => if Ascii.eqb a "."%char then path else EmptyString
           | ext => ext
           end
  end.

Definition HasSuffix (s suffix : string) : bool :=
  (String.length suffix <=? String.length s)%nat
  && String.eqb
       (String.substring (String.length s - String.length suffix)
          (String.length suffix) s) suffix.

Definition TrimSuffix (s suffix : string) : string :=
  if HasSuffix s suffix
  then String.substring 0 (String.length s - String.length suffix) s
  else s.

End GoPath.

(** What [os.MkdirAll] may answer for the directory of the output, and for
    the directory of the CSV files. *)
Record DirFaults : Type := mkDirFaults {
  out_dir_err : option error;
  csv_dir_err : option error
}.

Definition no_dir_faults : DirFaults :=
  {| out_dir_err := None; csv_dir_err := None |}.

Section ExportFormats.

Variable fmt_time : Z -> string.
(** The JSON encoder with its indentation, the writing included. *)
Variable encode_json : ExportedData -> result string.
Variable filepath_Join : string -> string -> string.

(** [row[col] = values[i]] for each column in turn. *)
Definition table_row (columns : list string) (values : list Value)
  : gmap string Value :=
  foldl (fun row cv => <[cv.1 := cv.2]> row) ∅ (zip columns values).

Definition getTableRows (tableName : string)
  : IO (list (gmap string Value)) :=
  do s <- get_store;
  match lookup_table s tableName with
  | None =>
      io_fail (Wrap "failed to query table"
                 (EngineError ("no such table: " +:+ tableName)))
  | Some t => io_ret (map (table_row (tbl_columns t)) (tbl_rows t))
  end.

(** The loop over the tables of [exportJSON]. The template and blueprint
    views it asks for on the way are always empty and never fail. *)
Fixpoint collect_tables (opts : ExportOptions) (tbls : list string)
    (collected : gmap string (list (gmap string Value))) (totalRows : nat)
  : IO (gmap string (list (gmap string Value)) * nat) :=
  match tbls with
  | [] => io_ret (collected, totalRows)
  | table :: rest =>
      run print_if (ExVerbose opts) ("Exporting table: " +:+ table);
      do rows <- io_wrap ("failed to get rows for table " +:+ table)
                   (getTableRows table);
      collect_tables opts rest (<[table := rows]> collected)
        (totalRows + length rows)
  end.

Definition exportJSON (f : IOFaults) (now : Z) (opts : ExportOptions)
  : IO unit :=
  do tbls <- io_wrap "failed to get tables"
               (getTablesToExport f (Tables opts));
  do res <- collect_tables opts tbls ∅ 0;
  let exportData :=
    {| Metadata := {| ExportedAt := now; Version := "1.0";
                      MdFormat := "json";
                      TableCount := Z.of_nat (length tbls);
                      RowCount := Z.of_nat res.2 |};
       DataTables := res.1 |} in
  run io_wrap "failed to create output file"
        (create_file f (OutputPath opts));
  do text <- io_wrap "failed to encode JSON"
               (io_lift (encode_json exportData));
  run fprint (OutputPath opts) text;
  print_if (ExVerbose opts)
    ("✓ JSON export completed: " +:+ fmt_d (length tbls) +:+ " tables, "
       +:+ fmt_d res.2 +:+ " rows").

Definition exportTableCSV (filename tableName : string) : IO nat :=
  io_fail (Errorf "CSV export not fully implemented").

(** The loop over the tables of [exportCSV]. *)
Fixpoint csv_tables (opts : ExportOptions) (baseDir : string)
    (tbls : list string) (totalRows : nat) : IO nat :=
  match tbls with
  | [] => io_ret totalRows
  | table :: rest =>
      run print_if (ExVerbose opts) ("Exporting table: " +:+ table);
      do rows <- io_wrap ("failed to export CSV for table " +:+ table)
                   (exportTableCSV
                      (filepath_Join baseDir (table +:+ ".csv")) table);
      csv_tables opts baseDir rest (totalRows + rows)
  end.

Definition exportCSV (f : IOFaults) (d : DirFaults) (opts : ExportOptions)
  : IO unit :=
  do tbls <- io_wrap "failed to get tables"
               (getTablesToExport f (Tables opts));
  let baseDir :=
    GoPath.TrimSuffix (OutputPath opts) (GoPath.Ext (OutputPath opts)) in
  run io_wrap "failed to create CSV directory"
        (io_lift (check (csv_dir_err d)));
  do totalRows <- csv_tables opts baseDir tbls 0;
  print_if (ExVerbose opts)
    ("✓ CSV export completed: " +:+ fmt_d (length tbls) +:+ " tables, "
       +:+ fmt_d totalRows +:+ " rows in " +:+ baseDir).

Definition Export (f : IOFaults) (d : DirFaults) (now : Z)
    (generated : string) (opts : ExportOptions) : IO unit :=
  run print_if (ExVerbose opts) "Starting database export...";
  run io_wrap "failed to create output directory"
        (io_lift (check (out_dir_err d)));
  match ExFormat opts with
  | FormatSQL => exportSQL fmt_time f generated opts
  | FormatJSON => exportJSON f now opts
  | FormatCSV => exportCSV f d opts
  | FormatOther name =>
      io_fail (Errorf ("unsupported export format: " +:+ name))
  end.

End ExportFormats.

(** The rows of a table as [getTableRows] hands them on, and the bundle
    [exportJSON] builds from the tables of a list. *)
Definition rows_of (s : Store) (tableName : string)
  : list (gmap string Value) :=
  match lookup_table s tableName with
  | Some t => map (table_row (tbl_columns t)) (tbl_rows t)
  | None => []
  end.

Definition row_total (s : Store) (tbls : list string) : nat :=
  foldr (fun table n => length (rows_of s table) + n) 0 tbls.

Definition bundle_of (now : Z) (s : Store) (tbls : list string)
  : ExportedData :=
  {| Metadata := {| ExportedAt := now; Version := "1.0"; MdFormat := "json";
                    TableCount := Z.of_nat (length tbls);
                    RowCount := Z.of_nat (row_total s tbls) |};
     DataTables :=
       foldl (fun collected table => <[table := rows_of s table]> collected)
         ∅ tbls |}.

Definition missing_rows_error (tableName : string) : error :=
  Wrap ("failed to get rows for table " +:+ tableName)
    (Wrap "failed to query table"
       (EngineError ("no such table: " +:+ tableName))).

Definition json_export_line (tableCount totalRows : nat) : string :=
  "✓ JSON export completed: " +:+ fmt_d tableCount +:+ " tables, "
    +:+ fmt_d totalRows +:+ " rows".

(** An encoder and a decoder that know one bundle. *)
Definition notes_json : string := "{ (the notes) }".

Definition toy_encode_json (data : ExportedData) : result string :=
  Ok notes_json.

Definition json_opts (tbls : list string) : ExportOptions :=
  {| OutputPath := "dump.json"; ExFormat := FormatJSON; Tables := tbls;
     IncludeSchema := true; IncludeData := true; ExVerbose := true |}.

Definition csv_opts (tbls : list string) : ExportOptions :=
  {| OutputPath := "out/dump.csv"; ExFormat := FormatCSV; Tables := tbls;
     IncludeSchema := true; IncludeData := true; ExVerbose := false |}.

Definition toy_Join (dir name : string) : string := dir +:+ "/" +:+ name.

Definition notes_bundle : ExportedData :=
  bundle_of 1700000000 notes_store ["notes"].

Definition decode_notes (content : string) : result ExportedData :=
  if String.eqb content notes_json then Ok notes_bundle
  else Err (EngineError "invalid character looking for beginning of value").

Definition exported_files : gmap string string :=
  {[ "dump.json" := notes_json ]}.

(** * Properties *)

(** ** The ledger statements *)

Lemma ledger_rows_create (s : Store) :
  ledger_rows (create_ledger_if_absent s) = ledger_rows s.
Proof.
  unfold create_ledger_if_absent, ledger_rows.
  destruct (ledger s) eqn:E; simpl; by rewrite ?E.
Qed.

Lemma tables_create (s : Store) :
  tables (create_ledger_if_absent s) = tables s.
Proof. unfold create_ledger_if_absent. by destruct (ledger s). Qed.

Lemma create_ledger_present (s : Store) (l : list LedgerRow) :
  ledger s = Some l -> create_ledger_if_absent s = s.
Proof. unfold create_ledger_if_absent. by intros ->. Qed.

Lemma existsb_id_false (id : string) (l : list LedgerRow) :
  existsb (fun r => String.eqb (l_id r) id) l = false ->
  filter (fun r => l_id r = id) l = [].
Proof.
  induction l as [|r l IH]; simpl; [done|].
  intros [Hr Hl]%orb_false_iff.
  apply String.eqb_neq in Hr.
  rewrite filter_cons_False by done. auto.
Qed.

(** A successful ledger insert leaves exactly one row under the id: the one
    just written, after the rows that were there. *)
Lemma ledger_insert_ok (now : Z) (id description checksum : string)
    (s s' : Store) :
  ledger_insert now id description checksum s = Ok s' ->
  tables s' = tables s /\
  ledger_rows s' = ledger_rows s ++ [mkLedgerRow id description now checksum] /\
  ledger_count id s = 0 /\
  ledger_count id s' = 1.
Proof.
  unfold ledger_insert, ledger_count, ledger_rows.
  destruct (ledger s) as [l|] eqn:Hl; [|done].
  destruct (existsb _ l) eqn:Hex; [done|].
  intros [= <-]. simpl.
  apply existsb_id_false in Hex.
  rewrite filter_app, Hex. simpl.
  rewrite filter_cons_True by done. done.
Qed.


Section MigrationProperties.

Variable exec : string -> Store -> result Store.

(** C1. For a migration with a non-empty forward body, [ApplyMigration]
    runs the forward body and the ledger insert as one unit. When every
    step goes through (the transaction begins, the engine accepts the
    forward body, the ledger takes the row, the commit succeeds) it returns
    success and the store is the one obtained by executing the forward body
    and inserting the ledger row (id, description, checksum of the forward
    body) on top of it, with exactly one ledger row for that id. When any
    step fails (the begin, the forward body, the ledger insert by a fault
    of the driver or because the ledger refuses the row, the commit) it
    returns an error and leaves the manager and its store exactly as they
    were: no schema change, no ledger row. Nothing else can happen. *)
Theorem ApplyMigration_atomic (f : Faults) (now : Z)
    (migration : Migration) (m : MigrationManager) :
  UpSQL migration <> "" ->
  let r := ApplyMigration exec f now migration m in
  let checksum := generateChecksum (UpSQL migration) in
  (forall tx1 tx2,
      begin_err f = None ->
      exec (UpSQL migration) (db m) = Ok tx1 ->
      ledger_err f = None ->
      ledger_insert now (ID migration) (Description migration) checksum tx1
        = Ok tx2 ->
      commit_err f = None ->
      r = (Ok tt, set_db m tx2) /\
      ledger_count (ID migration) tx2 = 1 /\
      mkLedgerRow (ID migration) (Description migration) now checksum
        ∈ ledger_rows tx2) /\
  (begin_err f <> None \/
   is_ok (exec (UpSQL migration) (db m)) = false \/
   ledger_err f <> None \/
   (exists tx1,
       exec (UpSQL migration) (db m) = Ok tx1 /\
       is_ok (ledger_insert now (ID migration) (Description migration)
                checksum tx1) = false) \/
   commit_err f <> None ->
   exists e, r = (Err e, m)) /\
  ((exists e, r = (Err e, m)) \/
   (exists tx1 tx2,
       exec (UpSQL migration) (db m) = Ok tx1 /\
       ledger_insert now (ID migration) (Description migration) checksum tx1
         = Ok tx2 /\
       r = (Ok tt, set_db m tx2) /\
       ledger_count (ID migration) tx2 = 1 /\
       mkLedgerRow (ID migration) (Description migration) now checksum
         ∈ ledger_rows tx2)).
Proof.
  intros Hup r checksum. unfold r, checksum, ApplyMigration.
  destruct (decide (UpSQL migration = "")) as [|_]; [done|].
  assert (Hrow : forall tx1 tx2,
    ledger_insert now (ID migration) (Description migration)
      (generateChecksum (UpSQL migration)) tx1 = Ok tx2 ->
    ledger_count (ID migration) tx2 = 1 /\
    mkLedgerRow (ID migration) (Description migration) now
      (generateChecksum (UpSQL migration)) ∈ ledger_rows tx2).
  { intros tx1 tx2 Hins.
    destruct (ledger_insert_ok _ _ _ _ _ _ Hins) as (_ & Hrows & _ & Hone).
    split; [done|]. rewrite Hrows. set_solver. }
  split_and!.
  - intros tx1 tx2 -> -> -> Hins ->. cbn [check mbind]. simpl.
    rewrite Hins. split; [done|]. by apply (Hrow tx1).
  - intros Hfail.
    destruct (begin_err f) as [e|]; [eauto|].
    destruct (exec (UpSQL migration) (db m)) as [tx1|e]; [|eauto].
    destruct (ledger_err f) as [e|]; simpl; [eauto|].
    destruct (ledger_insert _ _ _ _ tx1) as [tx2|e] eqn:Hins; simpl; [|eauto].
    destruct (commit_err f) as [e|]; [eauto|].
    destruct Hfail as [H|[H|[H|[(tx & [= <-] & H)|H]]]]; try done.
    by rewrite Hins in H.
  - destruct (begin_err f) as [e|]; [left; eauto|].
    destruct (exec (UpSQL migration) (db m)) as [tx1|e] eqn:Hexec;
      [|left; eauto].
    destruct (ledger_err f) as [e|]; simpl; [left; eauto|].
    destruct (ledger_insert _ _ _ _ tx1) as [tx2|e] eqn:Hins;
      simpl; [|left; eauto].
    destruct (commit_err f) as [e|]; [left; eauto|].
    right. exists tx1, tx2. destruct (Hrow tx1 tx2 Hins). done.
Qed.

End MigrationProperties.

Lemma ApplyMigration_atomic_witness :
  let m := NewMigrationManager (ledger_store []) in
  let commit_fails :=
    {| begin_err := None; commit_err := Some (EngineError "disk I/O error");
       ledger_err := None; ddl_err := None; query_err := None |} in
  UpSQL users_migration <> "" /\
  (exists tx2,
      ApplyMigration ToyEngine.exec no_faults 1700000000 users_migration m
      = (Ok tt, set_db m tx2) /\
      ledger_count (ID users_migration) tx2 = 1) /\
  (exists e,
      ApplyMigration ToyEngine.exec commit_fails 1700000000 users_migration m
      = (Err e, m)).
Proof.
  assert (Hup : UpSQL users_migration <> "") by discriminate.
  split; [exact Hup|]. split.
  - edestruct (proj1 (ApplyMigration_atomic ToyEngine.exec no_faults
                        1700000000 users_migration
                        (NewMigrationManager (ledger_store [])) Hup))
      as (Hrun & Hone & _).
    + reflexivity.
    + vm_compute. reflexivity.
    + reflexivity.
    + vm_compute. reflexivity.
    + reflexivity.
    + eexists. split; [exact Hrun | exact Hone].
  - apply (proj1 (proj2 (ApplyMigration_atomic ToyEngine.exec
                           {| begin_err := None;
                              commit_err := Some (EngineError "disk I/O error");
                              ledger_err := None; ddl_err := None;
                              query_err := None |}
                           1700000000 users_migration
                           (NewMigrationManager (ledger_store [])) Hup))).
    right. right. right. right. discriminate.
Defined.

(** ** Pending migrations *)

Lemma RegisterMigration_wf (id description upSQL downSQL : string)
    (m : MigrationManager) :
  registry_wf (migrations m) ->
  registry_wf (migrations (RegisterMigration id description upSQL downSQL m)).
Proof.
  unfold registry_wf, RegisterMigration. simpl. intros Hwf.
  apply map_Forall_insert_2; done.
Qed.

Lemma NewMigrationManager_wf (s : Store) :
  registry_wf (migrations (NewMigrationManager s)).
Proof. apply map_Forall_empty. Qed.

Lemma scan_applied_None (rows : list LedgerRow)
    (applied : gmap string Migration) (k : string) :
  scan_applied rows applied !! k = None <->
  applied !! k = None /\ k ∉ l_id <$> rows.
Proof.
  revert applied. induction rows as [|r rows IH]; intros applied; simpl.
  - split; [intros ?; split; [done|apply not_elem_of_nil]|tauto].
  - rewrite IH, lookup_insert_None, not_elem_of_cons.
    intuition congruence.
Qed.

Lemma rows_by_id_perm (s : Store) : rows_by_id s ≡ₚ ledger_rows s.
Proof. apply merge_sort_Permutation. Qed.

Lemma applied_lookup_None (s : Store) (k : string) :
  scan_applied (rows_by_id s) ∅ !! k = None <-> k ∉ applied_ids s.
Proof.
  rewrite scan_applied_None, lookup_empty. unfold applied_ids.
  rewrite elem_of_list_to_set, rows_by_id_perm. tauto.
Qed.

Global Instance by_ID_total : Total by_ID.
Proof. intros a b. unfold by_ID. apply (total String.le). Qed.

Global Instance by_ID_trans : Transitive by_ID.
Proof. intros a b c. unfold by_ID. apply transitivity. Qed.

(** A list sorted by id without two equal ids ascends strictly. *)
Lemma StronglySorted_ID_lt (l : list Migration) :
  Sorted by_ID l -> NoDup (ID <$> l) -> StronglySorted ID_lt l.
Proof.
  intros Hs%Sorted_StronglySorted; [|apply _].
  induction Hs as [|a l Hl IH Ha]; intros Hnd; [constructor|].
  rewrite fmap_cons in Hnd. apply NoDup_cons in Hnd as [Hnotin Hnd].
  constructor; [auto|].
  rewrite Forall_forall in Ha. apply Forall_forall. intros b Hb.
  split; [by apply Ha|].
  intros Heq. apply Hnotin. rewrite Heq. by apply list_elem_of_fmap_2.
Qed.

(** C2. With N registered migrations of which K are recorded in the ledger,
    [GetPendingMigrations] returns the registered migrations whose id is not
    in the ledger and no others (the ids returned are the registered ids
    minus the applied ids), N - K of them, in strictly ascending order of
    id; it changes neither the registry nor any row. It returns them
    whenever the driver answers: an error comes back only when creating the
    ledger table or querying it failed. *)
Theorem GetPendingMigrations_spec (f : Faults) (m : MigrationManager) :
  registry_wf (migrations m) ->
  match GetPendingMigrations f m with
  | (Ok pending, m') =>
      StronglySorted ID_lt pending /\
      (forall mig, mig ∈ pending <->
         migrations m !! ID mig = Some mig /\ ID mig ∉ applied_ids (db m)) /\
      list_to_set (ID <$> pending) = dom (migrations m) ∖ applied_ids (db m) /\
      length pending =
        size (migrations m) - size (dom (migrations m) ∩ applied_ids (db m)) /\
      migrations m' = migrations m /\
      tables (db m') = tables (db m) /\
      ledger_rows (db m') = ledger_rows (db m)
  | (Err _, _) => ddl_err f <> None \/ query_err f <> None
  end.
Proof.
  intros Hwf.
  unfold GetPendingMigrations, GetAppliedMigrations, InitMigrationTable.
  destruct (ddl_err f) as [e|]; [by left|].
  destruct (query_err f) as [e|]; [by right|].
  simpl.
  set (s' := create_ledger_if_absent (db m)).
  set (L := filter _ (map_to_list (migrations m))).
  assert (Hids : applied_ids s' = applied_ids (db m)).
  { unfold applied_ids, s'. by rewrite ledger_rows_create. }
  assert (HL : forall k mig,
             (k, mig) ∈ L <->
             migrations m !! k = Some mig /\ k ∉ applied_ids (db m)).
  { intros k mig. unfold L. rewrite list_elem_of_filter. simpl.
    rewrite applied_lookup_None, Hids, elem_of_map_to_list. tauto. }
  assert (Hmem : forall mig,
             mig ∈ sort_by_ID L.*2 <->
             migrations m !! ID mig = Some mig /\
             ID mig ∉ applied_ids (db m)).
  { intros mig. unfold sort_by_ID. rewrite merge_sort_Permutation.
    rewrite list_elem_of_fmap. split.
    - intros [[k mig'] [-> Hin]]. simpl.
      apply HL in Hin as [Hlook Hk].
      rewrite (Hwf _ _ Hlook). done.
    - intros [Hlook Hk]. exists (ID mig, mig). split; [done|].
      by apply HL. }
  assert (Hkeys : ID <$> L.*2 = L.*1).
  { rewrite <- list_fmap_compose. apply list_fmap_ext.
    intros i [k mig] Hi. simpl.
    apply list_elem_of_lookup_2, HL in Hi as [Hlook _].
    by apply Hwf. }
  assert (Hnd : NoDup (ID <$> sort_by_ID L.*2)).
  { unfold sort_by_ID. rewrite merge_sort_Permutation, Hkeys.
    unfold L.
    apply (sublist_NoDup _ (map_to_list (migrations m)).*1);
      [apply NoDup_fst_map_to_list|].
    apply fmap_sublist, sublist_filter. }
  assert (Hset : list_to_set (ID <$> sort_by_ID L.*2)
                 = dom (migrations m) ∖ applied_ids (db m)).
  { apply set_eq. intros k.
    rewrite elem_of_list_to_set, list_elem_of_fmap, elem_of_difference,
      elem_of_dom.
    split.
    - intros [mig [-> [Hlook Hk]%Hmem]]. eauto.
    - intros [[mig Hlook] Hk]. exists mig.
      pose proof (Hwf _ _ Hlook) as Hid. simpl in Hid. subst k.
      split; [done|]. by apply Hmem. }
  split_and!; try done.
  - apply StronglySorted_ID_lt; [|done].
    apply Sorted_merge_sort. apply _.
  - rewrite <- (size_dom (D := gset string)), <- size_difference_alt, <- Hset.
    rewrite size_list_to_set by done. by rewrite length_fmap.
  - apply tables_create.
  - apply ledger_rows_create.
Qed.

Lemma three_registered_wf : registry_wf (migrations three_registered).
Proof. repeat apply RegisterMigration_wf. apply NewMigrationManager_wf. Qed.

Lemma GetPendingMigrations_spec_witness :
  registry_wf (migrations three_registered) /\
  match GetPendingMigrations no_faults three_registered with
  | (Ok pending, m') =>
      StronglySorted ID_lt pending /\
      (forall mig, mig ∈ pending <->
         migrations three_registered !! ID mig = Some mig /\
         ID mig ∉ applied_ids (db three_registered)) /\
      list_to_set (ID <$> pending) =
        dom (migrations three_registered) ∖ applied_ids (db three_registered) /\
      length pending =
        size (migrations three_registered)
        - size (dom (migrations three_registered)
                  ∩ applied_ids (db three_registered)) /\
      migrations m' = migrations three_registered /\
      tables (db m') = tables (db three_registered) /\
      ledger_rows (db m') = ledger_rows (db three_registered)
  | (Err _, _) => ddl_err no_faults <> None \/ query_err no_faults <> None
  end.
Proof.
  split; [apply three_registered_wf|].
  apply (GetPendingMigrations_spec no_faults three_registered).
  apply three_registered_wf.
Defined.

Example pending_of_three_registered :
  match GetPendingMigrations no_faults three_registered with
  | (Ok pending, _) => ID <$> pending
  | (Err _, _) => []
  end = ["002_second"; "003_third"].
Proof. vm_compute. reflexivity. Qed.

(** ** Rolling back *)

Lemma latest_row_None (l : list LedgerRow) : latest_row l = None <-> l = [].
Proof.
  destruct l as [|r l]; simpl; [done|].
  destruct (latest_row l) as [r'|]; [|done].
  by destruct (l_applied_at r' <=? l_applied_at r)%Z.
Qed.

(** The row selected is a row of the ledger and none is younger. *)
Lemma latest_row_Some (l : list LedgerRow) (r : LedgerRow) :
  latest_row l = Some r ->
  r ∈ l /\ forall r', r' ∈ l -> (l_applied_at r' <= l_applied_at r)%Z.
Proof.
  revert r. induction l as [|a l IH]; intros r; simpl; [done|].
  destruct (latest_row l) as [r'|] eqn:Hl.
  - destruct (IH r' eq_refl) as [Hin Hmax].
    destruct (Z.leb_spec (l_applied_at r') (l_applied_at a)); intros [= <-].
    + split; [left|]. intros x [->|Hx]%elem_of_cons; [lia|].
      specialize (Hmax x Hx). lia.
    + split; [by right|]. intros x [->|Hx]%elem_of_cons; [lia|auto].
  - apply latest_row_None in Hl as ->. intros [= <-].
    split; [left|]. by intros x [->|Hx%not_elem_of_nil]%elem_of_cons.
Qed.

Section RollbackProperties.

Variable exec : string -> Store -> result Store.



(** C5, what the code does. The reverse body of the fourth core migration
    is a comment and a [SELECT] of a constant. On an engine that runs it
    without error and without touching the store, and with the ledger
    table in place, [RollbackMigration] of that migration returns success,
    deletes its ledger row and leaves every table as it was: no failure
    is reported although nothing has been reversed. *)
Theorem rollback_core_004_reports_success (f : Faults)
    (m : MigrationManager) (rows : list LedgerRow) :
  exec core_004_down (db m) = Ok (db m) ->
  f = no_faults ->
  ledger (db m) = Some rows ->
  migrations (RegisterCoreSchemas m) !! "004_add_metadata_columns"
    = Some core_004 /\
  RollbackMigration exec f core_004 (RegisterCoreSchemas m) =
    (Ok tt,
     set_db (RegisterCoreSchemas m)
       (with_ledger (db m)
          (Some (filter (fun r => l_id r <> "004_add_metadata_columns")
                   rows)))).
Proof.
  intros Hexec -> Hrows. split.
  - unfold RegisterCoreSchemas, RegisterMigration. simpl.
    apply lookup_insert_eq.
  - unfold RollbackMigration.
    destruct (decide (DownSQL core_004 = "")) as [Hempty|_];
      [discriminate Hempty|].
    simpl. rewrite Hexec. simpl.
    unfold ledger_delete. rewrite Hrows. done.
Qed.

End RollbackProperties.



(** The scenario of the specification: after both migrations are applied,
    [RollbackLast] drops [posts], keeps [users] and leaves one ledger row. *)
Example RollbackLast_two_applied :
  match RollbackLast ToyEngine.exec no_faults two_applied with
  | (Ok _, m') =>
      (l_id <$> ledger_rows (db m'), tables (db m') !! "posts",
       tables (db m') !! "users")
  | (Err _, _) => ([], None, None)
  end = (["001_users"], None, Some (mkTable None [] [])).
Proof. vm_compute. reflexivity. Qed.

Lemma rollback_core_004_reports_success_witness :
  ToyEngine.exec core_004_down (db (NewMigrationManager core_store))
    = Ok (db (NewMigrationManager core_store)) /\
  no_faults = no_faults /\
  ledger (db (NewMigrationManager core_store)) = Some core_ledger /\
  migrations (RegisterCoreSchemas (NewMigrationManager core_store))
    !! "004_add_metadata_columns" = Some core_004 /\
  RollbackMigration ToyEngine.exec no_faults core_004
    (RegisterCoreSchemas (NewMigrationManager core_store)) =
    (Ok tt,
     set_db (RegisterCoreSchemas (NewMigrationManager core_store))
       (with_ledger (db (NewMigrationManager core_store))
          (Some (filter (fun r => l_id r <> "004_add_metadata_columns")
                   core_ledger)))).
Proof.
  split; [vm_compute; reflexivity|]. split; [reflexivity|].
  split; [reflexivity|].
  apply (rollback_core_004_reports_success ToyEngine.exec no_faults
           (NewMigrationManager core_store) core_ledger);
    [vm_compute; reflexivity|reflexivity|reflexivity].
Defined.

(** ** Health *)

Module HealthProperties.
Import Health.

(** The closing loop, started from OK or WARNING, ends on the worst of
    its start and the statuses it meets; started from ERROR it stays
    there. *)
Lemma overall_from (checks : list HealthCheck) (warned : bool) :
  overall checks (if warned then "WARNING" else "OK") =
  if has_status "ERROR" checks then "ERROR"
  else if warned || has_status "WARNING" checks then "WARNING"
  else "OK".
Proof.
  revert warned. induction checks as [|c rest IH]; intros warned.
  - by destruct warned.
  - unfold has_status in *. simpl.
    destruct (String.eqb (hc_Status c) "ERROR") eqn:He; [done|]. simpl.
    destruct (String.eqb (hc_Status c) "WARNING") eqn:Hw; simpl.
    + destruct warned; simpl.
      * rewrite (IH true). simpl. done.
      * rewrite (IH true). simpl. done.
    + rewrite IH. done.
Qed.

Lemma overall_ERROR (checks : list HealthCheck) :
  overall checks "ERROR" = "ERROR".
Proof.
  induction checks as [|c rest IH]; [done|]. simpl.
  destruct (String.eqb (hc_Status c) "ERROR"); [done|].
  by rewrite andb_false_r.
Qed.

Lemma checks_known (p : Probes) :
  known_status (checkConnectivity p) /\ known_status (checkIntegrity p) /\
  known_status (checkVersion p) /\ known_status (checkWALMode p) /\
  known_status (checkTables p) /\ known_status (checkRowCounts p) /\
  known_status (checkFreeSpace p) /\ known_status (checkPerformance p).
Proof.
  unfold known_status, checkConnectivity, checkIntegrity, checkVersion,
    checkWALMode, checkTables, checkRowCounts, checkFreeSpace,
    checkPerformance.
  split_and!.
  - destruct (ping p); simpl; auto.
  - destruct (integrity_check p) as [res|]; simpl; auto.
    destruct (String.eqb res "ok"); simpl; auto.
  - destruct (sqlite_version p); simpl; auto.
  - destruct (journal_mode p) as [mode|]; simpl; auto.
    destruct (String.eqb mode "wal"); simpl; auto.
  - destruct (table_count p); simpl; auto.
  - destruct (table_rows p); simpl; auto.
  - destruct (freelist_count p) as [n|]; simpl; auto.
    destruct (100 <? n)%Z; simpl; auto.
  - destruct (perf_query p); simpl; auto.
    destruct (100 * 1000000 <? perf_elapsed p)%Z; simpl; auto.
Qed.

(** C9. In every report of [CheckHealth] the overall status is the status
    of greatest severity among the checks of the report: ERROR if one of
    them is ERROR, else WARNING if one of them is WARNING, else OK; and
    every check of the report has one of these three statuses. *)
Theorem CheckHealth_overall_status (parseIntValue : string -> result Z)
    (path : string) (p : Probes) :
  let report := CheckHealth parseIntValue path p in
  hs_Status report = max_severity_status (hs_Checks report) /\
  Forall known_status (hs_Checks report) /\
  Forall (fun c => severity (hc_Status c) <= severity (hs_Status report))
    (hs_Checks report).
Proof.
  pose proof (checks_known p) as (Kc & Ki & Kv & Kw & Kt & Kr & Kf & Kp).
  assert (Hmain :
    let report := CheckHealth parseIntValue path p in
    hs_Status report = max_severity_status (hs_Checks report) /\
    Forall known_status (hs_Checks report)).
  { unfold CheckHealth.
    destruct (String.eqb (hc_Status (checkConnectivity p)) "ERROR") eqn:Hc.
    - simpl. unfold max_severity_status. simpl. rewrite Hc. simpl.
      split; [done|]. by constructor.
    - cbn [hs_Status hs_Checks].
      split; [|repeat (constructor; [assumption|]); constructor].
      destruct (String.eqb (hc_Status (checkIntegrity p)) "ERROR") eqn:Hi.
      + rewrite overall_ERROR. unfold max_severity_status. simpl.
        rewrite Hc, Hi. done.
      + rewrite (overall_from _ false). done. }
  destruct Hmain as [Hmax Hknown]. split; [done|]. split; [done|].
  revert Hmax Hknown.
  generalize (CheckHealth parseIntValue path p). intros report.
  simpl. intros -> Hknown.
  unfold max_severity_status.
  induction Hknown as [|c rest Hc Hrest IH]; [constructor|].
  simpl. constructor.
  - destruct Hc as [-> | [-> | ->]]; simpl.
    + unfold severity. simpl. lia.
    + destruct (existsb _ rest); simpl; unfold severity; simpl; lia.
    + unfold severity. simpl. lia.
  - eapply Forall_impl; [exact IH|]. intros x Hx. simpl in Hx.
    destruct Hc as [-> | [-> | ->]]; simpl; try done.
    + destruct (existsb (fun c => String.eqb (hc_Status c) "ERROR") rest);
        [done|].
      destruct (existsb (fun c => String.eqb (hc_Status c) "WARNING") rest);
        [done|].
      etrans; [exact Hx|]. unfold severity. simpl. lia.
    + etrans; [exact Hx|].
      destruct (existsb _ rest); [done|].
      destruct (existsb _ rest); unfold severity; simpl; lia.
Qed.

End HealthProperties.

(** ** WithTx *)

Module StorageProperties.
Import Storage.

(** C10. Once the transaction has begun: when the callback returns an
    error, [WithTx] returns that very error and the store is as before;
    when the callback panics, the panic is raised again and the store is
    as before; when the callback returns [nil], the transaction is
    committed, and the store is what the callback left, unless the commit
    itself fails, in which case its error is returned and the store is as
    before. In every case the store changes only if the callback returned
    [nil]. *)
Theorem WithTx_spec (f : Faults) (fn : Store -> FnOutcome) (m : Manager) :
  begin_err f = None ->
  match fn (db m) with
  | FnReturn (Some err) _ => WithTx f fn m = (Returned (Some err), m)
  | FnPanic p _ => WithTx f fn m = (Panicked p, m)
  | FnReturn None tx =>
      match commit_err f with
      | None => WithTx f fn m = (Returned None, {| db := tx; path := path m |})
      | Some e => WithTx f fn m = (Returned (Some e), m)
      end
  end /\
  ((WithTx f fn m).2 <> m -> exists tx, fn (db m) = FnReturn None tx).
Proof.
  intros Hbegin. unfold WithTx. rewrite Hbegin.
  destruct (fn (db m)) as [[err|] tx|p tx]; simpl.
  - split; [done|]. intros Hne. by destruct Hne.
  - destruct (commit_err f); simpl; (split; [done|]); eauto.
  - split; [done|]. intros Hne. by destruct Hne.
Qed.

End StorageProperties.

Lemma WithTx_spec_witness :
  begin_err no_faults = None /\
  (Storage.WithTx no_faults fn_fails handle
     = (Storage.Returned
          (Some (Errorf "assert.AnError general error for testing")),
        handle)) /\
  (Storage.WithTx no_faults fn_panics handle
     = (Storage.Panicked "boom", handle)) /\
  (Storage.WithTx no_faults fn_commits handle
     = (Storage.Returned None,
        {| Storage.db := add_scratch empty_store;
           Storage.path := "test.db" |})).
Proof.
  split; [reflexivity|].
  split; [|split].
  - exact (proj1 (StorageProperties.WithTx_spec no_faults fn_fails handle
                    eq_refl)).
  - exact (proj1 (StorageProperties.WithTx_spec no_faults fn_panics handle
                    eq_refl)).
  - exact (proj1 (StorageProperties.WithTx_spec no_faults fn_commits handle
                    eq_refl)).
Defined.

(** ** Backup files *)

Module BackupProperties.
Import Backup.

Lemma read_header_magic (c : string) (buffer : ascii * ascii) :
  read_header c = Ok buffer ->
  (byte_of buffer.1 =? 0x1f)%N && (byte_of buffer.2 =? 0x8b)%N
  = gzip_magic c.
Proof.
  destruct c as [|a [|b c]]; simpl; [done|..]; intros [= <-]; simpl; [|done].
  by rewrite andb_false_r.
Qed.

(** C8 as the code has it. For a file that exists, can be opened and is
    not empty, [GetBackupInfo] succeeds and reports [IsCompressed = true]
    exactly when the first two bytes of the file are 0x1f 0x8b, together
    with the path, the size and the modification time; the verdict is a
    function of the content alone, so the file name plays no part. For an
    empty file it returns the error "failed to read file header" instead
    of a report. *)
Theorem GetBackupInfo_magic (files : gmap string File) (backupPath : string)
    (file : File) :
  files !! backupPath = Some file ->
  (content file <> "" ->
     GetBackupInfo None files backupPath =
     Ok {| Path := backupPath;
           Size := Z.of_nat (String.length (content file));
           ModTime := modTime file;
           IsCompressed := gzip_magic (content file) |}) /\
  (content file = "" ->
     GetBackupInfo None files backupPath =
     Err (Wrap "failed to read file header" (EngineError "EOF"))).
Proof.
  intros Hfile. unfold GetBackupInfo, isCompressedFile. rewrite Hfile.
  destruct (content file) as [|a c] eqn:Hc; simpl.
  - split; [done|]. done.
  - split; [|done]. intros _.
    destruct c as [|b c]; simpl; [|done].
    by rewrite andb_false_r.
Qed.

End BackupProperties.

Lemma GetBackupInfo_magic_witness :
  backup_files !! "backup.db" = Some (Backup.mkFile gz_bytes 1700000000) /\
  (Backup.content (Backup.mkFile gz_bytes 1700000000) <> "" ->
     Backup.GetBackupInfo None backup_files "backup.db" =
     Ok {| Backup.Path := "backup.db";
           Backup.Size := 3;
           Backup.ModTime := 1700000000;
           Backup.IsCompressed := true |}) /\
  (Backup.content (Backup.mkFile gz_bytes 1700000000) = "" ->
     Backup.GetBackupInfo None backup_files "backup.db" =
     Err (Wrap "failed to read file header" (EngineError "EOF"))).
Proof.
  split; [vm_compute; reflexivity|].
  apply (BackupProperties.GetBackupInfo_magic backup_files "backup.db"
           (Backup.mkFile gz_bytes 1700000000)).
  vm_compute. reflexivity.
Defined.

(** C8 as stated fails on an existing, empty file: no report with
    [IsCompressed = false] comes back, but an error. *)
Lemma GetBackupInfo_empty_file_counterexample :
  backup_files !! "empty.db.gz" = Some (Backup.mkFile "" 1700000002) /\
  ~ (exists info,
        Backup.GetBackupInfo None backup_files "empty.db.gz" = Ok info /\
        Backup.IsCompressed info = false).
Proof.
  split; [vm_compute; reflexivity|].
  intros [info [Hinfo _]]. vm_compute in Hinfo. discriminate Hinfo.
Qed.

(** ** Import and export *)

Lemma filter_all {A} (P : A -> Prop) `{!forall x, Decision (P x)}
    (l : list A) :
  Forall P l -> filter P l = l.
Proof.
  induction 1 as [|x l Hx Hl IH]; [done|].
  rewrite filter_cons_True by done. by rewrite IH.
Qed.

Section ImportProperties.

Variable exec : string -> Store -> result Store.
Variable decode_json : string -> result ExportedData.

Lemma print_if_world (b : bool) (line : string) (w : World) :
  exists lines,
    print_if b line w =
    (Ok tt, {| w_store := w_store w; w_fs := w_fs w;
               w_out := w_out w ++ lines |}).
Proof.
  destruct b; simpl.
  - by exists [line].
  - exists []. unfold io_ret. rewrite app_nil_r. by destruct w.
Qed.

(** The loop of [importSQL] touches neither the store nor the files: it
    works on the copy [tx], hands the executable fragments to the engine
    in order, counts them, and stops at the first failure. *)
Lemma run_statements_spec (verbose : bool) (stmts : list string)
    (tx : Store) (n : nat) (w : World) :
  w_store (run_statements exec verbose stmts tx n w).2 = w_store w /\
  w_fs (run_statements exec verbose stmts tx n w).2 = w_fs w /\
  match (run_statements exec verbose stmts tx n w).1 with
  | Ok (tx', n') =>
      exec_fragments exec stmts tx = Ok tx' /\
      n' = n + length (filter (fun s => executable s = true) stmts)
  | Err _ => is_ok (exec_fragments exec stmts tx) = false
  end.
Proof.
  revert tx n w. induction stmts as [|stmt rest IH]; intros tx n w.
  - simpl. split_and!; try done; lia.
  - cbn [run_statements exec_fragments].
    assert (Hcond : String.eqb (TrimSpace stmt) ""
                    || HasPrefix (TrimSpace stmt) "--"
                    = negb (executable stmt))
      by (unfold executable; by rewrite negb_involutive).
    rewrite Hcond. destruct (executable stmt) eqn:Hex; cbn [negb].
    + rewrite filter_cons_True by done.
      unfold io_bind.
      destruct (print_if_world verbose
                  ("Executing: "
                     +:+ String.substring 0
                           (min 50 (String.length (TrimSpace stmt)))
                           (TrimSpace stmt) +:+ "...") w)
        as [lines ->].
      destruct (exec (TrimSpace stmt) tx) as [tx1|e]; simpl.
      * specialize (IH tx1 (S n)
                      {| w_store := w_store w; w_fs := w_fs w;
                         w_out := w_out w ++ lines |}).
        simpl in IH. destruct IH as (Hs & Hf & Hr).
        split_and!; try done.
        destruct (run_statements exec verbose rest tx1 (S n) _).1
          as [[tx' n']|]; [|done].
        destruct Hr as [-> ->]. split; [done|]. simpl. lia.
      * done.
    + rewrite filter_cons_False by (rewrite Hex; done).
      apply IH.
Qed.

Lemma importSQL_dry_run (f : IOFaults) (opts : ImportOptions) (w : World)
    (content : string) :
  w_fs w !! InputPath opts = Some content ->
  DryRun opts = true ->
  importSQL exec f opts w =
  (Ok tt,
   add_out w [dry_run_sql_line (length (Split content ";"%char) - 1)]).
Proof.
  intros Hfile Hdry. unfold importSQL, io_bind, io_wrap, read_file.
  rewrite Hfile, Hdry. done.
Qed.

(** The real run of [importSQL] is all or nothing: when it fails the
    store is the one it started from, when it succeeds the store is the
    outcome of the executable fragments in order, and their number is
    what it reports. The files are not touched. *)
Lemma importSQL_real_run (f : IOFaults) (opts : ImportOptions) (w : World)
    (content : string) :
  w_fs w !! InputPath opts = Some content ->
  DryRun opts = false ->
  w_fs (importSQL exec f opts w).2 = w_fs w /\
  match (importSQL exec f opts w).1 with
  | Ok _ =>
      exec_fragments exec (Split content ";"%char) (w_store w)
        = Ok (w_store (importSQL exec f opts w).2) /\
      last (w_out (importSQL exec f opts w).2)
        = Some (sql_done_line (executed_count content))
  | Err _ => w_store (importSQL exec f opts w).2 = w_store w
  end.
Proof.
  intros Hfile Hdry.
  unfold importSQL, io_bind, io_wrap, read_file, io_lift, get_store.
  rewrite Hfile, Hdry. cbn [wrap].
  destruct (io_begin_err f) as [e|]; cbn [check wrap]; [done|].
  pose proof (run_statements_spec (ImVerbose opts)
                (Split content ";"%char) (w_store w) 0 w)
    as (Hs & Hf & Hr).
  destruct (run_statements exec (ImVerbose opts) (Split content ";"%char)
              (w_store w) 0 w) as [[[tx' n']|e] w1]; simpl in *; [|done].
  destruct Hr as [Hfrag ->].
  destruct (io_commit_err f) as [e|]; simpl; [done|].
  split; [done|]. split; [done|].
  rewrite last_snoc. done.
Qed.

(** The loop of [importJSON] writes nothing and adds up the rows. *)
Lemma import_tables_spec (opts : ImportOptions)
    (tbls : list (string * list (gmap string Value))) (n : nat)
    (w : World) :
  exists lines,
    import_tables opts tbls n w =
    (Ok (n + foldr (fun kv k => length kv.2 + k) 0 tbls),
     add_out w lines).
Proof.
  revert n w. induction tbls as [|[tableName rows] rest IH]; intros n w.
  - exists []. simpl. unfold io_ret, add_out.
    rewrite app_nil_r, Nat.add_0_r. by destruct w.
  - cbn [import_tables]. unfold io_bind.
    destruct (print_if_world (ImVerbose opts)
                ("Importing table: " +:+ tableName +:+ " ("
                   +:+ fmt_d (length rows) +:+ " rows)") w)
      as [lines ->].
    cbn [io_wrap importTableRows io_ret wrap].
    destruct (IH (n + length rows)
                {| w_store := w_store w; w_fs := w_fs w;
                   w_out := w_out w ++ lines |}) as [lines' ->].
    exists (lines ++ lines'). unfold add_out. simpl.
    rewrite app_assoc. do 2 f_equal. lia.
Qed.

(** [importJSON] never writes, dry run or not. *)
Lemma importJSON_no_write (opts : ImportOptions) (w : World) :
  w_store (importJSON decode_json opts w).2 = w_store w /\
  w_fs (importJSON decode_json opts w).2 = w_fs w.
Proof.
  unfold importJSON, io_bind, io_wrap, read_file, io_lift.
  destruct (w_fs w !! InputPath opts) as [content|]; cbn [wrap]; [|done].
  destruct (decode_json content) as [data|e]; cbn [wrap]; [|done].
  assert (Hrest :
    w_store ((if DryRun opts
              then print (dry_run_json_line (TableCount (Metadata data))
                            (RowCount (Metadata data)))
              else
                do totalImported <-
                  import_tables opts (map_to_list (DataTables data)) 0;
                print (json_done_line totalImported)) w).2 = w_store w /\
    w_fs ((if DryRun opts
           then print (dry_run_json_line (TableCount (Metadata data))
                         (RowCount (Metadata data)))
           else
             do totalImported <-
               import_tables opts (map_to_list (DataTables data)) 0;
             print (json_done_line totalImported)) w).2 = w_fs w).
  { destruct (DryRun opts); [done|]. unfold io_bind.
    destruct (import_tables_spec opts (map_to_list (DataTables data)) 0 w)
      as [lines ->]. done. }
  destruct (Validate opts); cbn [io_ret].
  - destruct (validateImportData data); cbn [wrap]; [exact Hrest|done].
  - exact Hrest.
Qed.

Lemma importJSON_run (opts : ImportOptions) (w : World)
    (content : string) (data : ExportedData) :
  w_fs w !! InputPath opts = Some content ->
  decode_json content = Ok data ->
  (Validate opts = true -> Version (Metadata data) <> "") ->
  (importJSON decode_json opts w).1 = Ok tt /\
  last (w_out (importJSON decode_json opts w).2) =
  Some (if DryRun opts
        then dry_run_json_line (TableCount (Metadata data))
               (RowCount (Metadata data))
        else json_done_line (total_rows data)).
Proof.
  intros Hfile Hdec Hver.
  unfold importJSON, io_bind, io_wrap, read_file, io_lift.
  rewrite Hfile. cbn [wrap]. rewrite Hdec. cbn [wrap].
  assert (Hvalid : Validate opts = true -> validateImportData data = Ok tt).
  { intros Hv. unfold validateImportData.
    destruct (String.eqb_spec (Version (Metadata data)) "") as [Heq|_];
      [by destruct (Hver Hv)|done]. }
  destruct (Validate opts); [rewrite Hvalid by done|];
    cbn [io_ret wrap]; destruct (DryRun opts).
  1,3: simpl; split; [done|apply last_snoc].
  all: unfold io_bind;
    destruct (import_tables_spec opts (map_to_list (DataTables data)) 0 w)
      as [lines ->];
    simpl; split; [done|apply last_snoc].
Qed.

(** [Import] after its opening line: the dispatch on the format when the
    file is there, the error otherwise. *)
Lemma Import_dispatch (f : IOFaults) (opts : ImportOptions) (w : World) :
  exists lines,
    Import exec decode_json f opts w =
    match w_fs w !! InputPath opts with
    | None =>
        (Err (Errorf ("input file does not exist: " +:+ InputPath opts)),
         add_out w lines)
    | Some _ =>
        match ImFormat opts with
        | FormatSQL => importSQL exec f opts (add_out w lines)
        | FormatJSON => importJSON decode_json opts (add_out w lines)
        | other =>
            (Err (Errorf ("unsupported import format: "
                            +:+ format_name other)), add_out w lines)
        end
    end.
Proof.
  unfold Import, io_bind.
  destruct (print_if_world (ImVerbose opts) "Starting database import..." w)
    as [lines ->].
  exists lines. unfold file_exists. cbn [w_fs]. fold (add_out w lines).
  destruct (w_fs w !! InputPath opts) as [content|]; [|done].
  rewrite bool_decide_eq_true_2 by eauto. cbn [negb].
  by destruct (ImFormat opts).
Qed.

(** The dry run as the code has it. A dry-run import writes nothing: the store and
    the files are the same before and after, whatever the format and the
    file. On an SQL file it succeeds and reports the number of fragments
    minus one, that is the number of semicolons, whereas a real run that
    succeeds reports the number of fragments it handed to the engine; the
    two agree when the real run hands every fragment but the last to the
    engine and skips the last. On a bundle that decodes (and carries a
    version when validation is on) it succeeds and reports the table and
    row counts written in the metadata, whereas the real run reports the
    number of rows found in the tables of the bundle. *)
Theorem Import_dry_run (f : IOFaults) (opts : ImportOptions) (w : World) :
  DryRun opts = true ->
  let dry := Import exec decode_json f opts w in
  let real := Import exec decode_json f (real_run opts) w in
  (w_store dry.2 = w_store w /\ w_fs dry.2 = w_fs w) /\
  (forall content,
      ImFormat opts = FormatSQL ->
      w_fs w !! InputPath opts = Some content ->
      dry.1 = Ok tt /\
      last (w_out dry.2)
        = Some (dry_run_sql_line (length (Split content ";"%char) - 1)) /\
      (real.1 = Ok tt ->
       last (w_out real.2) = Some (sql_done_line (executed_count content))) /\
      (forall init final,
          Split content ";"%char = init ++ [final] ->
          Forall (fun s => executable s = true) init ->
          executable final = false ->
          executed_count content = length (Split content ";"%char) - 1)) /\
  (forall content data,
      ImFormat opts = FormatJSON ->
      w_fs w !! InputPath opts = Some content ->
      decode_json content = Ok data ->
      (Validate opts = true -> Version (Metadata data) <> "") ->
      dry.1 = Ok tt /\
      last (w_out dry.2)
        = Some (dry_run_json_line (TableCount (Metadata data))
                  (RowCount (Metadata data))) /\
      real.1 = Ok tt /\
      last (w_out real.2) = Some (json_done_line (total_rows data))).
Proof.
  intros Hdry dry real.
  destruct (Import_dispatch f opts w) as [lines Hd].
  destruct (Import_dispatch f (real_run opts) w) as [lines' Hr].
  cbn [real_run InputPath ImFormat] in Hr.
  split_and!.
  - unfold dry. rewrite Hd.
    destruct (w_fs w !! InputPath opts) as [content|] eqn:Hfile; [|done].
    destruct (ImFormat opts); try done.
    + by rewrite (importSQL_dry_run f opts (add_out w lines) content).
    + apply (importJSON_no_write opts (add_out w lines)).
  - unfold dry. rewrite Hd.
    destruct (w_fs w !! InputPath opts) as [content|] eqn:Hfile; [|done].
    destruct (ImFormat opts); try done.
    + by rewrite (importSQL_dry_run f opts (add_out w lines) content).
    + apply (importJSON_no_write opts (add_out w lines)).
  - intros content Hsql Hfile. unfold dry, real. rewrite Hd, Hr.
    rewrite Hfile, Hsql.
    rewrite (importSQL_dry_run f opts (add_out w lines) content)
      by done.
    split; [done|]. split; [apply last_snoc|]. split.
    + intros Hok.
      pose proof (importSQL_real_run f (real_run opts) (add_out w lines')
                    content Hfile eq_refl) as [_ Hreal].
      rewrite Hok in Hreal. apply Hreal.
    + intros init final Hsplit Hinit Hfinal. unfold executed_count.
      rewrite Hsplit, filter_app, length_app.
      rewrite filter_cons_False by (rewrite Hfinal; done).
      rewrite (filter_all _ init) by done.
      rewrite !length_app. simpl. lia.
  - intros content data Hjson Hfile Hdec Hver. unfold dry, real.
    rewrite Hd, Hr. rewrite Hfile, Hjson.
    pose proof (importJSON_run opts (add_out w lines) content data
                  Hfile Hdec Hver) as [Hok Hline].
    pose proof (importJSON_run (real_run opts) (add_out w lines') content
                  data Hfile Hdec Hver) as [Hok' Hline'].
    rewrite Hdry in Hline. cbn [real_run DryRun] in Hline'.
    done.
Qed.

(** With a driver that begins and commits, the real run of [importSQL]
    succeeds as soon as the engine accepts every executable fragment. *)
Lemma importSQL_real_run_ok (f : IOFaults) (opts : ImportOptions) (w : World)
    (content : string) :
  w_fs w !! InputPath opts = Some content ->
  DryRun opts = false ->
  io_begin_err f = None -> io_commit_err f = None ->
  is_ok (exec_fragments exec (Split content ";"%char) (w_store w)) = true ->
  (importSQL exec f opts w).1 = Ok tt.
Proof.
  intros Hfile Hreal Hbegin Hcommit Hok.
  unfold importSQL, io_bind, io_wrap, read_file, io_lift, get_store.
  rewrite Hfile, Hreal. cbn [wrap]. rewrite Hbegin, Hcommit.
  cbn [check wrap].
  pose proof (run_statements_spec (ImVerbose opts)
                (Split content ";"%char) (w_store w) 0 w) as (_ & _ & Hr).
  destruct (run_statements exec (ImVerbose opts) (Split content ";"%char)
              (w_store w) 0 w) as [[[tx' n']|e] w1]; simpl in *; [done|].
  by rewrite Hr in Hok.
Qed.

(** C7. The count a dry run announces for an SQL file is not the count of
    the real run. Take a file whose last statement has no closing
    semicolon, every fragment of which is a statement the import hands to
    the engine (none is empty, none starts with two dashes), and an engine
    and a driver that accept all of it. The dry run writes nothing, as it
    should, and announces one statement less than there are: the number of
    semicolons. The real run on the same file and store succeeds and
    reports every statement as executed, one more than announced. *)
Theorem Import_dry_run_miscounts (f : IOFaults) (opts : ImportOptions)
    (w : World) (content : string) (init : list string) (final : string) :
  DryRun opts = true ->
  ImFormat opts = FormatSQL ->
  w_fs w !! InputPath opts = Some content ->
  Split content ";"%char = init ++ [final] ->
  Forall (fun stmt => executable stmt = true) init ->
  executable final = true ->
  io_begin_err f = None -> io_commit_err f = None ->
  is_ok (exec_fragments exec (Split content ";"%char) (w_store w)) = true ->
  let dry := Import exec decode_json f opts w in
  let real := Import exec decode_json f (real_run opts) w in
  (dry.1 = Ok tt /\ w_store dry.2 = w_store w /\ w_fs dry.2 = w_fs w) /\
  last (w_out dry.2) = Some (dry_run_sql_line (length init)) /\
  real.1 = Ok tt /\
  last (w_out real.2) = Some (sql_done_line (S (length init))).
Proof.
  intros Hdry Hsql Hfile Hsplit Hinit Hfinal Hbegin Hcommit Hok dry real.
  destruct (Import_dispatch f opts w) as [lines Hd].
  destruct (Import_dispatch f (real_run opts) w) as [lines' Hr].
  cbn [real_run InputPath ImFormat] in Hr.
  rewrite Hfile, Hsql in Hd, Hr.
  assert (Hcount : executed_count content = S (length init)).
  { unfold executed_count. rewrite Hsplit, filter_app.
    rewrite (filter_all _ init Hinit).
    rewrite filter_cons_True by done. rewrite length_app. cbn. lia. }
  unfold dry, real. rewrite Hd, Hr.
  rewrite (importSQL_dry_run f opts (add_out w lines) content) by done.
  cbn [fst snd add_out w_store w_fs w_out].
  split; [done|]. split.
  { rewrite last_snoc, Hsplit, length_app. cbn. do 2 f_equal. lia. }
  pose proof (importSQL_real_run_ok f (real_run opts) (add_out w lines')
                content Hfile eq_refl Hbegin Hcommit Hok) as Hreal.
  pose proof (importSQL_real_run f (real_run opts) (add_out w lines')
                content Hfile eq_refl) as [_ Hrun].
  rewrite Hreal in Hrun. destruct Hrun as [_ Hlast].
  split; [exact Hreal|]. by rewrite Hlast, Hcount.
Qed.

End ImportProperties.

Lemma Import_dry_run_miscounts_witness :
  let opts := import_opts "schema.sql" FormatSQL true in
  let w := world_of empty_store import_files in
  (DryRun opts = true /\ ImFormat opts = FormatSQL /\
   w_fs w !! InputPath opts = Some schema_sql /\
   Split schema_sql ";"%char = [] ++ [schema_sql] /\
   executable schema_sql = true /\
   is_ok (exec_fragments ToyEngine.exec (Split schema_sql ";"%char)
            (w_store w)) = true) /\
  last (w_out (Import ToyEngine.exec toy_decode no_io_faults opts w).2)
  = Some (dry_run_sql_line 0) /\
  (Import ToyEngine.exec toy_decode no_io_faults (real_run opts) w).1
  = Ok tt /\
  last (w_out (Import ToyEngine.exec toy_decode no_io_faults
                 (real_run opts) w).2)
  = Some (sql_done_line 1).
Proof.
  split; [by vm_compute|].
  exact (proj2 (Import_dry_run_miscounts ToyEngine.exec toy_decode
                  no_io_faults (import_opts "schema.sql" FormatSQL true)
                  (world_of empty_store import_files) schema_sql
                  [] schema_sql eq_refl eq_refl eq_refl eq_refl
                  (List.Forall_nil _) eq_refl eq_refl eq_refl eq_refl)).
Defined.

Lemma Import_dry_run_witness :
  DryRun (import_opts "schema.sql" FormatSQL true) = true /\
  let w := world_of empty_store import_files in
  let dry :=
    Import ToyEngine.exec toy_decode no_io_faults
      (import_opts "schema.sql" FormatSQL true) w in
  w_store dry.2 = w_store w /\ w_fs dry.2 = w_fs w.
Proof.
  split; [reflexivity|].
  exact (proj1 (Import_dry_run ToyEngine.exec toy_decode no_io_faults
                  (import_opts "schema.sql" FormatSQL true)
                  (world_of empty_store import_files) eq_refl)).
Defined.

(** The counts side by side. On an SQL file with one statement and no
    closing semicolon the dry run announces 0 statements and the real run
    executes 1; on a bundle whose metadata says 5 rows and whose tables
    hold 1 the dry run announces 5 rows and the real run imports 1. *)
Lemma Import_dry_run_counts_counterexample :
  let w := world_of empty_store import_files in
  let import fm path dry :=
    Import ToyEngine.exec toy_decode no_io_faults (import_opts path fm dry) w
  in
  ~ (forall n m,
        (import FormatSQL "schema.sql" true) = (Ok tt, add_out w [dry_run_sql_line n]) ->
        ((import FormatSQL "schema.sql" false).1 = Ok tt /\
         w_out (import FormatSQL "schema.sql" false).2 = [sql_done_line m]) ->
        n = m) /\
  ~ (forall tableCount rowCount m,
        (import FormatJSON "bundle.json" true)
          = (Ok tt, add_out w [dry_run_json_line tableCount rowCount]) ->
        (import FormatJSON "bundle.json" false)
          = (Ok tt, add_out w [json_done_line m]) ->
        rowCount = Z.of_nat m).
Proof.
  split.
  - intros H. specialize (H 0 1). cut (0 = 1); [discriminate|].
    apply H; vm_compute; auto.
  - intros H. specialize (H 0%Z 5%Z 1). cut (5%Z = Z.of_nat 1); [discriminate|].
    apply H; vm_compute; reflexivity.
Qed.

(** C4, what the code does. The file holds one statement under a comment
    line. The comment and the statement form one fragment, the fragment
    starts with two dashes, and the import skips it: it succeeds, reports 0
    statements executed and leaves the store as it was, whatever the
    engine; an engine that reads the same text creates the table. *)
Theorem importSQL_skips_statement_after_comment
    (exec : string -> Store -> result Store) :
  let w := world_of empty_store import_files in
  Split users_sql ";"%char
    = ["-- users" +:+ nl +:+ "CREATE TABLE users (id INTEGER)"; nl] /\
  executable ("-- users" +:+ nl +:+ "CREATE TABLE users (id INTEGER)") = false /\
  importSQL exec no_io_faults (import_opts "users.sql" FormatSQL false) w
    = (Ok tt, add_out w [sql_done_line 0]) /\
  tables empty_store !! "users" = None /\
  (exists s, ToyEngine.exec users_sql empty_store = Ok s /\
             tables s !! "users"
             = Some (mkTable (Some "CREATE TABLE users (id INTEGER)") [] [])).
Proof.
  split_and!; try (vm_compute; reflexivity).
  eexists. split; vm_compute; reflexivity.
Qed.

(** C3, what the code does. A store with one table of one row is exported
    as SQL with schema and data; every statement of the file sits under a
    comment line. Importing the file into an empty store succeeds, executes
    nothing and leaves the store empty, whatever the engine: the source has
    one row in [notes], the destination has no such table. *)
Theorem export_import_sql_loses_rows
    (exec : string -> Store -> result Store) (fmt_time : Z -> string) :
  let exported :=
    exportSQL fmt_time no_io_faults "2024-05-01 10:00:00" export_opts
      (world_of notes_store ∅) in
  let imported :=
    importSQL exec no_io_faults (import_opts "dump.sql" FormatSQL false)
      (world_of empty_store (w_fs exported.2)) in
  exported.1 = Ok tt /\
  w_fs exported.2 !! "dump.sql" =
    Some ("-- gogo database export" +:+ nl
          +:+ "-- Generated on: 2024-05-01 10:00:00" +:+ nl
          +:+ "-- Format: SQL" +:+ nl +:+ nl
          +:+ "-- Schema for table notes" +:+ nl
          +:+ "CREATE TABLE notes (id INTEGER, body TEXT);" +:+ nl +:+ nl
          +:+ "-- Data for table notes" +:+ nl
          +:+ "INSERT INTO notes (id, body) VALUES (1, 'it''s here');" +:+ nl
          +:+ nl) /\
  imported.1 = Ok tt /\
  w_out imported.2 = [sql_done_line 0] /\
  w_store imported.2 = empty_store /\
  row_count notes_store "notes" = Some 1 /\
  row_count (w_store imported.2) "notes" = None.
Proof. split_and!; vm_compute; reflexivity. Qed.

(** With two rows in the source: into an empty store the import fails on
    the second [INSERT], the table never having been created, and nothing
    is imported; into a store that has the table it succeeds with one row
    out of two. *)
Example export_import_sql_two_rows :
  let exported :=
    exportSQL (fun _ => "") no_io_faults "2024-05-01 10:00:00" export_opts
      (world_of notes2_store ∅) in
  let import_into dst :=
    importSQL ToyEngine.exec no_io_faults
      (import_opts "dump.sql" FormatSQL false)
      (world_of dst (w_fs exported.2)) in
  is_ok (import_into empty_store).1 = false /\
  w_store (import_into empty_store).2 = empty_store /\
  (import_into notes_empty_store).1 = Ok tt /\
  row_count notes2_store "notes" = Some 2 /\
  row_count (w_store (import_into notes_empty_store).2) "notes" = Some 1.
Proof. split_and!; vm_compute; reflexivity. Qed.

(** Detection goes by content, not by name: a gzip stream without the
    [.gz] suffix is reported compressed, a raw file with the suffix is not. *)
Example GetBackupInfo_ignores_extension :
  (Backup.IsCompressed <$>
     [Backup.GetBackupInfo None backup_files "backup.db";
      Backup.GetBackupInfo None backup_files "backup.db.gz"]
     ≫= (fun r => match r with Ok i => [i] | Err _ => [] end))
  = [true; false].
Proof. vm_compute. reflexivity. Qed.

(** * Further properties of the code *)

(** ** Registering, applying twice, applying and rolling back *)

(** X1. Registration is last write wins: registering an id again replaces
    the earlier definition (and clears its applied flag), the lookup gives
    back what was registered last, the other ids and the store are left
    alone, and every entry still sits under its own id. *)
Theorem RegisterMigration_last_wins (id d1 u1 n1 d2 u2 n2 : string)
    (m : MigrationManager) :
  let m2 := RegisterMigration id d2 u2 n2 (RegisterMigration id d1 u1 n1 m) in
  m2 = RegisterMigration id d2 u2 n2 m /\
  migrations m2 !! id = Some (mkMigration id d2 u2 n2 false None) /\
  (forall k, k <> id -> migrations m2 !! k = migrations m !! k) /\
  db m2 = db m /\
  (registry_wf (migrations m) -> registry_wf (migrations m2)).
Proof.
  unfold RegisterMigration, set_migrations. simpl. split_and!.
  - by rewrite insert_insert_eq.
  - apply lookup_insert_eq.
  - intros k Hk. by rewrite !lookup_insert_ne.
  - done.
  - intros Hwf. unfold registry_wf.
    do 2 (apply map_Forall_insert_2; [done|]). done.
Qed.

Lemma ledger_insert_keeps_rows (now : Z) (id d c : string) (s s' : Store) :
  ledger_insert now id d c s = Ok s' ->
  ledger s' = Some (ledger_rows s ++ [mkLedgerRow id d now c]) /\
  tables s' = tables s /\ id ∉ (l_id <$> ledger_rows s).
Proof.
  unfold ledger_insert, ledger_rows.
  destruct (ledger s) as [l|]; [|done].
  destruct (existsb _ l) eqn:Hex; [done|]. intros [= <-]. simpl.
  split_and!; [done..|].
  intros (r & Hid & Hr)%list_elem_of_fmap.
  assert (existsb (fun r => String.eqb (l_id r) id) l = true) as Htrue.
  { apply existsb_exists. exists r. split; [by apply list_elem_of_In|].
    apply String.eqb_eq. done. }
  congruence.
Qed.

Section ApplyProperties.

Variable exec : string -> Store -> result Store.
Hypothesis exec_keeps_ledger : keeps_ledger exec.

(** What a successful [ApplyMigration] leaves, on an engine that keeps its
    hands off the ledger. *)
Lemma ApplyMigration_ok (f : Faults) (now : Z) (migration : Migration)
    (m m1 : MigrationManager) :
  ApplyMigration exec f now migration m = (Ok tt, m1) ->
  migrations m1 = migrations m /\
  (ID migration ∉ l_id <$> ledger_rows (db m)) /\
  ledger (db m1) =
    Some (ledger_rows (db m)
            ++ [mkLedgerRow (ID migration) (Description migration) now
                  (generateChecksum (UpSQL migration))]).
Proof.
  unfold ApplyMigration.
  destruct (decide (UpSQL migration = "")); [done|].
  destruct (begin_err f); [done|].
  destruct (exec (UpSQL migration) (db m)) as [tx1|] eqn:Hexec; [|done].
  destruct (ledger_err f); simpl; [done|].
  destruct (ledger_insert _ _ _ _ tx1) as [tx2|] eqn:Hins; simpl; [|done].
  destruct (commit_err f); [done|]. intros [= <-]. simpl.
  apply ledger_insert_keeps_rows in Hins as (Hl & _ & Hnot).
  apply exec_keeps_ledger in Hexec.
  unfold ledger_rows in *. rewrite Hexec in *. done.
Qed.

Lemma ApplyMigration_err (f : Faults) (now : Z) (migration : Migration)
    (m m1 : MigrationManager) (e : error) :
  ApplyMigration exec f now migration m = (Err e, m1) -> m1 = m.
Proof.
  unfold ApplyMigration.
  destruct (decide (UpSQL migration = "")); [by intros [= _ <-]|].
  destruct (begin_err f); [by intros [= _ <-]|].
  destruct (exec (UpSQL migration) (db m)) as [tx1|]; [|by intros [= _ <-]].
  destruct (ledger_err f); simpl; [by intros [= _ <-]|].
  destruct (ledger_insert _ _ _ _ tx1); simpl; [|by intros [= _ <-]].
  destruct (commit_err f); [by intros [= _ <-]|done].
Qed.

(** X2. On an engine whose statements leave the ledger table alone, a
    migration that has been applied cannot be applied again: whatever the
    driver and the clock, the second [ApplyMigration] returns an error and
    leaves the manager and the store as they are, the forward body's second
    run included. *)
Theorem ApplyMigration_twice_fails (f f' : Faults) (now now' : Z)
    (migration : Migration) (m m1 : MigrationManager) :
  ApplyMigration exec f now migration m = (Ok tt, m1) ->
  exists e, ApplyMigration exec f' now' migration m1 = (Err e, m1).
Proof.
  intros (_ & _ & Hledger)%ApplyMigration_ok.
  destruct (ApplyMigration exec f' now' migration m1) as [[[]|e] m2] eqn:H2.
  - apply ApplyMigration_ok in H2 as (_ & Hnot & _).
    exfalso. apply Hnot. unfold ledger_rows. rewrite Hledger.
    rewrite fmap_app. apply elem_of_app. right. simpl. left.
  - apply ApplyMigration_err in H2 as ->. eauto.
Qed.

(** X3. On such an engine, applying a migration and then rolling it back,
    both with success, leaves the ledger exactly as it was before the apply,
    and the registry too. *)
Theorem ApplyMigration_then_RollbackMigration (f f' : Faults) (now : Z)
    (migration : Migration) (m m1 m2 : MigrationManager) :
  ApplyMigration exec f now migration m = (Ok tt, m1) ->
  RollbackMigration exec f' migration m1 = (Ok tt, m2) ->
  ledger (db m2) = Some (ledger_rows (db m)) /\
  ledger_count (ID migration) (db m2) = 0 /\
  migrations m2 = migrations m.
Proof.
  intros (Hreg & Hnot & Hledger)%ApplyMigration_ok.
  remember (ledger_rows (db m)) as rows0 eqn:Hrows0.
  unfold RollbackMigration.
  destruct (decide (DownSQL migration = "")); [done|].
  destruct (begin_err f'); [done|].
  destruct (exec (DownSQL migration) (db m1)) as [tx1|] eqn:Hexec; [|done].
  destruct (ledger_err f'); simpl; [done|].
  apply exec_keeps_ledger in Hexec.
  unfold ledger_delete. rewrite Hexec, Hledger.
  destruct (commit_err f'); [done|]. intros [= <-]. simpl.
  assert (Hnone : filter (fun r => l_id r = ID migration) rows0 = []).
  { destruct (filter (fun r => l_id r = ID migration) rows0)
      as [|r l] eqn:Hf; [done|].
    exfalso. apply Hnot.
    assert (r ∈ filter (fun r => l_id r = ID migration) rows0)
      as [Hid Hin]%list_elem_of_filter by (rewrite Hf; left).
    rewrite <- Hid. by apply list_elem_of_fmap_2. }
  assert (Hfilter :
    filter (fun r => l_id r <> ID migration)
      (rows0
         ++ [mkLedgerRow (ID migration) (Description migration) now
               (generateChecksum (UpSQL migration))])
    = rows0).
  { rewrite filter_app, filter_cons_False by (simpl; tauto).
    rewrite filter_nil, app_nil_r. apply filter_all.
    apply Forall_forall. intros r Hr Heq. apply Hnot.
    rewrite <- Heq. by apply list_elem_of_fmap_2. }
  rewrite Hfilter. split_and!; [done| |done].
  unfold ledger_count, ledger_rows. simpl. by rewrite Hnone.
Qed.

End ApplyProperties.

Lemma ToyEngine_exec_one_keeps_ledger (stmt : string) (s s' : Store) :
  ToyEngine.exec_one stmt s = Ok s' -> ledger s' = ledger s.
Proof.
  unfold ToyEngine.exec_one.
  repeat match goal with
         | |- context [if ?b then _ else _] => destruct b
         | |- context [match ?x with _ => _ end] => destruct x
         end; intros [= <-]; done.
Qed.

Lemma ToyEngine_keeps_ledger : keeps_ledger ToyEngine.exec.
Proof.
  intros sql. unfold ToyEngine.exec.
  induction (Split sql ";"%char) as [|stmt rest IH]; intros s s'; simpl.
  - by intros [= <-].
  - destruct (ToyEngine.exec_one stmt s) as [s1|] eqn:H1; [|done].
    intros Hrest. apply IH in Hrest.
    apply ToyEngine_exec_one_keeps_ledger in H1. congruence.
Qed.

Lemma ApplyMigration_twice_fails_witness :
  keeps_ledger ToyEngine.exec /\
  ApplyMigration ToyEngine.exec no_faults 1700000000 users_migration
    (NewMigrationManager (ledger_store [])) = (Ok tt, users_applied) /\
  exists e,
    ApplyMigration ToyEngine.exec no_faults 1700000060 users_migration
      users_applied = (Err e, users_applied).
Proof.
  split; [apply ToyEngine_keeps_ledger|].
  split; [vm_compute; reflexivity|].
  apply (ApplyMigration_twice_fails ToyEngine.exec ToyEngine_keeps_ledger
           no_faults no_faults 1700000000 1700000060 users_migration
           (NewMigrationManager (ledger_store [])) users_applied).
  vm_compute. reflexivity.
Defined.

Lemma ApplyMigration_then_RollbackMigration_witness :
  keeps_ledger ToyEngine.exec /\
  ApplyMigration ToyEngine.exec no_faults 1700000000 users_migration
    (NewMigrationManager (ledger_store [])) = (Ok tt, users_applied) /\
  RollbackMigration ToyEngine.exec no_faults users_migration users_applied
    = (Ok tt, users_rolled_back) /\
  ledger (db users_rolled_back)
    = Some (ledger_rows (db (NewMigrationManager (ledger_store [])))) /\
  ledger_count (ID users_migration) (db users_rolled_back) = 0 /\
  migrations users_rolled_back
    = migrations (NewMigrationManager (ledger_store [])).
Proof.
  split; [apply ToyEngine_keeps_ledger|].
  split; [vm_compute; reflexivity|].
  split; [vm_compute; reflexivity|].
  apply (ApplyMigration_then_RollbackMigration ToyEngine.exec
           ToyEngine_keeps_ledger no_faults no_faults 1700000000
           users_migration (NewMigrationManager (ledger_store []))
           users_applied users_rolled_back);
    vm_compute; reflexivity.
Defined.

(** ** Rolling back a single migration *)

Section RollbackMigrationProperties.

Variable exec : string -> Store -> result Store.

(** X4. [RollbackMigration] is all or nothing. When it returns an error
    (an empty reverse body, a transaction that does not begin, a reverse
    body the engine rejects, a ledger delete or a commit that fails), the
    manager and its store are untouched. When it returns success, the
    reverse body is not empty and has been executed, the tables are the ones
    it left, the ledger rows are the ones it left minus every row of the id,
    and the registry is unchanged. *)
Theorem RollbackMigration_all_or_nothing (f : Faults)
    (migration : Migration) (m : MigrationManager) :
  match RollbackMigration exec f migration m with
  | (Err _, m') => m' = m
  | (Ok _, m') =>
      DownSQL migration <> "" /\
      exists tx1,
        exec (DownSQL migration) (db m) = Ok tx1 /\
        tables (db m') = tables tx1 /\
        ledger (db m')
          = Some (filter (fun r => l_id r <> ID migration) (ledger_rows tx1)) /\
        is_Some (ledger tx1) /\
        migrations m' = migrations m
  end.
Proof.
  unfold RollbackMigration.
  destruct (decide (DownSQL migration = "")) as [|Hne]; [done|].
  destruct (begin_err f); [done|].
  destruct (exec (DownSQL migration) (db m)) as [tx1|] eqn:Hexec; [|done].
  destruct (ledger_err f); simpl; [done|].
  unfold ledger_delete, ledger_rows.
  destruct (ledger tx1) as [l|] eqn:Hl; simpl; [|done].
  destruct (commit_err f); [done|]. simpl.
  split; [done|]. exists tx1. rewrite Hl. split_and!; eauto.
Qed.

(** X5. [RollbackMigration] never asks whether the migration is applied.
    For a migration without a ledger row, when the driver answers and the
    engine accepts the reverse body, it returns success, the store is the
    one the reverse body left, and the ledger rows are untouched. *)
Theorem RollbackMigration_without_ledger_row (migration : Migration)
    (m : MigrationManager) (tx1 : Store) (rows : list LedgerRow) :
  DownSQL migration <> "" ->
  exec (DownSQL migration) (db m) = Ok tx1 ->
  ledger tx1 = Some rows ->
  (ID migration ∉ l_id <$> rows) ->
  RollbackMigration exec no_faults migration m = (Ok tt, set_db m tx1).
Proof.
  intros Hne Hexec Hl Hnot. unfold RollbackMigration.
  destruct (decide (DownSQL migration = "")); [done|]. simpl.
  rewrite Hexec. simpl. unfold ledger_delete. rewrite Hl. simpl.
  rewrite filter_all.
  - do 2 f_equal. destruct tx1 as [t l]. simpl in Hl. by subst l.
  - apply Forall_forall. intros r Hr Heq. apply Hnot.
    rewrite <- Heq. by apply list_elem_of_fmap_2.
Qed.

End RollbackMigrationProperties.

Lemma RollbackMigration_without_ledger_row_witness :
  DownSQL users_migration <> "" /\
  ToyEngine.exec (DownSQL users_migration) (db two_applied)
    = Ok {| tables := {[ "posts" := mkTable None [] [] ]};
            ledger := ledger (db two_applied) |} /\
  RollbackMigration ToyEngine.exec no_faults
    (mkMigration "000_users" "" "" "DROP TABLE users" false None) two_applied
  = (Ok tt,
     set_db two_applied
       {| tables := {[ "posts" := mkTable None [] [] ]};
          ledger := ledger (db two_applied) |}).
Proof.
  split; [discriminate|]. split; [vm_compute; reflexivity|].
  apply (RollbackMigration_without_ledger_row ToyEngine.exec
           (mkMigration "000_users" "" "" "DROP TABLE users" false None)
           two_applied _ (ledger_rows (db two_applied)));
    [discriminate|vm_compute; reflexivity|reflexivity|].
  vm_compute. intros H. repeat (apply elem_of_cons in H as [H|H]; [discriminate H|]).
  by apply not_elem_of_nil in H.
Defined.

(** ** Applying all pending migrations *)

Lemma GetPendingMigrations_state (f : Faults) (m m0 : MigrationManager)
    (pending : list Migration) :
  GetPendingMigrations f m = (Ok pending, m0) ->
  m0 = set_db m (create_ledger_if_absent (db m)) /\
  forall k mig,
    migrations m !! k = Some mig -> k ∉ applied_ids (db m) -> mig ∈ pending.
Proof.
  unfold GetPendingMigrations, GetAppliedMigrations, InitMigrationTable.
  destruct (ddl_err f); [done|]. destruct (query_err f); [done|].
  simpl. intros [= <- <-]. split; [done|].
  intros k mig Hlook Hk. unfold sort_by_ID.
  rewrite merge_sort_Permutation. apply list_elem_of_fmap.
  exists (k, mig). split; [done|].
  apply list_elem_of_filter. split.
  - simpl. apply applied_lookup_None. unfold applied_ids.
    by rewrite ledger_rows_create.
  - by apply elem_of_map_to_list.
Qed.

Lemma create_ledger_is_Some (s : Store) :
  ledger (create_ledger_if_absent s) = Some (ledger_rows s).
Proof.
  unfold create_ledger_if_absent, ledger_rows.
  destruct (ledger s) eqn:E; simpl; by rewrite ?E.
Qed.

Section ApplyAllProperties.

Variable exec : string -> Store -> result Store.
Hypothesis exec_keeps_ledger : keeps_ledger exec.

(** The loop applies a prefix of the list, in order, and stops. *)
Lemma apply_each_prefix (env : nat -> Faults * Z) (pending : list Migration) :
  forall (i : nat) (m : MigrationManager) (l : list LedgerRow),
    ledger (db m) = Some l ->
    exists done,
      migrations (apply_each exec env i pending m).2 = migrations m /\
      ledger (db (apply_each exec env i pending m).2)
        = Some (l ++ applied_rows env i done) /\
      match (apply_each exec env i pending m).1 with
      | Ok _ => done = pending
      | Err _ => exists failed rest, pending = done ++ failed :: rest
      end.
Proof.
  induction pending as [|migration rest IH]; intros i m l Hl; simpl.
  - exists []. simpl. by rewrite app_nil_r.
  - destruct (ApplyMigration exec (env i).1 (env i).2 migration m)
      as [[[]|e] m1] eqn:Happly.
    + apply (ApplyMigration_ok exec exec_keeps_ledger) in Happly
        as (Hreg & _ & Hledger).
      destruct (IH (S i) m1 _ Hledger) as (done & Hregs & Hrows & Hres).
      exists (migration :: done). simpl.
      rewrite Hregs, Hrows. unfold ledger_rows. rewrite Hl.
      rewrite <- app_assoc. simpl. split_and!; [done..|].
      destruct (apply_each exec env (S i) rest m1).1.
      * by subst done.
      * destruct Hres as (failed & rest' & ->). by exists failed, rest'.
    + apply ApplyMigration_err in Happly as ->.
      exists []. simpl. rewrite app_nil_r. split_and!; [done..|].
      by exists migration, rest.
Qed.

Lemma ApplyAll_ok_ledger (f : Faults) (env : nat -> Faults * Z)
    (m m0 m1 : MigrationManager) (pending : list Migration) :
  GetPendingMigrations f m = (Ok pending, m0) ->
  ApplyAll exec f env m = (Ok tt, m1) ->
  ledger (db m1) = Some (ledger_rows (db m) ++ applied_rows env 0 pending) /\
  migrations m1 = migrations m.
Proof.
  intros Hpending. unfold ApplyAll. rewrite Hpending.
  apply GetPendingMigrations_state in Hpending as [-> _].
  destruct pending as [|first rest].
  - intros [= <-]. simpl. rewrite app_nil_r.
    split; [apply create_ledger_is_Some|done].
  - intros Hall.
    destruct (apply_each_prefix env (first :: rest) 0
                (set_db m (create_ledger_if_absent (db m)))
                (ledger_rows (db m)) (create_ledger_is_Some (db m)))
      as (done & Hregs & Hrows & Hres).
    rewrite Hall in *. simpl in *. by subst done.
Qed.

(** X6. On an engine whose statements leave the ledger table alone,
    [ApplyAll] applies the pending migrations in the order in which
    [GetPendingMigrations] returns them and stops at the first one that
    fails. On success the ledger has gained one row per pending migration,
    in that order, each with the clock reading of its own call. On failure
    the ledger has gained the rows of the migrations before the failing one
    and nothing else: these stay applied, the failing one and the ones after
    it are not. The registry is never changed. *)
Theorem ApplyAll_fail_fast (f : Faults) (env : nat -> Faults * Z)
    (m m0 : MigrationManager) (pending : list Migration) :
  GetPendingMigrations f m = (Ok pending, m0) ->
  match ApplyAll exec f env m with
  | (Ok _, m') =>
      ledger (db m')
        = Some (ledger_rows (db m) ++ applied_rows env 0 pending) /\
      migrations m' = migrations m
  | (Err _, m') =>
      exists done failed rest,
        pending = done ++ failed :: rest /\
        ledger (db m')
          = Some (ledger_rows (db m) ++ applied_rows env 0 done) /\
        migrations m' = migrations m
  end.
Proof.
  intros Hpending. unfold ApplyAll. rewrite Hpending.
  apply GetPendingMigrations_state in Hpending as [-> _].
  destruct pending as [|first rest].
  - simpl. rewrite app_nil_r. split; [apply create_ledger_is_Some|done].
  - destruct (apply_each_prefix env (first :: rest) 0
                (set_db m (create_ledger_if_absent (db m)))
                (ledger_rows (db m)) (create_ledger_is_Some (db m)))
      as (done & Hregs & Hrows & Hres).
    destruct (apply_each exec env 0 (first :: rest) _) as [[[]|e] m'].
    + simpl in *. by subst done.
    + simpl in *. destruct Hres as (failed & rest' & Hsplit).
      by exists done, failed, rest'.
Qed.

Lemma applied_rows_ids (env : nat -> Faults * Z) (done : list Migration) :
  forall i, l_id <$> applied_rows env i done = ID <$> done.
Proof. induction done as [|x l IH]; intros i; simpl; [done|]. by rewrite IH. Qed.

(** X7. On such an engine and with a registry written by
    [RegisterMigration], once [ApplyAll] has succeeded nothing is pending:
    while the driver answers, [GetPendingMigrations] returns the empty list
    and a second [ApplyAll] succeeds without changing anything. *)
Theorem ApplyAll_leaves_nothing_pending (f f' : Faults)
    (env env' : nat -> Faults * Z) (m m1 : MigrationManager) :
  registry_wf (migrations m) ->
  ApplyAll exec f env m = (Ok tt, m1) ->
  ddl_err f' = None ->
  query_err f' = None ->
  GetPendingMigrations f' m1 = (Ok [], m1) /\
  ApplyAll exec f' env' m1 = (Ok tt, m1).
Proof.
  intros Hwf Hall Hddl Hq.
  destruct (GetPendingMigrations f m) as [[pending|e] m0] eqn:Hpending;
    [|by unfold ApplyAll in Hall; rewrite Hpending in Hall].
  destruct (ApplyAll_ok_ledger f env m m0 m1 pending Hpending Hall)
    as [Hledger Hregs].
  apply GetPendingMigrations_state in Hpending as [_ Hcomplete].
  assert (Hnone : GetPendingMigrations f' m1 = (Ok [], m1)).
  { unfold GetPendingMigrations, GetAppliedMigrations, InitMigrationTable.
    rewrite Hddl, Hq. simpl.
    assert (Hcreate : create_ledger_if_absent (db m1) = db m1)
      by (by eapply create_ledger_present).
    rewrite Hcreate.
    assert (Hsame : set_db m1 (db m1) = m1) by (by destruct m1).
    rewrite Hsame. f_equal. f_equal.
    assert (Hempty :
      filter (fun kv : string * Migration =>
                scan_applied (rows_by_id (db m1)) ∅ !! kv.1 = None)
        (map_to_list (migrations m1)) = []).
    { destruct (filter _ (map_to_list (migrations m1)))
        as [|[k mig] others] eqn:Hf; [done|].
      assert ((k, mig) ∈ filter
                (fun kv : string * Migration =>
                   scan_applied (rows_by_id (db m1)) ∅ !! kv.1 = None)
                (map_to_list (migrations m1)))
        as [Hk Hin]%list_elem_of_filter by (rewrite Hf; left).
      simpl in Hk. apply applied_lookup_None in Hk.
      apply elem_of_map_to_list in Hin. rewrite Hregs in Hin.
      exfalso. apply Hk. unfold applied_ids, ledger_rows at 1.
      rewrite Hledger, fmap_app, elem_of_list_to_set, elem_of_app.
      destruct (decide (k ∈ applied_ids (db m))) as [Hold|Hnew].
      - left. unfold applied_ids in Hold.
        by apply elem_of_list_to_set in Hold.
      - right. rewrite applied_rows_ids.
        pose proof (Hwf _ _ Hin) as Hid. simpl in Hid. rewrite <- Hid.
        apply list_elem_of_fmap_2. by eapply Hcomplete. }
    by rewrite Hempty. }
  split; [done|]. unfold ApplyAll. by rewrite Hnone.
Qed.

End ApplyAllProperties.

Lemma three_fresh_wf : registry_wf (migrations three_fresh).
Proof. repeat apply RegisterMigration_wf. apply NewMigrationManager_wf. Qed.

Lemma ApplyAll_fail_fast_witness :
  keeps_ledger ToyEngine.exec /\
  GetPendingMigrations no_faults three_fresh
    = (Ok three_fresh_pending,
       (GetPendingMigrations no_faults three_fresh).2) /\
  match ApplyAll ToyEngine.exec no_faults second_commit_fails three_fresh with
  | (Ok _, m') =>
      ledger (db m')
        = Some (ledger_rows (db three_fresh)
                  ++ applied_rows second_commit_fails 0 three_fresh_pending) /\
      migrations m' = migrations three_fresh
  | (Err _, m') =>
      exists done failed rest,
        three_fresh_pending = done ++ failed :: rest /\
        ledger (db m')
          = Some (ledger_rows (db three_fresh)
                    ++ applied_rows second_commit_fails 0 done) /\
        migrations m' = migrations three_fresh
  end.
Proof.
  split; [apply ToyEngine_keeps_ledger|].
  split; [vm_compute; reflexivity|].
  apply (ApplyAll_fail_fast ToyEngine.exec ToyEngine_keeps_ledger no_faults
           second_commit_fails three_fresh
           (GetPendingMigrations no_faults three_fresh).2
           three_fresh_pending).
  vm_compute. reflexivity.
Defined.

(** The second of three migrations cannot be committed: the first stays
    applied, the second and the third are not. *)
Example ApplyAll_stops_at_second :
  match ApplyAll ToyEngine.exec no_faults second_commit_fails three_fresh with
  | (Ok _, _) => None
  | (Err e, m') =>
      Some (e, l_id <$> ledger_rows (db m'), (map_to_list (tables (db m'))).*1)
  end
  = Some (Wrap "failed to commit migration 002_second"
            (EngineError "disk I/O error"),
          ["001_first"], ["first"]).
Proof. vm_compute. reflexivity. Qed.

Lemma ApplyAll_leaves_nothing_pending_witness :
  keeps_ledger ToyEngine.exec /\
  registry_wf (migrations three_fresh) /\
  ApplyAll ToyEngine.exec no_faults calm three_fresh
    = (Ok tt, three_all_applied) /\
  GetPendingMigrations no_faults three_all_applied
    = (Ok [], three_all_applied) /\
  ApplyAll ToyEngine.exec no_faults calm three_all_applied
    = (Ok tt, three_all_applied).
Proof.
  split; [apply ToyEngine_keeps_ledger|].
  split; [apply three_fresh_wf|].
  split; [vm_compute; reflexivity|].
  apply (ApplyAll_leaves_nothing_pending ToyEngine.exec
           ToyEngine_keeps_ledger no_faults no_faults calm calm three_fresh
           three_all_applied);
    [apply three_fresh_wf|vm_compute; reflexivity|reflexivity|reflexivity].
Defined.

(** ** Reading the ledger *)

Lemma scan_applied_Some (rows : list LedgerRow)
    (applied : gmap string Migration) (k : string) (v : Migration) :
  scan_applied rows applied !! k = Some v ->
  applied !! k = Some v \/
  exists r, r ∈ rows /\ l_id r = k /\
            v = mkMigration (l_id r) (l_description r) "" "" true
                  (Some (l_applied_at r)).
Proof.
  revert applied. induction rows as [|r rows IH]; intros applied; simpl.
  - by left.
  - intros [Hin|(r' & Hr' & Hid & Hv)]%IH.
    + destruct (decide (l_id r = k)) as [Heq|Hne].
      * rewrite Heq, lookup_insert_eq in Hin. injection Hin as <-.
        right. exists r. split; [left|]. by rewrite Heq.
      * rewrite lookup_insert_ne in Hin by done. by left.
    + right. exists r'. split; [by right|done].
Qed.

Lemma GetAppliedMigrations_ok (f : Faults) (m m' : MigrationManager)
    (applied : gmap string Migration) :
  GetAppliedMigrations f m = (Ok applied, m') ->
  m' = set_db m (create_ledger_if_absent (db m)) /\
  (forall k, applied !! k = None <-> k ∉ applied_ids (db m)) /\
  (forall k v, applied !! k = Some v ->
     exists r, r ∈ ledger_rows (db m) /\ l_id r = k /\
               AppliedAt v = Some (l_applied_at r)).
Proof.
  unfold GetAppliedMigrations, InitMigrationTable.
  destruct (ddl_err f); [done|]. destruct (query_err f); [done|].
  simpl. intros [= <- <-]. split; [done|]. split.
  - intros k. rewrite applied_lookup_None. unfold applied_ids.
    by rewrite ledger_rows_create.
  - intros k v [Hempty|(r & Hr & Hid & ->)]%scan_applied_Some;
      [by rewrite lookup_empty in Hempty|].
    rewrite rows_by_id_perm, ledger_rows_create in Hr. by exists r.
Qed.

(** X8. [GetAppliedMigrations] returns one entry per id of the ledger and
    no other: the entry sits under the id, is flagged applied, carries the
    description and the timestamp of a ledger row of that id, and has empty
    bodies. It creates the ledger table when it is missing and changes
    nothing else; it fails only when the driver does. *)
Theorem GetAppliedMigrations_spec (f : Faults) (m : MigrationManager) :
  match GetAppliedMigrations f m with
  | (Ok applied, m') =>
      dom applied = applied_ids (db m) /\
      (forall k v,
          applied !! k = Some v ->
          ID v = k /\ Applied v = true /\ UpSQL v = "" /\ DownSQL v = "" /\
          exists r, r ∈ ledger_rows (db m) /\ l_id r = k /\
                    Description v = l_description r /\
                    AppliedAt v = Some (l_applied_at r)) /\
      m' = set_db m (create_ledger_if_absent (db m))
  | (Err _, m') =>
      (ddl_err f <> None \/ query_err f <> None) /\
      ledger_rows (db m') = ledger_rows (db m) /\
      tables (db m') = tables (db m)
  end.
Proof.
  unfold GetAppliedMigrations, InitMigrationTable.
  destruct (ddl_err f); [by split_and!; [left|..]|].
  destruct (query_err f); simpl.
  { split_and!; [by right|apply ledger_rows_create|apply tables_create]. }
  split_and!; [| |done].
  - apply set_eq. intros k. rewrite elem_of_dom.
    assert (Hids : applied_ids (create_ledger_if_absent (db m))
                   = applied_ids (db m))
      by (unfold applied_ids; by rewrite ledger_rows_create).
    rewrite <- Hids.
    destruct (scan_applied (rows_by_id (create_ledger_if_absent (db m))) ∅
                !! k) eqn:Hk.
    + split; [intros _|eauto].
      destruct (decide (k ∈ applied_ids (create_ledger_if_absent (db m))))
        as [|Hnot]; [done|].
      apply applied_lookup_None in Hnot. congruence.
    + split; [by intros [? ?]|].
      intros Hin. by apply applied_lookup_None in Hk.
  - intros k v [Hempty|(r & Hr & Hid & ->)]%scan_applied_Some;
      [by rewrite lookup_empty in Hempty|].
    rewrite rows_by_id_perm, ledger_rows_create in Hr. simpl.
    split_and!; try done. by exists r.
Qed.

Lemma mark_status_ID (applied : gmap string Migration) (mig : Migration) :
  ID (mark_status applied mig) = ID mig.
Proof. unfold mark_status. by destruct (applied !! ID mig). Qed.

(** X9. With a registry written by [RegisterMigration],
    [GetMigrationStatus] returns every registered migration once, in
    strictly ascending order of id, with its bodies and description as
    registered, flagged applied exactly when the ledger has a row of its id,
    and then with the timestamp of such a row, otherwise without timestamp.
    The flags are written into the registry as well. It fails only when the
    driver does. *)
Theorem GetMigrationStatus_spec (f : Faults) (m : MigrationManager) :
  registry_wf (migrations m) ->
  match GetMigrationStatus f m with
  | (Ok status, m') =>
      StronglySorted ID_lt status /\
      length status = size (migrations m) /\
      (forall k orig,
          migrations m !! k = Some orig ->
          exists mig,
            mig ∈ status /\ migrations m' !! k = Some mig /\
            ID mig = k /\ Description mig = Description orig /\
            UpSQL mig = UpSQL orig /\ DownSQL mig = DownSQL orig /\
            (Applied mig = true <-> k ∈ applied_ids (db m)) /\
            (Applied mig = true ->
             exists r, r ∈ ledger_rows (db m) /\ l_id r = k /\
                       AppliedAt mig = Some (l_applied_at r)) /\
            (Applied mig = false -> AppliedAt mig = None)) /\
      (forall mig, mig ∈ status -> is_Some (migrations m !! ID mig)) /\
      ledger_rows (db m') = ledger_rows (db m) /\
      tables (db m') = tables (db m)
  | (Err _, _) => ddl_err f <> None \/ query_err f <> None
  end.
Proof.
  intros Hwf. unfold GetMigrationStatus.
  destruct (GetAppliedMigrations f m) as [[applied|e] m1] eqn:Happlied.
  2: { revert Happlied. unfold GetAppliedMigrations, InitMigrationTable.
       destruct (ddl_err f); [by left|].
       destruct (query_err f); [by right|done]. }
  apply GetAppliedMigrations_ok in Happlied as (-> & Hnone & Hentries).
  simpl.
  set (marked := mark_status applied <$> migrations m).
  assert (Hmarked_wf : registry_wf marked).
  { intros k v. unfold marked. rewrite lookup_fmap.
    destruct (migrations m !! k) as [orig|] eqn:Hk; [|done].
    simpl. intros [= <-]. rewrite mark_status_ID. by apply Hwf. }
  assert (Hkeys : ID <$> (map_to_list marked).*2 = (map_to_list marked).*1).
  { rewrite <- list_fmap_compose. apply list_fmap_ext.
    intros i [k v] Hi. simpl.
    apply list_elem_of_lookup_2, elem_of_map_to_list in Hi.
    by apply Hmarked_wf. }
  split_and!.
  - apply StronglySorted_ID_lt.
    + apply Sorted_merge_sort. apply _.
    + unfold sort_by_ID. rewrite merge_sort_Permutation, Hkeys.
      apply NoDup_fst_map_to_list.
  - unfold sort_by_ID. rewrite merge_sort_Permutation, length_fmap.
    rewrite length_map_to_list. unfold marked. apply map_size_fmap.
  - intros k orig Hk. exists (mark_status applied orig).
    pose proof (Hwf _ _ Hk) as Hid. simpl in Hid.
    assert (Hlook : marked !! k = Some (mark_status applied orig))
      by (unfold marked; by rewrite lookup_fmap, Hk).
    split.
    { unfold sort_by_ID. rewrite merge_sort_Permutation.
      apply list_elem_of_fmap. exists (k, mark_status applied orig).
      split; [done|]. by apply elem_of_map_to_list. }
    split; [done|].
    unfold mark_status. rewrite Hid.
    destruct (applied !! k) as [a|] eqn:Ha; simpl.
    + destruct (Hentries _ _ Ha) as (r & Hr & Hrid & Hat).
      split_and!; try done.
      * split; [intros _|done].
        destruct (decide (k ∈ applied_ids (db m))) as [|Hnot]; [done|].
        apply Hnone in Hnot. congruence.
      * intros _. exists r. by rewrite Hat.
    + split_and!; try done.
      split; [done|]. intros Hin. by apply Hnone in Ha.
  - intros mig. unfold sort_by_ID. rewrite merge_sort_Permutation.
    intros ([k v] & -> & Hin%elem_of_map_to_list)%list_elem_of_fmap.
    simpl. unfold marked in Hin. rewrite lookup_fmap in Hin.
    destruct (migrations m !! k) as [orig|] eqn:Hk; [|done].
    simpl in Hin. injection Hin as <-. rewrite mark_status_ID.
    pose proof (Hwf _ _ Hk) as Hid. simpl in Hid. rewrite Hid. eauto.
  - apply ledger_rows_create.
  - apply tables_create.
Qed.

Lemma GetMigrationStatus_spec_witness :
  registry_wf (migrations three_registered) /\
  match GetMigrationStatus no_faults three_registered with
  | (Ok status, m') =>
      StronglySorted ID_lt status /\
      length status = size (migrations three_registered) /\
      (forall k orig,
          migrations three_registered !! k = Some orig ->
          exists mig,
            mig ∈ status /\ migrations m' !! k = Some mig /\
            ID mig = k /\ Description mig = Description orig /\
            UpSQL mig = UpSQL orig /\ DownSQL mig = DownSQL orig /\
            (Applied mig = true <-> k ∈ applied_ids (db three_registered)) /\
            (Applied mig = true ->
             exists r, r ∈ ledger_rows (db three_registered) /\ l_id r = k /\
                       AppliedAt mig = Some (l_applied_at r)) /\
            (Applied mig = false -> AppliedAt mig = None)) /\
      (forall mig, mig ∈ status ->
                   is_Some (migrations three_registered !! ID mig)) /\
      ledger_rows (db m') = ledger_rows (db three_registered) /\
      tables (db m') = tables (db three_registered)
  | (Err _, _) => ddl_err no_faults <> None \/ query_err no_faults <> None
  end.
Proof.
  split; [apply three_registered_wf|].
  apply (GetMigrationStatus_spec no_faults three_registered).
  apply three_registered_wf.
Defined.

Example status_of_three_registered :
  match GetMigrationStatus no_faults three_registered with
  | (Ok status, _) =>
      (fun mig => (ID mig, Applied mig, AppliedAt mig)) <$> status
  | (Err _, _) => []
  end
  = [("001_first", true, Some 1700000000%Z); ("002_second", false, None);
     ("003_third", false, None)].
Proof. vm_compute. reflexivity. Qed.

(** ** The latest applied migration and the rollback loop *)

Section RollbackLoopProperties.

Variable exec : string -> Store -> result Store.

(** X10. While the driver answers, [GetLastAppliedMigration] returns nothing
    exactly when the ledger has no row. Otherwise it returns a migration
    whose id is that of a ledger row with the greatest timestamp, flagged
    applied with that timestamp: the registered definition when the id is
    registered, a placeholder with the ledger's description and empty bodies
    when it is not. It never changes a table or a ledger row; the only thing
    it writes is the applied flag and timestamp of that one registry entry. *)
Theorem GetLastAppliedMigration_spec (f : Faults) (m : MigrationManager) :
  ddl_err f = None ->
  query_err f = None ->
  exists res m',
    GetLastAppliedMigration f m = (Ok res, m') /\
    db m' = create_ledger_if_absent (db m) /\
    match res with
    | None => ledger_rows (db m) = [] /\ migrations m' = migrations m
    | Some last =>
        exists r,
          r ∈ ledger_rows (db m) /\
          (forall r', r' ∈ ledger_rows (db m) ->
                      (l_applied_at r' <= l_applied_at r)%Z) /\
          Applied last = true /\
          AppliedAt last = Some (l_applied_at r) /\
          match migrations m !! l_id r with
          | Some registered =>
              last = mkMigration (ID registered) (Description registered)
                       (UpSQL registered) (DownSQL registered) true
                       (Some (l_applied_at r)) /\
              migrations m' = <[l_id r := last]> (migrations m)
          | None =>
              last = mkMigration (l_id r) (l_description r) "" "" true
                       (Some (l_applied_at r)) /\
              migrations m' = migrations m
          end
    end.
Proof.
  intros Hddl Hq. unfold GetLastAppliedMigration, InitMigrationTable.
  rewrite Hddl, Hq. simpl. rewrite ledger_rows_create.
  destruct (latest_row (ledger_rows (db m))) as [r|] eqn:Hlast.
  - destruct (latest_row_Some _ _ Hlast) as [Hin Hmax].
    destruct (migrations m !! l_id r) as [registered|] eqn:Hreg.
    + eexists _, _. split; [done|]. split; [done|].
      exists r. rewrite Hreg. done.
    + eexists _, _. split; [done|]. split; [done|].
      exists r. rewrite Hreg. done.
  - apply latest_row_None in Hlast.
    eexists _, _. split; [done|]. done.
Qed.

Lemma RollbackLast_nothing_applied (f : Faults) (m : MigrationManager) :
  ddl_err f = None ->
  query_err f = None ->
  ledger_rows (db m) = [] ->
  RollbackLast exec f m = (Ok tt, set_db m (create_ledger_if_absent (db m))).
Proof.
  intros Hddl Hq Hrows.
  unfold RollbackLast, GetLastAppliedMigration, InitMigrationTable.
  rewrite Hddl, Hq. simpl. rewrite ledger_rows_create, Hrows. done.
Qed.

(** X11. With no row in the ledger and a driver that answers, the rollback
    command succeeds whatever the count: a count of zero or less still makes
    one call of [RollbackLast], a count above one makes that many, and none
    of them rolls anything back. Afterwards the ledger table exists and
    everything else is as before. *)
Theorem migrate_rollback_nothing_applied (fs : nat -> Faults) (count : Z)
    (m : MigrationManager) :
  (forall i, ddl_err (fs i) = None /\ query_err (fs i) = None) ->
  ledger_rows (db m) = [] ->
  migrate_rollback exec fs count m
    = (Ok tt, set_db m (create_ledger_if_absent (db m))).
Proof.
  intros Hfs Hrows.
  set (m0 := set_db m (create_ledger_if_absent (db m))).
  assert (Hrows0 : ledger_rows (db m0) = [])
    by (unfold m0; simpl; by rewrite ledger_rows_create).
  assert (Hidem : set_db m0 (create_ledger_if_absent (db m0)) = m0).
  { unfold m0, set_db. simpl. f_equal.
    eapply create_ledger_present, create_ledger_is_Some. }
  assert (Hfix : forall k i, rollback_times exec fs i k m0 = (Ok tt, m0)).
  { induction k as [|k IH]; intros i; [done|]. cbn [rollback_times].
    rewrite RollbackLast_nothing_applied; [|apply Hfs|apply Hfs|done].
    cbv beta iota. rewrite Hidem. apply IH. }
  assert (Hloop : forall n i, rollback_times exec fs i (S n) m = (Ok tt, m0)).
  { intros n i. cbn [rollback_times].
    rewrite RollbackLast_nothing_applied; [|apply Hfs|apply Hfs|done].
    cbv beta iota. apply Hfix. }
  unfold migrate_rollback.
  destruct (1 <? count)%Z eqn:Hc; [|apply Hloop].
  apply Z.ltb_lt in Hc.
  destruct (Z.to_nat count) as [|n] eqn:Hn; [lia|]. apply Hloop.
Qed.

End RollbackLoopProperties.

Lemma GetLastAppliedMigration_spec_witness :
  ddl_err no_faults = None /\
  query_err no_faults = None /\
  exists res m',
    GetLastAppliedMigration no_faults two_applied = (Ok res, m') /\
    db m' = create_ledger_if_absent (db two_applied) /\
    match res with
    | None =>
        ledger_rows (db two_applied) = [] /\
        migrations m' = migrations two_applied
    | Some last =>
        exists r,
          r ∈ ledger_rows (db two_applied) /\
          (forall r', r' ∈ ledger_rows (db two_applied) ->
                      (l_applied_at r' <= l_applied_at r)%Z) /\
          Applied last = true /\
          AppliedAt last = Some (l_applied_at r) /\
          match migrations two_applied !! l_id r with
          | Some registered =>
              last = mkMigration (ID registered) (Description registered)
                       (UpSQL registered) (DownSQL registered) true
                       (Some (l_applied_at r)) /\
              migrations m' = <[l_id r := last]> (migrations two_applied)
          | None =>
              last = mkMigration (l_id r) (l_description r) "" "" true
                       (Some (l_applied_at r)) /\
              migrations m' = migrations two_applied
          end
    end.
Proof.
  split; [reflexivity|]. split; [reflexivity|].
  apply (GetLastAppliedMigration_spec no_faults two_applied);
    reflexivity.
Defined.

Lemma migrate_rollback_nothing_applied_witness :
  (forall i : nat, ddl_err no_faults = None /\ query_err no_faults = None) /\
  ledger_rows (db three_fresh) = [] /\
  migrate_rollback ToyEngine.exec (fun _ => no_faults) 5 three_fresh
    = (Ok tt, set_db three_fresh (create_ledger_if_absent (db three_fresh))).
Proof.
  split; [done|]. split; [reflexivity|].
  apply (migrate_rollback_nothing_applied ToyEngine.exec
           (fun _ => no_faults) 5 three_fresh); [done|reflexivity].
Defined.

(** ** Exporting *)

Lemma sapp_cons (a : ascii) (s t : string) :
  String a s +:+ t = String a (s +:+ t).
Proof. reflexivity. Qed.

Lemma sapp_nil_r (s : string) : s +:+ "" = s.
Proof. induction s as [|a s IH]; [done|]. by rewrite sapp_cons, IH. Qed.

Lemma sapp_assoc (a b c : string) : (a +:+ b) +:+ c = a +:+ (b +:+ c).
Proof. induction a as [|x a IH]; [done|]. by rewrite !sapp_cons, IH. Qed.

Lemma wrote_lookup (w : World) (path cur text : string) (lines : list string) :
  w_fs (wrote w path cur text lines) !! path = Some (cur +:+ text).
Proof. unfold wrote. simpl. apply lookup_insert_eq. Qed.

Lemma wrote_wrote (w : World) (path cur t1 t2 : string)
    (l1 l2 : list string) :
  wrote (wrote w path cur t1 l1) path (cur +:+ t1) t2 l2
  = wrote w path cur (t1 +:+ t2) (l1 ++ l2).
Proof.
  unfold wrote. simpl. by rewrite insert_insert_eq, sapp_assoc, app_assoc.
Qed.

Lemma wrote_nothing (w : World) (path cur : string) :
  w_fs w !! path = Some cur -> wrote w path cur "" [] = w.
Proof.
  intros Hcur. unfold wrote. rewrite sapp_nil_r, app_nil_r.
  rewrite insert_id by done. by destruct w.
Qed.

Lemma fprint_wrote (w : World) (path cur text : string) :
  w_fs w !! path = Some cur ->
  fprint path text w = (Ok tt, wrote w path cur text []).
Proof.
  intros Hcur. unfold fprint, wrote. rewrite Hcur. simpl.
  by rewrite app_nil_r.
Qed.

Lemma print_if_wrote (b : bool) (line : string) (w : World)
    (path cur : string) :
  w_fs w !! path = Some cur ->
  exists lines, print_if b line w = (Ok tt, wrote w path cur "" lines).
Proof.
  intros Hcur. unfold wrote. rewrite sapp_nil_r, insert_id by done.
  apply print_if_world.
Qed.

Section ExportProperties.

Variable fmt_time : Z -> string.

Lemma write_rows_wrote (path tableName : string) (columns : list string)
    (rows : list (list Value)) :
  forall (rowCount : nat) (w : World) (cur : string),
    w_fs w !! path = Some cur ->
    write_rows fmt_time path tableName columns rows rowCount w
    = (Ok (rowCount + length rows),
       wrote w path cur (rows_text fmt_time tableName columns rows) []).
Proof.
  induction rows as [|values rest IH]; intros rowCount w cur Hcur.
  - simpl. unfold io_ret. rewrite wrote_nothing by done.
    by rewrite Nat.add_0_r.
  - cbn [write_rows rows_text]. unfold io_bind.
    rewrite (fprint_wrote w path cur) by done.
    rewrite (IH _ _ _ (wrote_lookup _ _ _ _ _)).
    rewrite wrote_wrote. simpl. do 2 f_equal. lia.
Qed.

Lemma exportTableSchema_wrote (path table : string) (t : Table)
    (w : World) (cur : string) :
  w_fs w !! path = Some cur ->
  lookup_table (w_store w) table = Some t ->
  exportTableSchema path table w
  = (Ok tt, wrote w path cur (schema_text table t) []).
Proof.
  intros Hcur Ht. unfold exportTableSchema, io_bind, get_store, schema_text.
  rewrite Ht. destruct (tbl_sql t) as [schema|].
  - unfold io_bind. rewrite (fprint_wrote w path cur) by done.
    rewrite (fprint_wrote _ path _ _ (wrote_lookup _ _ _ _ _)).
    by rewrite wrote_wrote, !sapp_assoc.
  - unfold io_ret. by rewrite wrote_nothing.
Qed.

Lemma exportTableData_wrote (path table : string) (t : Table)
    (w : World) (cur : string) :
  w_fs w !! path = Some cur ->
  lookup_table (w_store w) table = Some t ->
  exportTableData fmt_time path table w
  = (Ok (length (tbl_rows t)),
     wrote w path cur (data_text fmt_time table t) []).
Proof.
  intros Hcur Ht. unfold exportTableData, io_bind, get_store, data_text.
  rewrite Ht. rewrite (fprint_wrote w path cur) by done.
  rewrite (write_rows_wrote _ _ _ _ _ _ _ (wrote_lookup _ _ _ _ _)).
  by rewrite wrote_wrote, !sapp_assoc.
Qed.

(** One turn of the loop of [exportSQL] on a table whose export goes
    through: its section is appended and its rows are counted. *)
Lemma export_tables_cons (opts : ExportOptions) (table : string)
    (rest : list string) (totalRows : nat) (w : World) (cur : string) :
  w_fs w !! OutputPath opts = Some cur ->
  exportable opts (w_store w) table ->
  exists lines,
    export_tables fmt_time opts (table :: rest) totalRows w
    = export_tables fmt_time opts rest
        (totalRows + exported_rows opts (w_store w) [table])
        (wrote w (OutputPath opts) cur
           (sections fmt_time opts (w_store w) [table]) lines).
Proof.
  intros Hcur Hexp. cbn [export_tables]. unfold io_bind.
  destruct (print_if_wrote (ExVerbose opts) ("Exporting table: " +:+ table)
              w (OutputPath opts) cur Hcur) as [lines ->].
  exists lines. set (w1 := wrote w (OutputPath opts) cur "" lines).
  assert (Hcur1 : w_fs w1 !! OutputPath opts = Some (cur +:+ ""))
    by apply wrote_lookup.
  unfold exported_rows, sections. simpl foldr.
  destruct (lookup_table (w_store w) table) as [t|] eqn:Ht.
  - unfold table_section.
    destruct (IncludeSchema opts), (IncludeData opts); unfold io_wrap, io_ret.
    + rewrite (exportTableSchema_wrote _ _ t w1 _ Hcur1 Ht). cbn [wrap].
      rewrite (exportTableData_wrote _ _ t (wrote w1 _ _ _ _) _
                 (wrote_lookup _ _ _ _ _) Ht).
      cbn [wrap].
      rewrite (fprint_wrote _ _ _ _ (wrote_lookup _ _ _ _ _)).
      unfold w1. rewrite !wrote_wrote, ?sapp_assoc. simpl.
      by rewrite !app_nil_r, Nat.add_0_r.
    + rewrite (exportTableSchema_wrote _ _ t w1 _ Hcur1 Ht). cbn [wrap].
      rewrite (fprint_wrote _ _ _ _ (wrote_lookup _ _ _ _ _)).
      unfold w1. rewrite !wrote_wrote, ?sapp_assoc. simpl.
      by rewrite !app_nil_r.
    + rewrite (exportTableData_wrote _ _ t w1 _ Hcur1 Ht). cbn [wrap].
      rewrite (fprint_wrote _ _ _ _ (wrote_lookup _ _ _ _ _)).
      unfold w1. rewrite !wrote_wrote, ?sapp_assoc. simpl.
      by rewrite !app_nil_r, Nat.add_0_r.
    + rewrite (fprint_wrote _ _ _ _ Hcur1).
      unfold w1. rewrite !wrote_wrote, ?sapp_assoc. simpl.
      by rewrite !app_nil_r.
  - destruct Hexp as [[t' Ht']|[-> ->]]; [congruence|].
    unfold io_ret.
    rewrite (fprint_wrote _ _ _ _ Hcur1).
    unfold w1. rewrite !wrote_wrote, ?sapp_assoc. simpl.
    by rewrite !app_nil_r, sapp_nil_r.
Qed.

(** One turn of the loop on a table that is not there while its schema or
    its data is asked for: the export stops with nothing written for it. *)
Lemma export_tables_missing (opts : ExportOptions) (table : string)
    (rest : list string) (totalRows : nat) (w : World) (cur : string) :
  w_fs w !! OutputPath opts = Some cur ->
  lookup_table (w_store w) table = None ->
  IncludeSchema opts = true \/ IncludeData opts = true ->
  exists lines,
    export_tables fmt_time opts (table :: rest) totalRows w
    = (Err (missing_table_error opts table),
       wrote w (OutputPath opts) cur "" lines).
Proof.
  intros Hcur Ht Hasked. cbn [export_tables]. unfold io_bind.
  destruct (print_if_wrote (ExVerbose opts) ("Exporting table: " +:+ table)
              w (OutputPath opts) cur Hcur) as [lines ->].
  exists lines. unfold missing_table_error.
  destruct (IncludeSchema opts).
  - unfold io_wrap, exportTableSchema, io_bind, get_store. simpl.
    rewrite Ht. done.
  - destruct Hasked as [Habs | ->]; [done|].
    unfold io_ret, io_wrap, exportTableData, io_bind, get_store. simpl.
    rewrite Ht. done.
Qed.

Lemma sections_app (opts : ExportOptions) (s : Store) (l1 l2 : list string) :
  sections fmt_time opts s (l1 ++ l2)
  = sections fmt_time opts s l1 +:+ sections fmt_time opts s l2.
Proof.
  induction l1 as [|x l1 IH]; [done|]. simpl. by rewrite IH, sapp_assoc.
Qed.

Lemma exported_rows_cons (opts : ExportOptions) (s : Store) (x : string)
    (l : list string) :
  exported_rows opts s (x :: l)
  = exported_rows opts s [x] + exported_rows opts s l.
Proof. unfold exported_rows. simpl. lia. Qed.

Lemma export_tables_ok (opts : ExportOptions) (tbls : list string) :
  forall (totalRows : nat) (w : World) (cur : string),
    w_fs w !! OutputPath opts = Some cur ->
    Forall (exportable opts (w_store w)) tbls ->
    exists lines,
      export_tables fmt_time opts tbls totalRows w
      = (Ok (totalRows + exported_rows opts (w_store w) tbls),
         wrote w (OutputPath opts) cur
           (sections fmt_time opts (w_store w) tbls) lines).
Proof.
  induction tbls as [|table rest IH]; intros totalRows w cur Hcur Hall.
  - exists []. simpl. unfold io_ret. rewrite wrote_nothing by done.
    by rewrite Nat.add_0_r.
  - apply Forall_cons in Hall as [Hfirst Hrest].
    destruct (export_tables_cons opts table rest totalRows w cur Hcur Hfirst)
      as [lines ->].
    destruct (IH (totalRows + exported_rows opts (w_store w) [table])
                (wrote w (OutputPath opts) cur
                   (sections fmt_time opts (w_store w) [table]) lines)
                _ (wrote_lookup _ _ _ _ _) Hrest) as [lines' ->].
    exists (lines ++ lines'). rewrite wrote_wrote. simpl w_store.
    rewrite (exported_rows_cons opts (w_store w) table rest).
    change (table :: rest) with ([table] ++ rest).
    rewrite sections_app. do 2 f_equal. lia.
Qed.

Lemma table_names_spec (s : Store) :
  StronglySorted string_lt (table_names s) /\
  forall name,
    name ∈ table_names s <->
    is_Some (lookup_table s name) /\ like_sqlite_ name = false.
Proof.
  set (others :=
         filter (fun n => n <> "schema_migrations") (map_to_list (tables s)).*1).
  set (all := match ledger s with
              | Some _ => "schema_migrations" :: others
              | None => others
              end).
  assert (Hothers : forall n, n ∈ others <->
                              n <> "schema_migrations" /\ is_Some (tables s !! n)).
  { intros n. unfold others. rewrite list_elem_of_filter, list_elem_of_fmap.
    split.
    - intros [Hne ([k t] & -> & Hin%elem_of_map_to_list)]. eauto.
    - intros [Hne [t Ht]]. split; [done|]. exists (n, t).
      split; [done|]. by apply elem_of_map_to_list. }
  assert (Hnd_others : NoDup others).
  { unfold others. apply NoDup_filter, NoDup_fst_map_to_list. }
  assert (Hnd : NoDup all).
  { unfold all. destruct (ledger s); [|done].
    apply NoDup_cons. split; [|done]. intros [Hne _]%Hothers. done. }
  assert (Hall : forall n, n ∈ all <-> is_Some (lookup_table s n)).
  { intros n. unfold all, lookup_table.
    destruct (decide (n = "schema_migrations")) as [->|Hne].
    - destruct (ledger s); simpl.
      + split; [eauto|left].
      + rewrite Hothers. split; [by intros [? _]|by intros [? ?]].
    - destruct (ledger s); rewrite ?elem_of_cons, Hothers; intuition eauto. }
  unfold table_names. fold others all.
  split.
  - assert (Hsorted : Sorted String.le
                        (merge_sort String.le
                           (filter (fun n => like_sqlite_ n = false) all)))
      by (apply Sorted_merge_sort; apply _).
    assert (Hnd' : NoDup (merge_sort String.le
                            (filter (fun n => like_sqlite_ n = false) all)))
      by (rewrite merge_sort_Permutation; by apply NoDup_filter).
    apply Sorted_StronglySorted in Hsorted; [|apply _].
    revert Hnd'. induction Hsorted as [|a l Hl IH Ha]; intros Hnd';
      [constructor|].
    apply NoDup_cons in Hnd' as [Hnotin Hnd'].
    constructor; [auto|].
    rewrite Forall_forall in Ha. apply Forall_forall. intros b Hb.
    split; [by apply Ha|]. intros ->. done.
  - intros name. rewrite merge_sort_Permutation, list_elem_of_filter, Hall.
    tauto.
Qed.

(** X12. [getTablesToExport] hands a non-empty request back as it is,
    without asking the store whether the tables exist. With an empty request
    it lists the tables of the store, the ledger included: every table whose
    name does not match [sqlite_%] (any case, any character for the
    underscore), each once, in strictly ascending byte order; or the query's
    error. It never changes the world. *)
Theorem getTablesToExport_spec (f : IOFaults) (requestedTables : list string)
    (w : World) :
  match requestedTables with
  | _ :: _ => getTablesToExport f requestedTables w = (Ok requestedTables, w)
  | [] =>
      match io_query_err f with
      | Some e =>
          getTablesToExport f [] w = (Err (Wrap "failed to query tables" e), w)
      | None =>
          getTablesToExport f [] w = (Ok (table_names (w_store w)), w) /\
          StronglySorted string_lt (table_names (w_store w)) /\
          forall name,
            name ∈ table_names (w_store w) <->
            is_Some (lookup_table (w_store w) name) /\
            like_sqlite_ name = false
      end
  end.
Proof.
  destruct requestedTables as [|first rest]; [|done].
  unfold getTablesToExport, io_wrap, io_bind, io_lift, get_store, io_ret.
  destruct (io_query_err f) as [e|]; simpl; [done|].
  split; [done|]. apply table_names_spec.
Qed.

(** X13. When the output file can be created, the table list can be
    obtained and every requested table is there (nothing needs to be
    requested), [exportSQL] succeeds. The file then holds, in place of
    whatever it held, the header followed by one section per table in order:
    the table's schema statement under its comment line (if asked for), the
    data comment line and one [INSERT] statement per row in row order (if
    asked for), and an empty line. The store and the other files are
    unchanged, and the verbose run ends on the line that counts the tables
    and the rows written. *)
Theorem exportSQL_writes_dump (f : IOFaults) (generated : string)
    (opts : ExportOptions) (w : World) :
  create_err f = None ->
  (Tables opts = [] -> io_query_err f = None) ->
  Forall (exportable opts (w_store w)) (Tables opts) ->
  let tbls := tables_to_export opts (w_store w) in
  exists lines,
    exportSQL fmt_time f generated opts w
    = (Ok tt,
       {| w_store := w_store w;
          w_fs := <[OutputPath opts :=
                      dump_header generated
                        +:+ sections fmt_time opts (w_store w) tbls]> (w_fs w);
          w_out := w_out w ++ lines |}) /\
    (ExVerbose opts = true ->
     last lines
     = Some (export_done_line (length tbls)
               (exported_rows opts (w_store w) tbls))).
Proof.
  intros Hcreate Hquery Hreq tbls.
  assert (Htbls : getTablesToExport f (Tables opts)
                  = fun w0 => (Ok (tables_to_export opts (w_store w0)), w0)).
  { unfold tables_to_export. destruct (Tables opts) as [|first rest] eqn:Ht.
    - unfold getTablesToExport, io_wrap, io_bind, io_lift, get_store, io_ret.
      rewrite Hquery by done. done.
    - done. }
  assert (Hall : Forall (exportable opts (w_store w)) tbls).
  { unfold tbls, tables_to_export.
    destruct (Tables opts) as [|first rest]; [|done].
    apply Forall_forall. intros name Hname. left.
    by apply (table_names_spec (w_store w)) in Hname as [? _]. }
  unfold exportSQL, io_bind, io_wrap, create_file. rewrite Hcreate. cbn [wrap].
  set (w0 := {| w_store := w_store w;
                w_fs := <[OutputPath opts := ""]> (w_fs w);
                w_out := w_out w |}).
  assert (Hcur0 : w_fs w0 !! OutputPath opts = Some "")
    by apply lookup_insert_eq.
  rewrite (fprint_wrote w0 _ "" _ Hcur0).
  rewrite (fprint_wrote _ _ _ _ (wrote_lookup _ _ _ _ _)).
  rewrite (fprint_wrote _ _ _ _ (wrote_lookup _ _ _ _ _)).
  rewrite !wrote_wrote. rewrite Htbls. cbn [wrap]. simpl w_store.
  fold tbls.
  destruct (export_tables_ok opts tbls 0
              (wrote w0 (OutputPath opts) ""
                 (("-- gogo database export" +:+ nl)
                    +:+ ("-- Generated on: " +:+ generated +:+ nl)
                    +:+ ("-- Format: SQL" +:+ nl +:+ nl)) ([] ++ [] ++ []))
              _ (wrote_lookup _ _ _ _ _) Hall) as [lines Hexp].
  simpl w_store in Hexp. rewrite Hexp. rewrite wrote_wrote.
  destruct (ExVerbose opts) eqn:Hv; simpl.
  - exists (lines ++ [export_done_line (length tbls)
                         (exported_rows opts (w_store w) tbls)]).
    split; [|intros _; apply last_snoc].
    unfold wrote, w0, dump_header. simpl.
    rewrite insert_insert_eq, app_assoc. done.
  - exists lines. split; [|done].
    unfold io_ret, wrote, w0, dump_header. simpl.
    rewrite insert_insert_eq. done.
Qed.

Lemma export_tables_stops (opts : ExportOptions) (done : list string)
    (missing : string) (rest : list string) :
  forall (totalRows : nat) (w : World) (cur : string),
    w_fs w !! OutputPath opts = Some cur ->
    Forall (exportable opts (w_store w)) done ->
    lookup_table (w_store w) missing = None ->
    IncludeSchema opts = true \/ IncludeData opts = true ->
    exists lines,
      export_tables fmt_time opts (done ++ missing :: rest) totalRows w
      = (Err (missing_table_error opts missing),
         wrote w (OutputPath opts) cur
           (sections fmt_time opts (w_store w) done) lines).
Proof.
  induction done as [|table done IH];
    intros totalRows w cur Hcur Hall Hmissing Hasked.
  - cbn [app].
    destruct (export_tables_missing opts missing rest totalRows w cur
                Hcur Hmissing Hasked) as [lines ->]. by exists lines.
  - apply Forall_cons in Hall as [Hfirst Hrest]. cbn [app].
    destruct (export_tables_cons opts table (done ++ missing :: rest)
                totalRows w cur Hcur Hfirst) as [lines ->].
    destruct (IH (totalRows + exported_rows opts (w_store w) [table])
                (wrote w (OutputPath opts) cur
                   (sections fmt_time opts (w_store w) [table]) lines)
                _ (wrote_lookup _ _ _ _ _) Hrest Hmissing Hasked)
      as [lines' ->].
    exists (lines ++ lines'). rewrite wrote_wrote. simpl w_store.
    change (table :: done) with ([table] ++ done).
    by rewrite sections_app.
Qed.

(** X14. When a requested table is not in the store and its schema or its
    data is asked for, [exportSQL] fails at that table with the error of the
    schema lookup (or, without schema, of the data query) and exports no
    later table; the store is unchanged, and the output file stays behind
    with the header and the sections of the tables before the missing one,
    in place of whatever it held. *)
Theorem exportSQL_missing_table (f : IOFaults) (generated : string)
    (opts : ExportOptions) (w : World) (done : list string)
    (missing : string) (rest : list string) :
  create_err f = None ->
  Tables opts = done ++ missing :: rest ->
  Forall (exportable opts (w_store w)) done ->
  lookup_table (w_store w) missing = None ->
  IncludeSchema opts = true \/ IncludeData opts = true ->
  exists lines,
    exportSQL fmt_time f generated opts w
    = (Err (missing_table_error opts missing),
       {| w_store := w_store w;
          w_fs := <[OutputPath opts :=
                      dump_header generated
                        +:+ sections fmt_time opts (w_store w) done]> (w_fs w);
          w_out := w_out w ++ lines |}).
Proof.
  intros Hcreate Htables Hdone Hmissing Hasked.
  assert (Htbls : getTablesToExport f (Tables opts)
                  = fun w0 => (Ok (done ++ missing :: rest), w0)).
  { rewrite Htables. by destruct done. }
  unfold exportSQL, io_bind, io_wrap, create_file. rewrite Hcreate. cbn [wrap].
  set (w0 := {| w_store := w_store w;
                w_fs := <[OutputPath opts := ""]> (w_fs w);
                w_out := w_out w |}).
  assert (Hcur0 : w_fs w0 !! OutputPath opts = Some "")
    by apply lookup_insert_eq.
  rewrite (fprint_wrote w0 _ "" _ Hcur0).
  rewrite (fprint_wrote _ _ _ _ (wrote_lookup _ _ _ _ _)).
  rewrite (fprint_wrote _ _ _ _ (wrote_lookup _ _ _ _ _)).
  rewrite !wrote_wrote. rewrite Htbls. cbn [wrap].
  destruct (export_tables_stops opts done missing rest 0
              (wrote w0 (OutputPath opts) ""
                 (("-- gogo database export" +:+ nl)
                    +:+ ("-- Generated on: " +:+ generated +:+ nl)
                    +:+ ("-- Format: SQL" +:+ nl +:+ nl)) ([] ++ [] ++ []))
              _ (wrote_lookup _ _ _ _ _) Hdone Hmissing Hasked)
    as [lines Hexp].
  simpl w_store in Hexp. rewrite Hexp. rewrite wrote_wrote.
  exists lines. unfold wrote, w0, dump_header. simpl.
  rewrite insert_insert_eq. done.
Qed.

End ExportProperties.

Lemma exportSQL_writes_dump_witness :
  create_err no_io_faults = None /\
  Forall (exportable (request_opts ["audits"; "schema_migrations"])
            catalog_store) ["audits"; "schema_migrations"] /\
  exists lines,
    exportSQL (fun _ => "") no_io_faults "2024-05-01 10:00:00"
      (request_opts ["audits"; "schema_migrations"])
      (world_of catalog_store {[ "dump.sql" := "old" ]})
    = (Ok tt,
       {| w_store := catalog_store;
          w_fs := {[ "dump.sql" :=
                       dump_header "2024-05-01 10:00:00"
                         +:+ sections (fun _ => "")
                               (request_opts ["audits"; "schema_migrations"])
                               catalog_store
                               ["audits"; "schema_migrations"] ]};
          w_out := lines |}).
Proof.
  assert (Hall : Forall (exportable (request_opts ["audits"; "schema_migrations"])
                           catalog_store) ["audits"; "schema_migrations"]).
  { repeat (constructor; [left; vm_compute; eauto|]). constructor. }
  split; [reflexivity|]. split; [exact Hall|].
  destruct (exportSQL_writes_dump (fun _ => "") no_io_faults
              "2024-05-01 10:00:00"
              (request_opts ["audits"; "schema_migrations"])
              (world_of catalog_store {[ "dump.sql" := "old" ]})
              eq_refl (fun H => ltac:(discriminate H)) Hall)
    as (lines & Hrun & _).
  exists lines. rewrite Hrun. simpl. by rewrite insert_singleton_eq.
Defined.

Lemma exportSQL_missing_table_witness :
  create_err no_io_faults = None /\
  lookup_table catalog_store "ghosts" = None /\
  exists lines,
    exportSQL (fun _ => "") no_io_faults "2024-05-01 10:00:00"
      (request_opts ["audits"; "ghosts"; "notes"])
      (world_of catalog_store ∅)
    = (Err (missing_table_error (request_opts ["audits"; "ghosts"; "notes"])
              "ghosts"),
       {| w_store := catalog_store;
          w_fs := {[ "dump.sql" :=
                       dump_header "2024-05-01 10:00:00"
                         +:+ sections (fun _ => "")
                               (request_opts ["audits"; "ghosts"; "notes"])
                               catalog_store ["audits"] ]};
          w_out := lines |}).
Proof.
  split; [reflexivity|]. split; [vm_compute; reflexivity|].
  destruct (exportSQL_missing_table (fun _ => "") no_io_faults
              "2024-05-01 10:00:00"
              (request_opts ["audits"; "ghosts"; "notes"])
              (world_of catalog_store ∅) ["audits"] "ghosts" ["notes"]
              eq_refl eq_refl)
    as [lines Hrun].
  - repeat (constructor; [left; vm_compute; eauto|]). constructor.
  - vm_compute. reflexivity.
  - by left.
  - exists lines. rewrite Hrun. done.
Defined.

Lemma getTablesToExport_catalog :
  getTablesToExport no_io_faults [] (world_of catalog_store ∅)
  = (Ok ["audits"; "notes"; "schema_migrations"], world_of catalog_store ∅).
Proof. vm_compute. reflexivity. Qed.


(** ** Importing *)

Section ImportEdges.

Variable exec : string -> Store -> result Store.
Variable decode_json : string -> result ExportedData.

(** X15. A real SQL import is all or nothing and never touches a file.
    When it fails (the transaction does not begin, a statement is rejected,
    the commit fails) the store is the one it started from. When it succeeds
    the store is the outcome of handing the executable fragments to the
    engine in file order, and the count it reports is their number. With a
    driver that begins and commits, it succeeds exactly when the engine
    accepts every executable fragment in turn. *)
Theorem Import_sql_all_or_nothing (f : IOFaults) (opts : ImportOptions)
    (w : World) (content : string) :
  ImFormat opts = FormatSQL ->
  DryRun opts = false ->
  w_fs w !! InputPath opts = Some content ->
  let r := Import exec decode_json f opts w in
  w_fs r.2 = w_fs w /\
  match r.1 with
  | Ok _ =>
      exec_fragments exec (Split content ";"%char) (w_store w)
        = Ok (w_store r.2) /\
      last (w_out r.2) = Some (sql_done_line (executed_count content))
  | Err _ => w_store r.2 = w_store w
  end /\
  (io_begin_err f = None -> io_commit_err f = None ->
   is_ok r.1 = is_ok (exec_fragments exec (Split content ";"%char) (w_store w))).
Proof.
  intros Hsql Hreal Hfile r. unfold r.
  destruct (Import_dispatch exec decode_json f opts w) as [lines ->].
  rewrite Hfile, Hsql.
  pose proof (importSQL_real_run exec f opts (add_out w lines) content
                Hfile Hreal) as [Hfs Hres].
  split; [done|]. split; [done|].
  intros Hbegin Hcommit. clear Hfs Hres.
  unfold importSQL, io_bind, io_wrap, read_file, io_lift, get_store.
  simpl w_fs. rewrite Hfile, Hreal. cbn [wrap]. rewrite Hbegin, Hcommit.
  cbn [check wrap].
  pose proof (run_statements_spec exec (ImVerbose opts)
                (Split content ";"%char) (w_store w) 0 (add_out w lines))
    as (_ & _ & Hr).
  simpl w_store.
  destruct (run_statements exec (ImVerbose opts) (Split content ";"%char)
              (w_store w) 0 (add_out w lines)) as [[[tx' n']|e] w1];
    simpl in *.
  - destruct Hr as [-> _]. done.
  - by rewrite Hr.
Qed.

(** X16. [Import] refuses a file that is not there, whatever the format,
    and a format other than sql and json (csv included), with the errors
    "input file does not exist: <path>" and "unsupported import format:
    <format>"; in both cases the store and the files are untouched. *)
Theorem Import_rejects (f : IOFaults) (opts : ImportOptions) (w : World) :
  let r := Import exec decode_json f opts w in
  (w_fs w !! InputPath opts = None ->
   r.1 = Err (Errorf ("input file does not exist: " +:+ InputPath opts)) /\
   w_store r.2 = w_store w /\ w_fs r.2 = w_fs w) /\
  (is_Some (w_fs w !! InputPath opts) ->
   ImFormat opts <> FormatSQL -> ImFormat opts <> FormatJSON ->
   r.1 = Err (Errorf ("unsupported import format: "
                        +:+ format_name (ImFormat opts))) /\
   w_store r.2 = w_store w /\ w_fs r.2 = w_fs w).
Proof.
  intros r. unfold r.
  destruct (Import_dispatch exec decode_json f opts w) as [lines ->].
  split.
  - intros ->. done.
  - intros [content ->] Hsql Hjson. by destruct (ImFormat opts).
Qed.

(** X17. A JSON import writes nothing, dry run or not: after [Import] of a
    bundle the store and the files are what they were, also when it reports
    the rows as imported. Its result is decided by decoding and validation
    alone: the decoder's error, or with validation on and an empty version
    the error "import data validation failed: import data missing version
    information" (before the dry run is even considered), or success. *)
Theorem Import_json_writes_nothing (f : IOFaults) (opts : ImportOptions)
    (w : World) (content : string) :
  ImFormat opts = FormatJSON ->
  w_fs w !! InputPath opts = Some content ->
  let r := Import exec decode_json f opts w in
  w_store r.2 = w_store w /\
  w_fs r.2 = w_fs w /\
  r.1 = match decode_json content with
        | Err e => Err (Wrap "failed to decode JSON" e)
        | Ok data =>
            if Validate opts && String.eqb (Version (Metadata data)) ""
            then Err (Wrap "import data validation failed"
                        (Errorf "import data missing version information"))
            else Ok tt
        end.
Proof.
  intros Hjson Hfile r. unfold r.
  destruct (Import_dispatch exec decode_json f opts w) as [lines ->].
  rewrite Hfile, Hjson.
  pose proof (importJSON_no_write decode_json opts (add_out w lines))
    as [Hs Hf].
  split; [done|]. split; [done|].
  destruct (decode_json content) as [data|e] eqn:Hdec.
  - destruct (Validate opts && String.eqb (Version (Metadata data)) "")
      eqn:Hbad.
    + apply andb_true_iff in Hbad as [Hv Hempty].
      unfold importJSON, io_bind, io_wrap, read_file, io_lift.
      simpl w_fs. rewrite Hfile. cbn [wrap]. rewrite Hdec. cbn [wrap].
      rewrite Hv. unfold validateImportData. rewrite Hempty. done.
    + apply (importJSON_run decode_json opts (add_out w lines) content data
               Hfile Hdec).
      intros Hv Hempty. rewrite Hv, Hempty in Hbad. discriminate Hbad.
  - unfold importJSON, io_bind, io_wrap, read_file, io_lift.
    simpl w_fs. rewrite Hfile. cbn [wrap]. rewrite Hdec. done.
Qed.

End ImportEdges.

Lemma Import_sql_all_or_nothing_witness :
  let opts := import_opts "schema.sql" FormatSQL false in
  let w := world_of empty_store import_files in
  (ImFormat opts = FormatSQL /\ DryRun opts = false /\
   w_fs w !! InputPath opts = Some schema_sql) /\
  w_fs (Import ToyEngine.exec toy_decode no_io_faults opts w).2 = w_fs w.
Proof.
  split; [by vm_compute|].
  exact (proj1 (Import_sql_all_or_nothing ToyEngine.exec toy_decode
                  no_io_faults (import_opts "schema.sql" FormatSQL false)
                  (world_of empty_store import_files) schema_sql
                  eq_refl eq_refl eq_refl)).
Defined.

Lemma Import_rejects_witness :
  let opts := import_opts "absent.sql" FormatSQL false in
  let w := world_of empty_store import_files in
  w_fs w !! InputPath opts = None /\
  (Import ToyEngine.exec toy_decode no_io_faults opts w).1
  = Err (Errorf "input file does not exist: absent.sql").
Proof.
  split; [by vm_compute|].
  exact (proj1 (proj1 (Import_rejects ToyEngine.exec toy_decode no_io_faults
                         (import_opts "absent.sql" FormatSQL false)
                         (world_of empty_store import_files)) eq_refl)).
Defined.

Lemma Import_json_writes_nothing_witness :
  let opts := import_opts "bundle.json" FormatJSON false in
  let w := world_of empty_store import_files in
  (ImFormat opts = FormatJSON /\
   w_fs w !! InputPath opts = Some bundle_json) /\
  w_store (Import ToyEngine.exec toy_decode no_io_faults opts w).2
  = w_store w.
Proof.
  split; [by vm_compute|].
  exact (proj1 (Import_json_writes_nothing ToyEngine.exec toy_decode
                  no_io_faults (import_opts "bundle.json" FormatJSON false)
                  (world_of empty_store import_files) bundle_json
                  eq_refl eq_refl)).
Defined.

(** ** The health report, read off the probes *)

Module HealthReportProperties.
Import Health HealthReading.

Lemma digit_of_char (d : N) :
  (d < 10)%N -> digit_of (pretty_N_char d) = Some d.
Proof.
  intros Hd.
  assert (d = 0 \/ d = 1 \/ d = 2 \/ d = 3 \/ d = 4 \/ d = 5 \/ d = 6
          \/ d = 7 \/ d = 8 \/ d = 9)%N as Hcases by lia.
  repeat (destruct Hcases as [-> | Hcases]; [reflexivity|]).
  by subst.
Qed.

Lemma scan_digits_pretty (x : N) (s : string) :
  (0 < x)%N ->
  scan_digits (pretty_N_go x s) None = scan_digits s (Some x).
Proof.
  revert s. induction (N.lt_wf_0 x) as [x _ IH]. intros s Hpos.
  rewrite pretty_N_go_step by done.
  assert (Hmod : (x `mod` 10 < 10)%N) by (apply N.mod_lt; lia).
  destruct (decide (x `div` 10 = 0)%N) as [Hsmall | Hbig].
  - rewrite Hsmall, pretty_N_go_0. cbn [scan_digits].
    rewrite digit_of_char by done. cbn [default from_option id]. do 2 f_equal.
    pose proof (N.div_mod x 10). lia.
  - rewrite IH; [|apply N.div_lt; lia | by apply N.neq_0_lt_0].
    cbn [scan_digits]. rewrite digit_of_char by done. cbn [default from_option id].
    do 2 f_equal. pose proof (N.div_mod x 10). lia.
Qed.

Lemma scan_pretty_pos (x : positive) :
  scan_d (pretty (Zpos x)) = Ok (Zpos x) /\
  scan_digits (pretty (Zpos x)) None = Some (Npos x).
Proof.
  unfold pretty, pretty_Z, pretty, pretty_positive, pretty, pretty_N.
  rewrite decide_False by done.
  pose proof (scan_digits_pretty (Npos x) "" ltac:(lia)) as Hscan.
  cbn [scan_digits] in Hscan. split; [|done].
  destruct (pretty_N_go (N.pos x) "") as [|a r] eqn:Hgo; [done|].
  unfold scan_d. destruct (Ascii.eqb a "-") eqn:Ha.
  - apply Ascii.eqb_eq in Ha as ->.
    by destruct (pretty_N_go_ne_dash (N.pos x) "" r).
  - by rewrite Hscan.
Qed.

(** [scan_d] reads back what [%d] prints, and finds no number in the empty
    text. *)
Lemma scan_d_fmt_dZ (n : Z) : scan_d (fmt_dZ n) = Ok n.
Proof.
  destruct n as [|x|x]; [done|apply scan_pretty_pos|].
  unfold fmt_dZ, pretty, pretty_Z.
  destruct (scan_pretty_pos x) as [_ Hscan].
  change (scan_d (String "-" (pretty x))
          = Ok (Z.neg x)).
  unfold scan_d. cbn [Ascii.eqb Bool.eqb].
  change (pretty x) with (pretty (Zpos x)). by rewrite Hscan.
Qed.

Lemma checks_after_connect (p : Probes) :
  let ok c := String.eqb (hc_Status c) "OK" in
  hc_Status (checkIntegrity p) = (if integrity_ok p then "OK" else "ERROR") /\
  existsb (fun c => String.eqb (hc_Status c) "ERROR")
    [checkVersion p; checkWALMode p; checkTables p; checkRowCounts p;
     checkFreeSpace p; checkPerformance p] = false /\
  existsb (fun c => String.eqb (hc_Status c) "WARNING")
    [checkVersion p; checkWALMode p; checkTables p; checkRowCounts p;
     checkFreeSpace p; checkPerformance p] = probes_warn p /\
  forallb ok
    [checkVersion p; checkWALMode p; checkTables p; checkRowCounts p;
     checkFreeSpace p; checkPerformance p] = negb (probes_warn p).
Proof.
  unfold integrity_ok, probes_warn, wal_on, needs_vacuum, slow,
    checkIntegrity, checkVersion, checkWALMode, checkTables, checkRowCounts,
    checkFreeSpace, checkPerformance.
  split.
  { destruct (integrity_check p) as [res|]; [|done].
    by destruct (String.eqb res "ok"). }
  destruct (sqlite_version p); destruct (journal_mode p) as [mode|];
    try destruct (String.eqb mode "wal");
    destruct (table_count p); destruct (table_rows p);
    destruct (freelist_count p) as [n|]; try destruct (100 <? n)%Z;
    destruct (perf_query p);
    destruct (100 * 1000000 <? perf_elapsed p)%Z; done.
Qed.

(** X18. The overall status read off the probes. The report is ERROR
    exactly when the ping fails or the integrity check does not answer
    "ok"; no other probe can make it ERROR. Otherwise it is WARNING as soon
    as one of the six remaining checks has something to say (a probe that
    fails, a journal mode other than wal, more than 100 free pages, a test
    query slower than 100ms), and OK if none has. [IntegrityOK] and
    [WALMode] are set exactly when the ping went through and the probe
    answered "ok", respectively "wal". So a report with status OK has both
    flags set and only checks with status OK. *)
Theorem CheckHealth_status_by_probes (parseIntValue : string -> result Z)
    (path : string) (p : Probes) :
  let report := CheckHealth parseIntValue path p in
  hs_Status report
  = (if reachable p && integrity_ok p
     then if probes_warn p then "WARNING" else "OK"
     else "ERROR") /\
  hs_IntegrityOK report = reachable p && integrity_ok p /\
  hs_WALMode report = reachable p && wal_on p /\
  (hs_Status report = "OK" ->
   hs_IntegrityOK report = true /\ hs_WALMode report = true /\
   Forall (fun c => hc_Status c = "OK") (hs_Checks report)).
Proof.
  pose proof (checks_after_connect p) as (Hi & Herr & Hwarn & Hok).
  assert (Hwal : String.eqb (hc_Value (checkWALMode p)) "wal" = wal_on p).
  { unfold checkWALMode, wal_on.
    destruct (journal_mode p) as [mode|]; [|done].
    by destruct (String.eqb mode "wal") eqn:Hm. }
  unfold CheckHealth, reachable, checkConnectivity.
  destruct (ping p) as [e|]; [by cbn|].
  cbn [hc_Status String.eqb Ascii.eqb Bool.eqb hs_Status hs_IntegrityOK
       hs_WALMode hs_Checks andb].
  rewrite Hwal, Hi.
  destruct (integrity_ok p) eqn:Hint.
  - cbn [String.eqb Ascii.eqb Bool.eqb].
    rewrite (HealthProperties.overall_from _ false).
    unfold has_status. cbn [existsb hc_Status String.eqb Ascii.eqb Bool.eqb orb].
    rewrite Hi. cbn [String.eqb Ascii.eqb Bool.eqb orb].
    cbn [existsb] in Herr, Hwarn. rewrite Herr, Hwarn.
    split; [done|]. split; [done|]. split; [done|].
    destruct (probes_warn p) eqn:Hquiet; [done|]. intros _.
    split; [done|]. split.
    { unfold probes_warn in Hquiet. destruct (wal_on p); [done|].
      destruct (is_ok (sqlite_version p)); simpl in Hquiet; done. }
    constructor; [done|]. constructor; [by rewrite Hi|].
    cbn [forallb negb] in Hok.
    repeat (apply andb_true_iff in Hok as [Hc Hok];
            apply String.eqb_eq in Hc; constructor; [exact Hc|]; clear Hc).
    constructor.
  - cbn [String.eqb Ascii.eqb Bool.eqb].
    rewrite HealthProperties.overall_ERROR. done.
Qed.

(** X19. The recommendations read off the probes. With a failing ping
    there is none. Otherwise they are, in this order and each at most once:
    the advice to enable WAL unless the journal mode was read as "wal", the
    advice to VACUUM when more than 100 free pages were counted or the
    free pages could not be counted at all, the advice to ANALYZE when the
    file is larger than 100 MiB, and the advice on indexes when the
    report's total row count exceeds 10000. A failed integrity check does
    not suppress them. *)
Theorem CheckHealth_recommendations (parseIntValue : string -> result Z)
    (path : string) (p : Probes) :
  let report := CheckHealth parseIntValue path p in
  hs_Recommendations report
  = (if reachable p then
       recommend (negb (wal_on p)) wal_advice
       ++ recommend (free_space_warns p) vacuum_advice
       ++ recommend (100 * 1024 * 1024 <? hs_DatabaseSize report)%Z
            analyze_advice
       ++ recommend (10000 <? hs_TotalRows report)%Z index_advice
     else []) /\
  NoDup (hs_Recommendations report).
Proof.
  assert (Hwal : String.eqb (hc_Value (checkWALMode p)) "wal" = wal_on p).
  { unfold checkWALMode, wal_on.
    destruct (journal_mode p) as [mode|]; [|done].
    by destruct (String.eqb mode "wal") eqn:Hm. }
  assert (Hfree :
    String.eqb (hc_Name (checkFreeSpace p)) "Free Space"
    && String.eqb (hc_Status (checkFreeSpace p)) "WARNING"
    = free_space_warns p).
  { unfold checkFreeSpace, free_space_warns, needs_vacuum.
    destruct (freelist_count p) as [n|]; [|done].
    by destruct (100 <? n)%Z. }
  assert (Hnames :
    Forall (fun c => String.eqb (hc_Name c) "Free Space" = false)
      [checkConnectivity p; checkIntegrity p; checkVersion p;
       checkWALMode p; checkTables p; checkRowCounts p;
       checkPerformance p]).
  { unfold checkConnectivity, checkIntegrity, checkVersion, checkWALMode,
      checkTables, checkRowCounts, checkPerformance.
    repeat (constructor; [by repeat case_match|]). constructor. }
  set (report := CheckHealth parseIntValue path p).
  assert (Heq :
    hs_Recommendations report
    = (if reachable p then
         recommend (negb (wal_on p)) wal_advice
         ++ recommend (free_space_warns p) vacuum_advice
         ++ recommend (100 * 1024 * 1024 <? hs_DatabaseSize report)%Z
              analyze_advice
         ++ recommend (10000 <? hs_TotalRows report)%Z index_advice
       else [])).
  { unfold report, CheckHealth, reachable, checkConnectivity.
    destruct (ping p) as [e|]; [by cbn|].
    cbn [hc_Status String.eqb Ascii.eqb Bool.eqb hs_Recommendations
         hs_DatabaseSize hs_TotalRows].
    unfold generateRecommendations.
    cbn [hs_WALMode hs_Checks hs_DatabaseSize hs_TotalRows flat_map].
    rewrite Hwal, Hfree.
    repeat match goal with
           | H : Forall _ (_ :: _) |- _ =>
               apply Forall_cons in H as [? H]
           end.
    repeat match goal with
           | H : String.eqb _ "Free Space" = false |- _ =>
               rewrite H; clear H
           end.
    cbn [hc_Name hc_Status String.eqb Ascii.eqb Bool.eqb andb app].
    rewrite app_nil_r.
    unfold recommend. by destruct (wal_on p). }
  split; [exact Heq|]. rewrite Heq.
  destruct (reachable p); [|constructor].
  unfold recommend.
  destruct (negb (wal_on p)), (free_space_warns p),
    (100 * 1024 * 1024 <? hs_DatabaseSize report)%Z,
    (10000 <? hs_TotalRows report)%Z; cbn [app];
    apply (bool_decide_unpack _); by vm_compute.
Qed.

(** X20. The counts of the report. When [parseIntValue] reads back what
    [%d] prints and finds no number in the empty text, a report whose ping
    went through carries as [TableCount] the answer of the table count
    probe and as [TotalRows] the sum of the row counts of the tables that
    could be counted, a table that could not be counted adding nothing;
    either is 0 when its probe failed, and both are 0 when the ping
    failed. *)
Theorem CheckHealth_counts (parseIntValue : string -> result Z)
    (path : string) (p : Probes) :
  (forall n, parseIntValue (fmt_dZ n) = Ok n) ->
  is_ok (parseIntValue "") = false ->
  let report := CheckHealth parseIntValue path p in
  hs_TableCount report
  = (if reachable p
     then match table_count p with Ok n => n | Err _ => 0 end
     else 0)%Z /\
  hs_TotalRows report
  = (if reachable p
     then match table_rows p with
          | Ok rows => foldr Z.add 0 (omap id rows)
          | Err _ => 0
          end
     else 0)%Z.
Proof.
  intros Hread Hempty.
  assert (Hsum : forall rows total,
    foldl (fun total c => match c with
                          | Some rowCount => (total + rowCount)%Z
                          | None => total
                          end) total rows
    = (total + foldr Z.add 0 (omap id rows))%Z).
  { induction rows as [|[n|] rows IH]; intros total; cbn.
    - lia.
    - rewrite IH. lia.
    - apply IH. }
  unfold CheckHealth, reachable, checkConnectivity.
  destruct (ping p) as [e|]; [by cbn|].
  cbn [hc_Status String.eqb Ascii.eqb Bool.eqb hs_TableCount hs_TotalRows].
  unfold parsed_or, checkTables, checkRowCounts, sum_counts.
  split.
  - destruct (table_count p) as [n|]; cbn [hc_Value].
    + by rewrite Hread.
    + by destruct (parseIntValue "").
  - destruct (table_rows p) as [rows|]; cbn [hc_Value].
    + rewrite Hread, Hsum. lia.
    + by destruct (parseIntValue "").
Qed.

End HealthReportProperties.

Lemma CheckHealth_counts_witness :
  ((forall n, HealthReading.scan_d (fmt_dZ n) = Ok n) /\
   is_ok (HealthReading.scan_d "") = false) /\
  Health.hs_TotalRows
    (Health.CheckHealth HealthReading.scan_d "gogo.db"
       HealthReading.fine_probes) = 42%Z.
Proof.
  split;
    [split; [exact HealthReportProperties.scan_d_fmt_dZ | reflexivity]|].
  exact (proj2 (HealthReportProperties.CheckHealth_counts
                  HealthReading.scan_d "gogo.db" HealthReading.fine_probes
                  HealthReportProperties.scan_d_fmt_dZ eq_refl)).
Defined.

(** A database in good order gets OK and no advice; a long free list and a
    rollback journal get WARNING and two pieces of advice. *)
Example health_of_two_databases :
  let report := Health.CheckHealth HealthReading.scan_d "gogo.db" in
  (Health.hs_Status (report HealthReading.fine_probes),
   Health.hs_Recommendations (report HealthReading.fine_probes),
   Health.hs_TableCount (report HealthReading.fine_probes))
  = ("OK", [], 6%Z) /\
  (Health.hs_Status (report HealthReading.worn_probes),
   Health.hs_Recommendations (report HealthReading.worn_probes))
  = ("WARNING", [HealthReading.wal_advice; HealthReading.vacuum_advice]).
Proof. by vm_compute. Qed.

(** ** Open and its migrations *)

Section StorageOpenProperties.

Variable exec_on_db : string -> Store -> option error * Store.

Lemma run_migrations_app (i : nat) (done rest : list string) (s : Store) :
  run_migrations exec_on_db i (done ++ rest) s
  = match run_migrations exec_on_db i done s with
    | (None, s') => run_migrations exec_on_db (i + length done) rest s'
    | (Some err, s') => (Some err, s')
    end.
Proof.
  revert i s. induction done as [|migration done IH]; intros i s.
  - cbn. by rewrite Nat.add_0_r.
  - cbn [app run_migrations length].
    destruct (exec_on_db migration s) as [[err|] s']; [done|].
    rewrite IH. by replace (S i + length done) with (i + S (length done)) by lia.
Qed.

(** X21. [Open] stops at the first schema statement that fails and keeps
    what was done until then. When the statements before one of the seven
    go through and that one fails, [Open] returns "failed to run
    migrations: migration <n> failed: <cause>", [n] being the position of
    the statement counted from 1, none of the later statements is run, and
    the database holds what the earlier statements and the failing call
    left: nothing is rolled back. When all seven go through, [Open]
    succeeds on the store they leave. *)
Theorem Open_stops_at_first_failing_migration (path : string) (s : Store)
    (done : list string) (failing : string) (rest : list string)
    (s_k s_fail : Store) (err : error) :
  schema_migrations = done ++ failing :: rest ->
  run_migrations exec_on_db 0 done s = (None, s_k) ->
  exec_on_db failing s_k = (Some err, s_fail) ->
  Open exec_on_db None None path s
  = (Some (Wrap "failed to run migrations"
             (Wrap ("migration " +:+ fmt_d (length done + 1) +:+ " failed")
                err)),
     Some {| Storage.db := s_fail; Storage.path := path |}) /\
  1 <= length done + 1 <= 7.
Proof.
  intros Hsplit Hdone Hfail. split.
  - unfold Open, migrate. rewrite Hsplit, run_migrations_app, Hdone.
    cbn [run_migrations]. rewrite Hfail. done.
  - apply (f_equal length) in Hsplit.
    rewrite length_app in Hsplit. cbn in Hsplit. lia.
Qed.

(** [Open] succeeds exactly when no statement of the schema fails. *)
Lemma Open_ok_iff (path : string) (s : Store) :
  (Open exec_on_db None None path s).1 = None
  <-> (run_migrations exec_on_db 0 schema_migrations s).1 = None.
Proof.
  unfold Open, migrate. cbn [fst].
  by destruct (run_migrations exec_on_db 0 schema_migrations s) as [[e|] s'].
Qed.

End StorageOpenProperties.

Lemma Open_stops_at_first_failing_migration_witness :
  let created := (toy_on_db Schema.createTemplatesTable empty_store).2 in
  (schema_migrations
   = [Schema.createTemplatesTable] ++ Schema.createBlueprintsTable
       :: [Schema.createConfigsTable; Schema.createHooksTable;
           Schema.createPluginsTable; Schema.createAuditsTable;
           Schema.createIndexes] /\
   run_migrations toy_on_db 0 [Schema.createTemplatesTable] empty_store
   = (None, created) /\
   toy_on_db Schema.createBlueprintsTable created
   = (Some (EngineError "table IF already exists"), created)) /\
  (Open toy_on_db None None "gogo.db" empty_store).1
  = Some (Wrap "failed to run migrations"
            (Wrap "migration 2 failed"
               (EngineError "table IF already exists"))).
Proof.
  split; [by vm_compute|].
  exact (f_equal fst
           (proj1 (Open_stops_at_first_failing_migration toy_on_db "gogo.db"
                     empty_store [Schema.createTemplatesTable]
                     Schema.createBlueprintsTable
                     [Schema.createConfigsTable; Schema.createHooksTable;
                      Schema.createPluginsTable; Schema.createAuditsTable;
                      Schema.createIndexes]
                     (toy_on_db Schema.createTemplatesTable empty_store).2
                     (toy_on_db Schema.createTemplatesTable empty_store).2
                     (EngineError "table IF already exists")
                     eq_refl eq_refl eq_refl))).
Defined.

(** ** Backup and restore *)

Module BackupRestoreProperties.
Import Backup BackupRestore.

Lemma length_sapp (s t : string) :
  String.length (s +:+ t) = String.length s + String.length t.
Proof.
  induction s as [|a s IH]; [done|].
  rewrite sapp_cons. cbn [String.length]. by rewrite IH.
Qed.

Lemma safety_path_fresh (now : Z) (path : string) :
  safety_path now path <> path.
Proof.
  unfold safety_path. intros Heq. apply (f_equal String.length) in Heq.
  rewrite !length_sapp in Heq. cbn [String.length] in Heq. lia.
Qed.

Section Operations.

Variable now : Z.
Variable Base : string -> string.
Variable gzip_encode : string -> Z -> string -> string.
Variable gzip_NewReader : string -> option error.
Variable gzip_read : string -> string -> string * option error.
Variable sqlite_session : gmap string File -> string -> Session.

Lemma read_all_lookup (files : gmap string File) (path : string)
    (file : File) :
  files !! path = Some file -> read_all files path = content file.
Proof. unfold read_all. by intros ->. Qed.

Lemma read_all_created (files : gmap string File) (src dst : string)
    (file : File) :
  files !! src = Some file ->
  read_all (<[dst := mkFile "" now]> files) src
  = if decide (dst = src) then "" else content file.
Proof.
  intros Hsrc. unfold read_all. destruct (decide (dst = src)) as [->|Hne].
  - by rewrite lookup_insert_eq.
  - by rewrite lookup_insert_ne, Hsrc.
Qed.

(** [backupRaw] and [backupCompressed] change no file but the output. *)
Lemma backupRaw_frame (f : OSFaults) (path : string) (opts : BackupOptions.t)
    (files : gmap string File) (p : string) :
  p <> BackupOptions.OutputPath opts ->
  (backupRaw f now path opts files).2 !! p = files !! p.
Proof.
  intros Hp. unfold backupRaw, os_Create, copy_file, write_all.
  destruct (os_Open f files path); [done|].
  destruct (os_create_err f _); [done|].
  destruct (os_copy_err f) as [[partial err]|]; cbn [snd];
    by rewrite !lookup_insert_ne.
Qed.

Lemma backupCompressed_frame (f : OSFaults) (path : string)
    (opts : BackupOptions.t) (files : gmap string File) (p : string) :
  p <> BackupOptions.OutputPath opts ->
  (backupCompressed f now Base gzip_encode path opts files).2 !! p
  = files !! p.
Proof.
  intros Hp. unfold backupCompressed, os_Create, write_all.
  destruct (os_Open f files path); [done|].
  destruct (os_create_err f _); [done|].
  destruct (os_copy_err f) as [[partial err]|]; cbn [snd];
    [by rewrite !lookup_insert_ne|].
  destruct (gz_close_err f) as [[partial err]|]; cbn [snd];
    by rewrite !lookup_insert_ne.
Qed.

(** X22. Without verification, [Backup] changes no file but the one at the
    output path, whatever goes wrong on the way; and when there is no
    database at its path it fails with "source database does not exist"
    before touching anything, the output path included. *)
Theorem Backup_writes_only_output (f : OSFaults) (path : string)
    (opts : BackupOptions.t) (files : gmap string File) :
  BackupOptions.Verify opts = false ->
  let r := Backup f now Base gzip_encode gzip_NewReader gzip_read
             sqlite_session path opts files in
  (forall p, p <> BackupOptions.OutputPath opts -> r.2 !! p = files !! p) /\
  (files !! path = None ->
   r = (Some (Errorf ("source database does not exist: " +:+ path)), files)).
Proof.
  intros Hverify r. unfold r, Backup. rewrite Hverify. split.
  - intros p Hp. destruct (files !! path) as [file|]; [|done].
    destruct (os_mkdir_err f _); [done|].
    pose proof (backupRaw_frame f path opts files p Hp) as Hraw.
    pose proof (backupCompressed_frame f path opts files p Hp) as Hgz.
    destruct (BackupOptions.Compress opts); unfold wrapped; cbn [fst snd].
    + destruct (backupCompressed f now Base gzip_encode path opts files)
        as [[err|] files']; done.
    + destruct (backupRaw f now path opts files) as [[err|] files']; done.
  - by intros ->.
Qed.

(** X23. What a backup holds. When the database is there and the system
    refuses nothing, [Backup] without verification succeeds and leaves at
    the output path, stamped with the time of the backup, the content of
    the database, passed through gzip under the base name of the database
    when compression is asked for; all other files are as before. When the
    output path is the path of the database itself, the file is emptied
    before it is read: the backup succeeds and the database is gone, what
    is left being the empty file, or the gzip stream of no data. *)
Theorem Backup_writes_copy (f : OSFaults) (path : string)
    (opts : BackupOptions.t) (files : gmap string File) (file : File) :
  files !! path = Some file ->
  os_mkdir_err f (BackupOptions.OutputPath opts) = None ->
  os_open_err f path = None ->
  os_create_err f (BackupOptions.OutputPath opts) = None ->
  os_copy_err f = None -> gz_close_err f = None -> os_sync_err f = None ->
  BackupOptions.Verify opts = false ->
  let data :=
    if decide (BackupOptions.OutputPath opts = path) then ""
    else content file in
  Backup f now Base gzip_encode gzip_NewReader gzip_read sqlite_session
    path opts files
  = (None,
     <[BackupOptions.OutputPath opts :=
         mkFile (if BackupOptions.Compress opts
                 then gzip_encode (Base path) now data
                 else data) now]> files).
Proof.
  intros Hfile Hmkdir Hopen Hcreate Hcopy Hclose Hsync Hverify data.
  unfold Backup. rewrite Hfile, Hmkdir, Hverify.
  unfold backupCompressed, backupRaw, copy_file, os_Open, os_Create,
    write_all, wrapped.
  rewrite Hfile, Hopen, Hcreate, Hcopy, Hclose, Hsync.
  rewrite (read_all_created files path _ file Hfile).
  destruct (BackupOptions.Compress opts); cbn [fst snd option_map];
    by rewrite insert_insert_eq.
Qed.

Lemma isCompressedFile_lookup (open_err : option error)
    (files : gmap string File) (path : string) (file : File) :
  files !! path = Some file ->
  isCompressedFile open_err files path
  = match open_err with
    | Some e => Err (Wrap "failed to open file" e)
    | None =>
        match content file with
        | EmptyString =>
            Err (Wrap "failed to read file header" (EngineError "EOF"))
        | _ => Ok (gzip_magic (content file))
        end
    end.
Proof.
  intros Hfile. unfold isCompressedFile. rewrite Hfile.
  destruct open_err; [done|].
  destruct (content file) as [|a [|b c]]; cbn; [done| |done].
  by rewrite andb_false_r.
Qed.

Lemma restoreRaw_frame (f : OSFaults) (path : string)
    (opts : RestoreOptions.t) (files : gmap string File) (p : string) :
  p <> path ->
  (restoreRaw f now path opts files).2 !! p = files !! p.
Proof.
  intros Hp. unfold restoreRaw, os_Create, copy_file, write_all.
  destruct (os_mkdir_err f path); [done|].
  destruct (os_Open f files _); [done|].
  destruct (os_create_err f _); [done|].
  destruct (os_copy_err f) as [[partial err]|]; cbn [snd];
    by rewrite !lookup_insert_ne.
Qed.

Lemma restoreCompressed_frame (f : OSFaults) (path : string)
    (opts : RestoreOptions.t) (files : gmap string File) (p : string) :
  p <> path ->
  (restoreCompressed f now gzip_NewReader gzip_read path opts files).2 !! p
  = files !! p.
Proof.
  intros Hp. unfold restoreCompressed, os_Create, write_all.
  destruct (os_mkdir_err f path); [done|].
  destruct (os_Open f files _); [done|].
  destruct (gzip_NewReader _); [done|].
  destruct (os_create_err f _); [done|].
  destruct (os_copy_err f) as [[partial err]|]; cbn [snd];
    [by rewrite !lookup_insert_ne|].
  destruct (gzip_read _ _) as [data [err|]]; cbn [fst snd];
    by rewrite !lookup_insert_ne.
Qed.

Lemma backupRaw_cases (f : OSFaults) (path : string) (opts : BackupOptions.t)
    (files : gmap string File) (old : File) :
  files !! path = Some old ->
  BackupOptions.OutputPath opts <> path ->
  let r := backupRaw f now path opts files in
  (is_Some r.1 /\ r.2 !! path = Some old) \/
  r = (None, <[BackupOptions.OutputPath opts := mkFile (content old) now]> files).
Proof.
  intros Hold Hne r. unfold r, backupRaw, os_Open, os_Create, copy_file,
    write_all.
  rewrite Hold.
  destruct (os_open_err f path); [left; eauto|].
  destruct (os_create_err f _); [left; eauto|].
  rewrite (read_all_created files path _ old Hold).
  rewrite decide_False by done.
  destruct (os_copy_err f) as [[partial err]|]; cbn [fst snd].
  { left. split; [eauto|]. by rewrite !lookup_insert_ne. }
  destruct (os_sync_err f) as [err|].
  - left. split; [eauto|]. by rewrite !lookup_insert_ne.
  - right. by rewrite insert_insert_eq.
Qed.

Lemma wrapped_None (what : string) (files : gmap string File) :
  wrapped what (None, files) = (None, files).
Proof. reflexivity. Qed.

Lemma wrapped_fst (what : string) (r : option error * gmap string File) :
  is_Some (wrapped what r).1 <-> is_Some r.1.
Proof.
  destruct r as [[err|] files]; cbn; split; intros [x Hx]; eauto;
    discriminate.
Qed.

(** X24. [Restore] refuses a backup that is not there, and a database that
    is there unless it is forced, in both cases before touching anything;
    and without verification it changes no file but the database and the
    safety copy beside it, whatever goes wrong on the way. *)
Theorem Restore_touches_only_database (f : OSFaults) (path : string)
    (opts : RestoreOptions.t) (files : gmap string File) :
  let r := Restore f now gzip_NewReader gzip_read sqlite_session path opts
             files in
  (files !! RestoreOptions.BackupPath opts = None ->
   r = (Some (Errorf ("backup file does not exist: "
                        +:+ RestoreOptions.BackupPath opts)), files)) /\
  (is_Some (files !! RestoreOptions.BackupPath opts) ->
   is_Some (files !! path) -> RestoreOptions.Force opts = false ->
   r = (Some (Errorf ("destination database already exists: " +:+ path
                        +:+ " (use --force to overwrite)")), files)) /\
  (RestoreOptions.Verify opts = false ->
   forall p, p <> path -> p <> safety_path now path ->
   r.2 !! p = files !! p).
Proof.
  intros r. unfold r, Restore. split; [by intros ->|]. split.
  - intros [backup ->] Hdest ->.
    by rewrite (bool_decide_eq_true_2 _ Hdest).
  - intros Hverify p Hp Hsafe. rewrite Hverify.
    destruct (files !! RestoreOptions.BackupPath opts) as [backup|]; [|done].
    destruct (bool_decide (is_Some (files !! path))
              && negb (RestoreOptions.Force opts)); [done|].
    set (saved := if RestoreOptions.CreateBackup opts
                     && bool_decide (is_Some (files !! path))
                  then _ else _).
    assert (Hsaved : saved.2 !! p = files !! p).
    { unfold saved.
      destruct (RestoreOptions.CreateBackup opts
                && bool_decide (is_Some (files !! path))); [|done].
      unfold wrapped. cbn [snd]. by apply backupRaw_frame. }
    destruct saved as [[err|] saved2]; cbn [fst snd] in *; [done|].
    destruct (isCompressedFile _ saved2 _) as [isCompressed|err]; [|done].
    assert (Hstep :
      ((if isCompressed
        then wrapped "compressed restore failed"
               (restoreCompressed f now gzip_NewReader gzip_read path opts
                  saved2)
        else wrapped "raw restore failed"
               (restoreRaw f now path opts saved2)).2 !! p) = saved2 !! p).
    { destruct isCompressed; unfold wrapped; cbn [snd].
      - by apply restoreCompressed_frame.
      - by apply restoreRaw_frame. }
    destruct (if isCompressed then _ else _) as [[err|] files'];
      cbn [fst snd] in *; by rewrite Hstep.
Qed.

(** X25. The database is not overwritten before its safety copy is
    complete. When [Restore] is forced onto a database that is there and a
    copy is asked for, then either it fails with "failed to backup existing
    database" and the database is as it was, or, however the restore ends,
    the file named <path>.backup.<time> holds what the database held. *)
Theorem Restore_keeps_safety_copy (f : OSFaults) (path : string)
    (opts : RestoreOptions.t) (files : gmap string File)
    (backup old : File) :
  files !! RestoreOptions.BackupPath opts = Some backup ->
  files !! path = Some old ->
  RestoreOptions.Force opts = true ->
  RestoreOptions.CreateBackup opts = true ->
  RestoreOptions.Verify opts = false ->
  let r := Restore f now gzip_NewReader gzip_read sqlite_session path opts
             files in
  (exists err, r.1 = Some (Wrap "failed to backup existing database" err)
               /\ r.2 !! path = Some old) \/
  r.2 !! safety_path now path = Some (mkFile (content old) now).
Proof.
  intros Hbackup Hold Hforce Hkeep Hverify r.
  unfold r, Restore. rewrite Hbackup, Hold, Hforce, Hkeep, Hverify.
  rewrite (bool_decide_eq_true_2 _ (mk_is_Some _ _ eq_refl)).
  cbn [andb negb].
  pose proof (safety_path_fresh now path) as Hfresh.
  pose proof (backupRaw_cases f path
                {| BackupOptions.OutputPath := safety_path now path;
                   BackupOptions.Compress := false;
                   BackupOptions.Verify := false;
                   BackupOptions.Verbose := RestoreOptions.Verbose opts |}
                files old Hold Hfresh) as Hcases.
  cbv zeta in Hcases. cbn [BackupOptions.OutputPath] in Hcases.
  destruct Hcases as [[[err Herr] Hsame] | Hdone].
  - left. exists err. unfold wrapped. rewrite Herr. cbn [fst snd option_map].
    done.
  - right. rewrite Hdone, !wrapped_None. cbn [fst snd].
    set (saved := <[safety_path now path := mkFile (content old) now]> files).
    assert (Hsaved : saved !! safety_path now path
                     = Some (mkFile (content old) now))
      by apply lookup_insert_eq.
    destruct (isCompressedFile _ saved _) as [isCompressed|err];
      [|done].
    assert (Hstep :
      ((if isCompressed
        then wrapped "compressed restore failed"
               (restoreCompressed f now gzip_NewReader gzip_read path opts
                  saved)
        else wrapped "raw restore failed"
               (restoreRaw f now path opts saved)).2
         !! safety_path now path) = saved !! safety_path now path).
    { destruct isCompressed; unfold wrapped; cbn [snd].
      - by apply restoreCompressed_frame.
      - by apply restoreRaw_frame. }
    destruct (if isCompressed then _ else _) as [[err|] files'];
      cbn [fst snd] in *; by rewrite Hstep.
Qed.

(** With a system that refuses nothing, a forced [Restore] without
    verification from a backup that is not empty, is not the database
    itself and is not overwritten by the safety copy, succeeds and leaves
    as the database what the backup holds, unpacked if it starts with the
    gzip magic. *)
Lemma Restore_installs (path : string) (opts : RestoreOptions.t)
    (files : gmap string File) (backup : File) :
  files !! RestoreOptions.BackupPath opts = Some backup ->
  RestoreOptions.BackupPath opts <> path ->
  RestoreOptions.Force opts = true ->
  RestoreOptions.Verify opts = false ->
  (RestoreOptions.CreateBackup opts = true ->
   RestoreOptions.BackupPath opts <> safety_path now path) ->
  content backup <> "" ->
  (gzip_magic (content backup) = true ->
   gzip_NewReader (content backup) = None /\
   (gzip_read (content backup) (content backup)).2 = None) ->
  let r := Restore no_os_faults now gzip_NewReader gzip_read sqlite_session
             path opts files in
  r.1 = None /\
  r.2 !! path
  = Some (mkFile (if gzip_magic (content backup)
                  then (gzip_read (content backup) (content backup)).1
                  else content backup) now).
Proof.
  intros Hbackup Hne Hforce Hverify Hsafe Hcontent Hcodec r.
  unfold r, Restore. rewrite Hbackup, Hforce, Hverify, andb_false_r.
  set (saved := if RestoreOptions.CreateBackup opts
                   && bool_decide (is_Some (files !! path))
                then _ else _).
  assert (Hsaved : exists saved2,
             saved = (None, saved2)
             /\ saved2 !! RestoreOptions.BackupPath opts = Some backup).
  { unfold saved.
    destruct (RestoreOptions.CreateBackup opts) eqn:Hkeep; cbn [andb];
      [|by eauto].
    case_bool_decide as Hdest; [|by eauto].
    destruct Hdest as [old Hold].
    pose proof (backupRaw_cases no_os_faults path
                  {| BackupOptions.OutputPath := safety_path now path;
                     BackupOptions.Compress := false;
                     BackupOptions.Verify := false;
                     BackupOptions.Verbose := RestoreOptions.Verbose opts |}
                  files old Hold (safety_path_fresh now path)) as Hcases.
    cbv zeta in Hcases. cbn [BackupOptions.OutputPath] in Hcases.
    destruct Hcases as [[[err Herr] _] | Hdone].
    - unfold backupRaw, os_Open, os_Create, copy_file in Herr.
      rewrite Hold in Herr. cbn in Herr. discriminate Herr.
    - rewrite Hdone, wrapped_None. eexists. split; [done|].
      rewrite lookup_insert_ne; [done|]. intros Heq. by apply Hsafe. }
  destruct Hsaved as (saved2 & -> & Hsaved2). cbn [fst snd].
  rewrite (isCompressedFile_lookup _ saved2 _ backup Hsaved2).
  cbn [os_open_err no_os_faults].
  destruct (content backup) as [|a c] eqn:Hc; [done|]. rewrite <- Hc in *.
  assert (Hread :
    read_all (<[path := mkFile "" now]> saved2)
      (RestoreOptions.BackupPath opts) = content backup).
  { unfold read_all. by rewrite lookup_insert_ne, Hsaved2. }
  destruct (gzip_magic (content backup)) eqn:Hmagic.
  - destruct (Hcodec eq_refl) as [Hheader Hbody].
    unfold restoreCompressed, os_Open, os_Create, write_all, wrapped.
    rewrite Hsaved2. cbn [os_mkdir_err os_open_err os_create_err os_copy_err
                          os_sync_err no_os_faults].
    rewrite (read_all_lookup saved2 _ backup Hsaved2), Hheader, Hread, Hbody.
    cbn [fst snd option_map]. split; [done|]. apply lookup_insert_eq.
  - unfold restoreRaw, os_Open, os_Create, copy_file, write_all, wrapped.
    rewrite Hsaved2. cbn [os_mkdir_err os_open_err os_create_err os_copy_err
                          os_sync_err no_os_faults].
    rewrite Hread. cbn [fst snd option_map]. split; [done|].
    apply lookup_insert_eq.
Qed.

End Operations.

(** X26. Backup and restore are inverse. A backup taken without
    verification of a database, raw or compressed, to another path, and
    restored later by force onto any path but its own, whatever has become
    of the other files in between, succeeds and gives a database with the
    content the database had when the backup was taken. For a raw backup
    this needs the database not to be empty and not to start with the
    bytes 0x1f 0x8b; for a compressed one it needs gzip to read back what it
    wrote. When the restore is to keep a copy of what it overwrites, that
    copy must not be named like the backup. *)
Theorem Backup_Restore_round_trip (now later_on : Z) (Base : string -> string)
    (gzip_encode : string -> Z -> string -> string)
    (gzip_NewReader : string -> option error)
    (gzip_read : string -> string -> string * option error)
    (sqlite_session : gmap string File -> string -> Session)
    (path dest : string) (bopts : BackupOptions.t) (ropts : RestoreOptions.t)
    (files later : gmap string File) (file : File) :
  let out := BackupOptions.OutputPath bopts in
  let packed :=
    if BackupOptions.Compress bopts
    then gzip_encode (Base path) now (content file)
    else content file in
  files !! path = Some file ->
  out <> path ->
  BackupOptions.Verify bopts = false ->
  (if BackupOptions.Compress bopts
   then gzip_magic packed = true /\ gzip_NewReader packed = None
        /\ gzip_read packed packed = (content file, None)
   else content file <> "" /\ gzip_magic (content file) = false) ->
  later !! out
  = (Backup no_os_faults now Base gzip_encode gzip_NewReader gzip_read
       sqlite_session path bopts files).2 !! out ->
  RestoreOptions.BackupPath ropts = out ->
  dest <> out ->
  RestoreOptions.Force ropts = true ->
  RestoreOptions.Verify ropts = false ->
  (RestoreOptions.CreateBackup ropts = true ->
   out <> safety_path later_on dest) ->
  let r := Restore no_os_faults later_on gzip_NewReader gzip_read
             sqlite_session dest ropts later in
  r.1 = None /\ r.2 !! dest = Some (mkFile (content file) later_on).
Proof.
  intros out packed Hfile Hout Hbv Hcodec Hlater Hfrom Hdest Hforce Hrv Hsafe r.
  assert (Hkept : later !! out = Some (mkFile packed now)).
  { rewrite Hlater. unfold Backup. rewrite Hfile, Hbv.
    unfold backupCompressed, backupRaw, copy_file, os_Open, os_Create,
      write_all, wrapped.
    rewrite Hfile. cbn [os_mkdir_err os_open_err os_create_err os_copy_err
                        gz_close_err os_sync_err no_os_faults].
    rewrite (read_all_created now files path _ file Hfile).
    fold out. rewrite decide_False by done. unfold packed.
    destruct (BackupOptions.Compress bopts); cbn [fst snd option_map];
      apply lookup_insert_eq. }
  assert (Hnonempty : packed <> "").
  { unfold packed in *. destruct (BackupOptions.Compress bopts).
    - destruct Hcodec as [Hmagic _].
      by destruct (gzip_encode (Base path) now (content file)).
    - by destruct Hcodec. }
  rewrite <- Hfrom in Hkept, Hdest, Hsafe.
  pose proof (Restore_installs later_on gzip_NewReader gzip_read
                sqlite_session dest ropts later (mkFile packed now) Hkept
                (not_eq_sym Hdest) Hforce Hrv Hsafe Hnonempty) as Hinstall.
  cbn [content] in Hinstall. unfold r.
  unfold packed in *. destruct (BackupOptions.Compress bopts).
  - destruct Hcodec as (Hmagic & Hheader & Hbody).
    rewrite Hmagic, Hbody in Hinstall. apply Hinstall.
    intros _. done.
  - destruct Hcodec as [_ Hmagic]. rewrite Hmagic in Hinstall.
    apply Hinstall. intros Habs. discriminate Habs.
Qed.

(** X27. The backup of an empty database cannot be restored. A raw backup
    of a database file of no bytes writes an empty file; with verification
    it reports "backup verification failed: failed to read file header:
    EOF", without it it reports success. Whatever the system does, a
    later [Restore] from that file fails and leaves the database it was to
    replace as it was. *)
Theorem Backup_of_empty_database (now : Z) (Base : string -> string)
    (gzip_encode : string -> Z -> string -> string)
    (gzip_NewReader : string -> option error)
    (gzip_read : string -> string -> string * option error)
    (sqlite_session : gmap string File -> string -> Session)
    (path : string) (bopts : BackupOptions.t) (files : gmap string File)
    (file : File) :
  let out := BackupOptions.OutputPath bopts in
  files !! path = Some file ->
  content file = "" ->
  out <> path ->
  BackupOptions.Compress bopts = false ->
  let b := Backup no_os_faults now Base gzip_encode gzip_NewReader gzip_read
             sqlite_session path bopts files in
  b.2 = <[out := mkFile "" now]> files /\
  b.1 = (if BackupOptions.Verify bopts
         then Some (Wrap "backup verification failed"
                      (Wrap "failed to read file header" (EngineError "EOF")))
         else None) /\
  forall (f : OSFaults) (later_on : Z) (dest : string)
         (ropts : RestoreOptions.t) (later : gmap string File),
    later !! out = b.2 !! out ->
    RestoreOptions.BackupPath ropts = out ->
    (RestoreOptions.CreateBackup ropts = true ->
     out <> safety_path later_on dest) ->
    let r := Restore f later_on gzip_NewReader gzip_read sqlite_session
               dest ropts later in
    is_Some r.1 /\ r.2 !! dest = later !! dest.
Proof.
  intros out Hfile Hempty Hout Hraw b.
  assert (Hb : b = (if BackupOptions.Verify bopts
                    then Some (Wrap "backup verification failed"
                                 (Wrap "failed to read file header"
                                    (EngineError "EOF")))
                    else None,
                    <[out := mkFile "" now]> files)).
  { unfold b, Backup. rewrite Hfile, Hraw.
    unfold backupRaw, copy_file, os_Open, os_Create, write_all, wrapped.
    rewrite Hfile. cbn [os_mkdir_err os_open_err os_create_err os_copy_err
                        os_sync_err no_os_faults].
    rewrite (read_all_created now files path _ file Hfile).
    fold out. rewrite decide_False by done. rewrite Hempty.
    cbn [fst snd option_map]. rewrite insert_insert_eq.
    destruct (BackupOptions.Verify bopts); [|done].
    unfold verifyBackup.
    rewrite (isCompressedFile_lookup _ _ _ (mkFile "" now))
      by apply lookup_insert_eq.
    done. }
  rewrite Hb. cbn [fst snd]. split; [done|]. split; [done|].
  intros f later_on dest ropts later Hlater Hfrom Hsafe.
  rewrite lookup_insert_eq in Hlater.
  unfold Restore. rewrite Hfrom, Hlater.
  destruct (bool_decide (is_Some (later !! dest))
            && negb (RestoreOptions.Force ropts)) eqn:Hrefuse;
    [split; [eauto|done]|].
  set (saved := if RestoreOptions.CreateBackup ropts
                   && bool_decide (is_Some (later !! dest))
                then _ else _).
  assert (Hsaved :
    (is_Some saved.1 \/ saved.2 !! out = Some (mkFile "" now))
    /\ saved.2 !! dest = later !! dest).
  { unfold saved.
    destruct (RestoreOptions.CreateBackup ropts) eqn:Hkeep; cbn [andb];
      [|by auto].
    case_bool_decide as Hdest; [|by auto].
    destruct Hdest as [old Hold].
    pose proof (backupRaw_cases later_on f dest
                  {| BackupOptions.OutputPath := safety_path later_on dest;
                     BackupOptions.Compress := false;
                     BackupOptions.Verify := false;
                     BackupOptions.Verbose := RestoreOptions.Verbose ropts |}
                  later old Hold (safety_path_fresh later_on dest)) as Hcases.
    cbv zeta in Hcases. cbn [BackupOptions.OutputPath] in Hcases.
    destruct Hcases as [[Herr Hsame] | Hdone].
    - split; [left; by apply wrapped_fst|]. unfold wrapped. cbn [snd].
      by rewrite Hsame, Hold.
    - rewrite Hdone, wrapped_None. cbn [fst snd]. split.
      + right. rewrite lookup_insert_ne; [done|].
        intros Heq. by apply Hsafe.
      + rewrite lookup_insert_ne; [done|]. apply safety_path_fresh.
  }
  destruct saved as [[err|] saved2]; cbn [fst snd] in *;
    [split; [eauto|by apply Hsaved]|].
  destruct Hsaved as [[[x Hx] | Hkept] Hsame]; [discriminate Hx|].
  rewrite (isCompressedFile_lookup _ saved2 _ (mkFile "" now) Hkept).
  cbn [content].
  destruct (os_open_err f out); split; eauto.
Qed.

End BackupRestoreProperties.

Lemma Backup_writes_only_output_witness :
  BackupRestore.BackupOptions.Verify (BackupRestore.raw_opts "backup.db")
  = false /\
  (BackupExamples.backup (BackupRestore.raw_opts "backup.db")
     BackupRestore.database_files).2 !! "gogo.db"
  = BackupRestore.database_files !! "gogo.db".
Proof.
  split; [reflexivity|].
  apply (proj1 (BackupRestoreProperties.Backup_writes_only_output
                  1700000100 BackupRestore.toy_Base BackupRestore.toy_encode
                  BackupRestore.toy_NewReader BackupRestore.toy_read
                  BackupRestore.calm_session BackupRestore.no_os_faults
                  "gogo.db" (BackupRestore.raw_opts "backup.db")
                  BackupRestore.database_files eq_refl)).
  vm_compute. discriminate.
Defined.

Lemma Backup_writes_copy_witness :
  BackupRestore.database_files !! "gogo.db"
  = Some (Backup.mkFile "SQLite format 3" 1700000000) /\
  BackupExamples.backup (BackupRestore.gz_opts "gogo.db.gz")
    BackupRestore.database_files
  = (None,
     <["gogo.db.gz" :=
         Backup.mkFile (BackupRestore.toy_magic +:+ "SQLite format 3")
           1700000100]> BackupRestore.database_files).
Proof.
  split; [by vm_compute|].
  exact (BackupRestoreProperties.Backup_writes_copy
           1700000100 BackupRestore.toy_Base BackupRestore.toy_encode
           BackupRestore.toy_NewReader BackupRestore.toy_read
           BackupRestore.calm_session BackupRestore.no_os_faults
           "gogo.db" (BackupRestore.gz_opts "gogo.db.gz")
           BackupRestore.database_files
           (Backup.mkFile "SQLite format 3" 1700000000)
           eq_refl eq_refl eq_refl eq_refl eq_refl eq_refl eq_refl eq_refl).
Defined.

Lemma Restore_touches_only_database_witness :
  BackupRestore.database_files !! "lost.db" = None /\
  BackupExamples.restore (BackupRestore.restore_opts "lost.db" true true)
    BackupRestore.database_files
  = (Some (Errorf "backup file does not exist: lost.db"),
     BackupRestore.database_files).
Proof.
  split; [by vm_compute|].
  exact (proj1 (BackupRestoreProperties.Restore_touches_only_database
                  1700000200 BackupRestore.toy_NewReader
                  BackupRestore.toy_read BackupRestore.calm_session
                  BackupRestore.no_os_faults "gogo.db"
                  (BackupRestore.restore_opts "lost.db" true true)
                  BackupRestore.database_files) eq_refl).
Defined.

Lemma Restore_keeps_safety_copy_witness :
  (BackupExamples.with_backup !! "backup.db"
   = Some (Backup.mkFile "SQLite format 3" 1700000100) /\
   BackupExamples.with_backup !! "gogo.db"
   = Some (Backup.mkFile "SQLite format 3 (new)" 1700000300)) /\
  let r := BackupExamples.restore
             (BackupRestore.restore_opts "backup.db" true true)
             BackupExamples.with_backup in
  (exists err, r.1 = Some (Wrap "failed to backup existing database" err)
               /\ r.2 !! "gogo.db"
                  = Some (Backup.mkFile "SQLite format 3 (new)" 1700000300))
  \/ r.2 !! "gogo.db.backup.1700000200"
     = Some (Backup.mkFile "SQLite format 3 (new)" 1700000200).
Proof.
  split; [by vm_compute|].
  exact (BackupRestoreProperties.Restore_keeps_safety_copy
           1700000200 BackupRestore.toy_NewReader BackupRestore.toy_read
           BackupRestore.calm_session BackupRestore.no_os_faults "gogo.db"
           (BackupRestore.restore_opts "backup.db" true true)
           BackupExamples.with_backup
           (Backup.mkFile "SQLite format 3" 1700000100)
           (Backup.mkFile "SQLite format 3 (new)" 1700000300)
           eq_refl eq_refl eq_refl eq_refl eq_refl).
Defined.

Lemma Backup_Restore_round_trip_witness :
  let later :=
    BackupExamples.changed_since
      (BackupExamples.backup (BackupRestore.gz_opts "gogo.db.gz")
         BackupRestore.database_files).2 in
  let r := BackupExamples.restore
             (BackupRestore.restore_opts "gogo.db.gz" true true) later in
  later !! "gogo.db"
  = Some (Backup.mkFile "SQLite format 3 (new)" 1700000150) /\
  r.1 = None /\
  r.2 !! "gogo.db" = Some (Backup.mkFile "SQLite format 3" 1700000200).
Proof.
  split; [by vm_compute|].
  apply (BackupRestoreProperties.Backup_Restore_round_trip
           1700000100 1700000200 BackupRestore.toy_Base
           BackupRestore.toy_encode BackupRestore.toy_NewReader
           BackupRestore.toy_read BackupRestore.calm_session
           "gogo.db" "gogo.db" (BackupRestore.gz_opts "gogo.db.gz")
           (BackupRestore.restore_opts "gogo.db.gz" true true)
           BackupRestore.database_files
           (BackupExamples.changed_since
              (BackupExamples.backup (BackupRestore.gz_opts "gogo.db.gz")
                 BackupRestore.database_files).2)
           (Backup.mkFile "SQLite format 3" 1700000000)).
  - by vm_compute.
  - vm_compute. discriminate.
  - reflexivity.
  - by vm_compute.
  - by vm_compute.
  - reflexivity.
  - vm_compute. discriminate.
  - reflexivity.
  - reflexivity.
  - intros _. vm_compute. discriminate.
Defined.

Lemma Backup_of_empty_database_witness :
  let b := BackupExamples.backup (BackupRestore.raw_opts "backup.db")
             BackupExamples.empty_database_files in
  (BackupExamples.empty_database_files !! "gogo.db"
   = Some (Backup.mkFile "" 1700000000)) /\
  b.1 = None /\
  is_Some (BackupExamples.restore
             (BackupRestore.restore_opts "backup.db" true false) b.2).1.
Proof.
  split; [by vm_compute|].
  pose proof (BackupRestoreProperties.Backup_of_empty_database
                1700000100 BackupRestore.toy_Base BackupRestore.toy_encode
                BackupRestore.toy_NewReader BackupRestore.toy_read
                BackupRestore.calm_session "gogo.db"
                (BackupRestore.raw_opts "backup.db")
                BackupExamples.empty_database_files
                (Backup.mkFile "" 1700000000)) as Hempty.
  cbv zeta in Hempty.
  destruct Hempty as (_ & Hresult & Hrestore).
  - by vm_compute.
  - reflexivity.
  - vm_compute. discriminate.
  - reflexivity.
  - split; [exact Hresult|].
    apply (Hrestore BackupRestore.no_os_faults 1700000200%Z "gogo.db"
             (BackupRestore.restore_opts "backup.db" true false)).
    + reflexivity.
    + reflexivity.
    + intros Hkeep. discriminate Hkeep.
Defined.

(** Backing the database up onto itself reports success and leaves a file
    of no bytes; restoring by force from a good backup puts the old content
    back and keeps what was overwritten beside it. *)
Example backup_and_restore_runs :
  let restored :=
    (BackupExamples.restore (BackupRestore.restore_opts "backup.db" true true)
       BackupExamples.with_backup).2 in
  BackupExamples.backup (BackupRestore.raw_opts "gogo.db")
    BackupRestore.database_files
  = (None, {[ "gogo.db" := Backup.mkFile "" 1700000100 ]}) /\
  restored !! "gogo.db" = Some (Backup.mkFile "SQLite format 3" 1700000200) /\
  restored !! "backup.db"
  = Some (Backup.mkFile "SQLite format 3" 1700000100) /\
  restored !! "gogo.db.backup.1700000200"
  = Some (Backup.mkFile "SQLite format 3 (new)" 1700000200) /\
  size restored = 3.
Proof. by vm_compute. Qed.

(** ** Export in the other formats *)

Section ExportFormatsProperties.

Variable exec : string -> Store -> result Store.
Variable fmt_time : Z -> string.
Variable encode_json : ExportedData -> result string.
Variable decode_json : string -> result ExportedData.
Variable filepath_Join : string -> string -> string.

Lemma add_out_add_out (w : World) (l1 l2 : list string) :
  add_out (add_out w l1) l2 = add_out w (l1 ++ l2).
Proof. unfold add_out. cbn. by rewrite app_assoc. Qed.

Lemma getTablesToExport_ok (f : IOFaults) (opts : ExportOptions) (w : World) :
  (Tables opts = [] -> io_query_err f = None) ->
  getTablesToExport f (Tables opts) w
  = (Ok (tables_to_export opts (w_store w)), w).
Proof.
  intros Hquery. unfold tables_to_export.
  destruct (Tables opts) as [|first rest]; [|done].
  unfold getTablesToExport, io_wrap, io_bind, io_lift, get_store, io_ret.
  by rewrite Hquery.
Qed.

(** The loop of [exportCSV] fails at its first table and writes nothing. *)
Lemma csv_tables_spec (opts : ExportOptions) (baseDir : string)
    (tbls : list string) (n : nat) (w : World) :
  exists lines,
    csv_tables filepath_Join opts baseDir tbls n w
    = (match tbls with
       | [] => Ok n
       | table :: _ =>
           Err (Wrap ("failed to export CSV for table " +:+ table)
                  (Errorf "CSV export not fully implemented"))
       end, add_out w lines).
Proof.
  destruct tbls as [|table rest].
  - exists []. unfold add_out. cbn. rewrite app_nil_r. by destruct w.
  - cbn [csv_tables]. unfold io_bind.
    destruct (print_if_world (ExVerbose opts)
                ("Exporting table: " +:+ table) w) as [lines ->].
    exists lines. done.
Qed.

(** X28. Nothing can be exported as CSV. [Export] in the CSV format
    never changes the database or a file; when the directories can be made
    and the tables can be listed, it succeeds exactly when there is no table
    to export, and otherwise fails at the first table with "failed to
    export CSV for table <name>: CSV export not fully implemented". A
    format that is none of sql, json and csv is refused by name, after the
    output directory has been made. *)
Theorem Export_csv_exports_nothing (f : IOFaults) (d : DirFaults) (now : Z)
    (generated : string) (opts : ExportOptions) (w : World) :
  let r := Export fmt_time encode_json filepath_Join f d now generated
             opts w in
  (ExFormat opts = FormatCSV ->
   w_store r.2 = w_store w /\ w_fs r.2 = w_fs w /\
   (out_dir_err d = None -> csv_dir_err d = None ->
    (Tables opts = [] -> io_query_err f = None) ->
    r.1 = match tables_to_export opts (w_store w) with
          | [] => Ok tt
          | table :: _ =>
              Err (Wrap ("failed to export CSV for table " +:+ table)
                     (Errorf "CSV export not fully implemented"))
          end)) /\
  (forall name, ExFormat opts = FormatOther name ->
   out_dir_err d = None ->
   r.1 = Err (Errorf ("unsupported export format: " +:+ name)) /\
   w_store r.2 = w_store w /\ w_fs r.2 = w_fs w).
Proof.
  intros r. unfold r, Export, io_bind.
  destruct (print_if_world (ExVerbose opts) "Starting database export..." w)
    as [lines ->].
  change {| w_store := w_store w; w_fs := w_fs w; w_out := w_out w ++ lines |}
    with (add_out w lines).
  split.
  - intros ->. unfold io_wrap at 1. unfold io_lift.
    destruct (out_dir_err d) as [e|]; cbn [check wrap]; [by auto|].
    unfold exportCSV, io_bind, io_wrap.
    assert (Hlist :
      forall w0, (getTablesToExport f (Tables opts) w0).2 = w0 /\
                 ((Tables opts = [] -> io_query_err f = None) ->
                  (getTablesToExport f (Tables opts) w0).1
                  = Ok (tables_to_export opts (w_store w0)))).
    { intros w0. split; [|intros Hq; by rewrite getTablesToExport_ok].
      unfold getTablesToExport. destruct (Tables opts); [|done].
      unfold io_wrap, io_bind, io_lift, get_store, io_ret.
      by destruct (io_query_err f). }
    destruct (Hlist (add_out w lines)) as [Hsame Hok].
    destruct (getTablesToExport f (Tables opts) (add_out w lines))
      as [[tbls|e] w1]; cbn [fst snd wrap] in *; subst w1.
    2: { split; [done|]; split; [done|];
         intros _ _ Hq; by specialize (Hok Hq). }
    unfold io_lift.
    destruct (csv_dir_err d) as [e|] eqn:Hcsv; cbn [check wrap];
      [split; [done|]; split; [done|]; by intros _ Habs|].
    destruct (csv_tables_spec opts
                (GoPath.TrimSuffix (OutputPath opts)
                   (GoPath.Ext (OutputPath opts)))
                tbls 0 (add_out w lines)) as [lines' ->].
    destruct tbls as [|table rest].
    + destruct (print_if_world (ExVerbose opts)
                  ("✓ CSV export completed: " +:+ fmt_d (length (@nil string))
                     +:+ " tables, " +:+ fmt_d 0 +:+ " rows in "
                     +:+ GoPath.TrimSuffix (OutputPath opts)
                           (GoPath.Ext (OutputPath opts)))
                  (add_out (add_out w lines) lines')) as [lines'' ->].
      split; [done|]. split; [done|]. intros _ _ Hq.
      specialize (Hok Hq). injection Hok as <-. done.
    + split; [done|]. split; [done|]. intros _ _ Hq.
      specialize (Hok Hq). injection Hok as <-. done.
  - intros name -> Hdir. unfold io_wrap, io_lift. rewrite Hdir. done.
Qed.

(** The loop of [exportJSON] on tables that are there. *)
Lemma collect_tables_ok (opts : ExportOptions) (tbls : list string)
    (collected : gmap string (list (gmap string Value))) (n : nat)
    (w : World) :
  Forall (fun table => is_Some (lookup_table (w_store w) table)) tbls ->
  exists lines,
    collect_tables opts tbls collected n w
    = (Ok (foldl (fun collected table =>
                    <[table := rows_of (w_store w) table]> collected)
             collected tbls,
           n + row_total (w_store w) tbls),
       add_out w lines).
Proof.
  intros Hall. revert collected n w Hall.
  induction tbls as [|table rest IH]; intros collected n w Hall.
  - exists []. unfold add_out. cbn. rewrite app_nil_r, Nat.add_0_r.
    by destruct w.
  - apply Forall_cons in Hall as [[t Ht] Hrest].
    cbn [collect_tables foldl row_total foldr]. unfold io_bind.
    destruct (print_if_world (ExVerbose opts)
                ("Exporting table: " +:+ table) w) as [lines ->].
    unfold io_wrap, getTableRows, io_bind, get_store. cbn [add_out w_store].
    unfold rows_of at 1 2. rewrite Ht. cbn [io_ret wrap].
    destruct (IH (<[table := map (table_row (tbl_columns t)) (tbl_rows t)]>
                    collected)
                (n + length (map (table_row (tbl_columns t)) (tbl_rows t)))
                {| w_store := w_store w; w_fs := w_fs w;
                   w_out := w_out w ++ lines |} Hrest) as [lines' ->].
    exists (lines ++ lines'). unfold add_out. cbn [w_store w_fs w_out].
    rewrite app_assoc. do 2 f_equal. f_equal. fold (row_total (w_store w) rest).
    unfold rows_of. rewrite Ht. lia.
Qed.

(** X29. What [exportJSON] writes, and when it writes nothing. When every
    table to export is there and the file can be made, it hands the encoder
    a bundle with version "1.0", format "json", the time of the export, the
    number of names in the list as table count, the rows of the listed
    tables added up as row count and each listed table's rows under its
    name, and the file holds the encoder's text in place of whatever it
    held; the database is unchanged. When a listed table is missing it
    fails with "failed to get rows for table <name>: failed to query
    table: ..." before the output file is made: no file is created or
    changed, the tables before the missing one notwithstanding. *)
Theorem exportJSON_writes_bundle (f : IOFaults) (now : Z)
    (opts : ExportOptions) (w : World) :
  (Tables opts = [] -> io_query_err f = None) ->
  let s := w_store w in
  let tbls := tables_to_export opts s in
  (Forall (fun table => is_Some (lookup_table s table)) tbls ->
   create_err f = None ->
   forall text, encode_json (bundle_of now s tbls) = Ok text ->
   exists lines,
     exportJSON encode_json f now opts w
     = (Ok tt,
        {| w_store := s; w_fs := <[OutputPath opts := text]> (w_fs w);
           w_out := w_out w ++ lines |}) /\
     (ExVerbose opts = true ->
      last lines = Some (json_export_line (length tbls) (row_total s tbls))))
  /\
  (forall done missing rest,
     tbls = done ++ missing :: rest ->
     Forall (fun table => is_Some (lookup_table s table)) done ->
     lookup_table s missing = None ->
     exists lines,
       exportJSON encode_json f now opts w
       = (Err (missing_rows_error missing), add_out w lines)).
Proof.
  intros Hquery s tbls. split.
  - intros Hall Hcreate text Henc.
    unfold exportJSON, io_bind, io_wrap at 1.
    rewrite (getTablesToExport_ok f opts w Hquery). cbn [wrap].
    fold s tbls.
    destruct (collect_tables_ok opts tbls ∅ 0 w Hall) as [lines ->].
    fold s. cbn [fst snd Nat.add].
    unfold io_wrap, create_file. rewrite Hcreate. cbn [wrap add_out w_store
      w_fs w_out io_lift].
    change {| Metadata := _; DataTables := _ |} with (bundle_of now s tbls).
    rewrite Henc. cbn [wrap]. unfold fprint. cbn [w_store w_fs w_out].
    rewrite lookup_insert_eq, insert_insert_eq. cbn [default from_option id].
    change ("" +:+ text) with text.
    destruct (ExVerbose opts) eqn:Hv; cbn [print_if print io_ret w_store
      w_fs w_out].
    + exists (lines ++ [json_export_line (length tbls) (row_total s tbls)]).
      split; [by rewrite app_assoc|]. intros _. apply last_snoc.
    + exists lines. split; [done|]. intros Habs. discriminate Habs.
  - intros done missing rest Hsplit Hdone Hmissing.
    unfold exportJSON, io_bind, io_wrap at 1.
    rewrite (getTablesToExport_ok f opts w Hquery). cbn [wrap].
    fold s tbls. rewrite Hsplit.
    assert (Hstop : forall collected n w0,
      w_store w0 = s ->
      exists lines,
        collect_tables opts (done ++ missing :: rest) collected n w0
        = (Err (missing_rows_error missing), add_out w0 lines)).
    { clear Hsplit. induction Hdone as [|table done [t Ht] Hdone IH];
        intros collected n w0 Hw0.
      - cbn [app collect_tables]. unfold io_bind.
        destruct (print_if_world (ExVerbose opts)
                    ("Exporting table: " +:+ missing) w0) as [lines ->].
        unfold io_wrap, getTableRows, io_bind, get_store.
        cbn [add_out w_store]. rewrite <- Hw0 in Hmissing.
        rewrite Hmissing. exists lines. done.
      - cbn [app collect_tables]. unfold io_bind.
        destruct (print_if_world (ExVerbose opts)
                    ("Exporting table: " +:+ table) w0) as [lines ->].
        unfold io_wrap, getTableRows, io_bind, get_store.
        cbn [add_out w_store]. rewrite <- Hw0 in Ht. rewrite Ht.
        cbn [io_ret wrap].
        destruct (IH (<[table := map (table_row (tbl_columns t))
                                   (tbl_rows t)]> collected)
                    (n + length (map (table_row (tbl_columns t))
                                   (tbl_rows t)))
                    {| w_store := w_store w0; w_fs := w_fs w0;
                       w_out := w_out w0 ++ lines |} Hw0) as [lines' ->].
        exists (lines ++ lines'). unfold add_out. cbn [w_store w_fs w_out].
        by rewrite app_assoc. }
    destruct (Hstop ∅ 0 w eq_refl) as [lines ->]. exists lines. done.
Qed.

Lemma sum_rows_perm (l1 l2 : list (string * list (gmap string Value))) :
  l1 ≡ₚ l2 ->
  foldr (fun kv n => length kv.2 + n) 0 l1
  = foldr (fun kv n => length kv.2 + n) 0 l2.
Proof.
  induction 1 as [|x l1 l2 _ IH|x y l|l1 l2 l3 _ IH1 _ IH2]; cbn.
  - done.
  - by rewrite IH.
  - lia.
  - by rewrite IH1.
Qed.

(** Collecting tables without repetition into a map that has none of them
    adds their rows to the rows of the map. *)
Lemma collected_rows (s : Store) (tbls : list string)
    (collected : gmap string (list (gmap string Value))) :
  NoDup tbls ->
  Forall (fun table => collected !! table = None) tbls ->
  foldr (fun kv n => length kv.2 + n) 0
    (map_to_list
       (foldl (fun collected table => <[table := rows_of s table]> collected)
          collected tbls))
  = foldr (fun kv n => length kv.2 + n) 0 (map_to_list collected)
    + row_total s tbls.
Proof.
  intros Hnd. revert collected.
  induction Hnd as [|table rest Hfresh Hnd IH]; intros collected Hnew.
  - cbn. lia.
  - apply Forall_cons in Hnew as [Hnone Hnew]. cbn [foldl row_total foldr].
    rewrite IH.
    + rewrite (sum_rows_perm _ _ (map_to_list_insert collected table
                                    (rows_of s table) Hnone)).
      cbn [foldr snd]. fold (row_total s rest). lia.
    + apply Forall_forall. intros t Ht.
      rewrite lookup_insert_ne; [by apply (proj1 (Forall_forall _ _) Hnew)|].
      intros ->. by apply Hfresh.
Qed.

Lemma collected_size (s : Store) (tbls : list string)
    (collected : gmap string (list (gmap string Value))) :
  NoDup tbls ->
  Forall (fun table => collected !! table = None) tbls ->
  size (foldl (fun collected table => <[table := rows_of s table]> collected)
          collected tbls)
  = size collected + length tbls.
Proof.
  intros Hnd. revert collected.
  induction Hnd as [|table rest Hfresh Hnd IH]; intros collected Hnew;
    cbn [foldl length]; [lia|].
  apply Forall_cons in Hnew as [Hnone Hnew]. rewrite IH.
  - rewrite map_size_insert_None by done. lia.
  - apply Forall_forall. intros t Ht.
    rewrite lookup_insert_ne; [by apply (proj1 (Forall_forall _ _) Hnew)|].
    intros ->. by apply Hfresh.
Qed.

(** X30. A bundle as [exportJSON] builds it from a list of tables without
    repetition passes the importer's validation, and the importer counts in
    it what the exporter counted: the dry run announces the number of
    tables and the number of rows of the list, and the real run reports the
    same number of rows as imported. *)
Theorem Import_of_exported_bundle (f : IOFaults) (now : Z) (s : Store)
    (tbls : list string) (opts : ImportOptions) (w : World)
    (content : string) :
  NoDup tbls ->
  ImFormat opts = FormatJSON ->
  w_fs w !! InputPath opts = Some content ->
  decode_json content = Ok (bundle_of now s tbls) ->
  let r := Import exec decode_json f opts w in
  r.1 = Ok tt /\
  last (w_out r.2)
  = Some (if DryRun opts
          then dry_run_json_line (Z.of_nat (length tbls))
                 (Z.of_nat (row_total s tbls))
          else json_done_line (row_total s tbls)) /\
  size (DataTables (bundle_of now s tbls)) = length tbls.
Proof.
  intros Hnd Hjson Hfile Hdec r.
  assert (Hrows : total_rows (bundle_of now s tbls) = row_total s tbls).
  { unfold total_rows, bundle_of. cbn [DataTables].
    rewrite (collected_rows s tbls ∅ Hnd).
    - by rewrite map_to_list_empty.
    - apply Forall_forall. intros t _. apply lookup_empty. }
  unfold r.
  destruct (Import_dispatch exec decode_json f opts w) as [lines ->].
  rewrite Hfile, Hjson.
  assert (Hfile' : w_fs (add_out w lines) !! InputPath opts = Some content)
    by done.
  destruct (importJSON_run decode_json opts (add_out w lines) content
              (bundle_of now s tbls) Hfile' Hdec) as [Hok Hlast].
  { intros _ Habs. discriminate Habs. }
  split; [exact Hok|]. split.
  - rewrite Hlast, Hrows. done.
  - cbn [bundle_of DataTables]. rewrite (collected_size s tbls ∅ Hnd).
    + by rewrite map_size_empty.
    + apply Forall_forall. intros t _. apply lookup_empty.
Qed.

End ExportFormatsProperties.

Lemma Export_csv_exports_nothing_witness :
  let r := Export (fun t => fmt_dZ t) toy_encode_json toy_Join no_io_faults
             no_dir_faults 1700000000 "2023-11-14 22:13:20"
             (csv_opts []) (world_of notes_store ∅) in
  ExFormat (csv_opts []) = FormatCSV /\
  w_store r.2 = notes_store /\ w_fs r.2 = ∅ /\
  r.1 = Err (Wrap "failed to export CSV for table notes"
               (Errorf "CSV export not fully implemented")).
Proof.
  split; [reflexivity|].
  destruct (proj1 (Export_csv_exports_nothing (fun t => fmt_dZ t)
                     toy_encode_json toy_Join no_io_faults no_dir_faults
                     1700000000 "2023-11-14 22:13:20" (csv_opts [])
                     (world_of notes_store ∅)) eq_refl)
    as (Hstore & Hfs & Hresult).
  split; [exact Hstore|]. split; [exact Hfs|].
  exact (Hresult eq_refl eq_refl (fun _ => eq_refl)).
Defined.

Lemma exportJSON_writes_bundle_witness :
  (Tables (json_opts ["notes"]) = [] -> io_query_err no_io_faults = None) /\
  exists lines,
    exportJSON toy_encode_json no_io_faults 1700000000 (json_opts ["notes"])
      (world_of notes_store ∅)
    = (Ok tt,
       {| w_store := notes_store; w_fs := <["dump.json" := notes_json]> ∅;
          w_out := [] ++ lines |}) /\
    (ExVerbose (json_opts ["notes"]) = true ->
     last lines = Some (json_export_line 1 (row_total notes_store ["notes"]))).
Proof.
  split; [reflexivity|].
  apply (proj1 (exportJSON_writes_bundle toy_encode_json no_io_faults
                  1700000000 (json_opts ["notes"]) (world_of notes_store ∅)
                  (fun _ => eq_refl))).
  - repeat (constructor; [vm_compute; eauto|]). constructor.
  - reflexivity.
  - reflexivity.
Defined.

Lemma Import_of_exported_bundle_witness :
  let opts := import_opts "dump.json" FormatJSON false in
  let r := Import ToyEngine.exec decode_notes no_io_faults opts
             (world_of empty_store exported_files) in
  (NoDup ["notes"] /\ ImFormat opts = FormatJSON /\
   exported_files !! "dump.json" = Some notes_json /\
   decode_notes notes_json = Ok notes_bundle) /\
  r.1 = Ok tt /\
  last (w_out r.2) = Some (json_done_line (row_total notes_store ["notes"])).
Proof.
  assert (Hnd : NoDup ["notes"]) by (apply (bool_decide_unpack _); reflexivity).
  split; [split; [exact Hnd|]; by vm_compute|].
  destruct (Import_of_exported_bundle ToyEngine.exec decode_notes
              no_io_faults 1700000000 notes_store ["notes"]
              (import_opts "dump.json" FormatJSON false)
              (world_of empty_store exported_files) notes_json
              Hnd eq_refl eq_refl eq_refl) as (Hok & Hlast & _).
  split; [exact Hok | exact Hlast].
Defined.

(** Asking for a table twice counts its rows twice in the metadata, though
    the bundle holds the table once: the importer's dry run then announces
    two tables and two rows where its real run imports one row. *)
Example exportJSON_counts_repetitions :
  let bundle := bundle_of 1700000000 notes_store ["notes"; "notes"] in
  (TableCount (Metadata bundle), RowCount (Metadata bundle),
   size (DataTables bundle), total_rows bundle) = (2%Z, 2%Z, 1, 1).
Proof. by vm_compute. Qed.
